(** * The grading pipeline of [evaluate.service.ts]

    A shallow embedding of [EvaluateService]: the orchestrator [evaluate],
    the stage runners, the file collector and the Groq evaluator, followed by
    the properties of the pipeline.

    Conventions of the embedding.
    - A JavaScript string is a [string]: a sequence of code units, each code
      unit an [ascii].  [String.length] is the JavaScript [length].  The one
      literal of the service beyond ASCII, the bullet of the analyzer
      patterns, is held as its UTF-8 bytes, and so is tool output.
    - A JavaScript number that the service computes with is a [number]:
      [NaN], an infinity, or an integer.  Every number the service computes
      comes from integer literals and from [parseInt], whose results are
      integer valued.  Integers are kept exact (the rounding of integers
      above 2^53 to binary64 is not modelled).
    - Everything outside the process (the URL parser, git, the file system,
      the Flutter tool chain, the configuration, the HTTP call, [JSON.parse],
      the engine's number formatting and error texts) is a field of [World].
      The service is a function of the world it runs in.
    - Calls that leave the process are recorded in a trace of [event]s.
      Logger output is not recorded. *)

From Stdlib Require Import ZArith List String Ascii Bool Lia DecimalString QArith.
Import ListNotations.

Set Warnings "-register-all".

Open Scope string_scope.
Open Scope Z_scope.

(** ** JavaScript numbers *)

Inductive number : Type :=
| NaN
| Infinity (negative : bool)
| Int (z : Z).

Module Math.

(** [Math.max(a, b)]. *)
Definition max (a b : number) : number :=
  match a, b with
  | NaN, _ => NaN
  | _, NaN => NaN
  | Infinity false, _ => Infinity false
  | _, Infinity false => Infinity false
  | Infinity true, y => y
  | x, Infinity true => x
  | Int x, Int y => Int (Z.max x y)
  end.

(** [Math.min(a, b)]. *)
Definition min (a b : number) : number :=
  match a, b with
  | NaN, _ => NaN
  | _, NaN => NaN
  | Infinity true, _ => Infinity true
  | _, Infinity true => Infinity true
  | Infinity false, y => y
  | x, Infinity false => x
  | Int x, Int y => Int (Z.min x y)
  end.

End Math.

(** [a + b] on numbers. *)
Definition plus (a b : number) : number :=
  match a, b with
  | NaN, _ => NaN
  | _, NaN => NaN
  | Infinity s, Infinity s' => if Bool.eqb s s' then Infinity s else NaN
  | Infinity s, Int _ => Infinity s
  | Int _, Infinity s => Infinity s
  | Int x, Int y => Int (x + y)
  end.

(** [a - b] on numbers. *)
Definition minus (a b : number) : number :=
  match a, b with
  | NaN, _ => NaN
  | _, NaN => NaN
  | Infinity s, Infinity s' => if Bool.eqb s s' then NaN else Infinity s
  | Infinity s, Int _ => Infinity s
  | Int _, Infinity s => Infinity (negb s)
  | Int x, Int y => Int (x - y)
  end.

(** Truthiness of a number: [NaN] and zero are falsy. *)
Definition truthy_number (n : number) : bool :=
  match n with
  | NaN => false
  | Infinity _ => true
  | Int z => negb (z =? 0)
  end.

(** [a || b] on numbers. *)
Definition or_number (a b : number) : number :=
  if truthy_number a then a else b.

(** Number to string, as a template literal does it. *)
Definition number_toString (n : number) : string :=
  match n with
  | NaN => "NaN"
  | Infinity false => "Infinity"
  | Infinity true => "-Infinity"
  | Int z => NilZero.string_of_int (Z.to_int z)
  end.

(** The number [n] is an integer between [lo] and [hi]. *)
Definition in_range (lo hi : Z) (n : number) : Prop :=
  exists z, n = Int z /\ lo <= z <= hi.

(** ** JavaScript strings *)

Definition LF : ascii := ascii_of_nat 10.
Definition newline : string := String LF "".

(** Truthiness of a string: only the empty string is falsy. *)
Definition truthy_string (s : string) : bool :=
  match s with
  | "" => false
  | _ => true
  end.

(** [a || b] where [a] is a string that may be [undefined]. *)
Definition or_string (a : option string) (b : string) : string :=
  match a with
  | Some s => if truthy_string s then s else b
  | None => b
  end.

(** [s.substring(0, n)]. *)
Definition substring0 (n : nat) (s : string) : string := substring 0 n s.

(** [s.includes(sub)]. *)
Fixpoint includes (s sub : string) : bool :=
  prefix sub s ||
  match s with
  | "" => false
  | String _ s' => includes s' sub
  end.

(** [s.endsWith(suffix)]. *)
Fixpoint endsWith (s suffix : string) : bool :=
  String.eqb s suffix ||
  match s with
  | "" => false
  | String _ s' => endsWith s' suffix
  end.

(** [parts.join(sep)]. *)
Definition join (sep : string) (parts : list string) : string :=
  String.concat sep parts.

(** The white space of [trim], [parseInt] and the regular expression class
    [\s], restricted to the code units below 256: TAB, LF, VT, FF, CR, SP and
    NBSP. *)
Definition isWhiteSpace (c : ascii) : bool :=
  let n := nat_of_ascii c in
  ((9 <=? n) && (n <=? 13))%nat || (n =? 32)%nat || (n =? 160)%nat.

(** The regular expression class [\d]. *)
Definition isDigit (c : ascii) : bool :=
  let n := nat_of_ascii c in ((48 <=? n) && (n <=? 57))%nat.

Fixpoint trimStart (s : string) : string :=
  match s with
  | "" => ""
  | String c s' => if isWhiteSpace c then trimStart s' else s
  end.

Fixpoint allWhiteSpace (s : string) : bool :=
  match s with
  | "" => true
  | String c s' => isWhiteSpace c && allWhiteSpace s'
  end.

Fixpoint trimEnd (s : string) : string :=
  match s with
  | "" => ""
  | String c s' => if allWhiteSpace s then "" else String c (trimEnd s')
  end.

(** [s.trim()]. *)
Definition trim (s : string) : string := trimEnd (trimStart s).

(** [s.replace(/<pat>\n?/g, '')] for a non-empty literal [pat]: every
    occurrence of [pat], with the line feed that follows it when there is
    one, is removed, scanning from the left.  [skip] counts the code units
    of the current match that are still to be dropped. *)
Fixpoint removeAll (pat : string) (skip : nat) (s : string) : string :=
  match s with
  | "" => ""
  | String c s' =>
      match skip with
      | S k => removeAll pat k s'
      | O =>
          if prefix pat s then
            let after := substring (String.length pat) 1 s in
            let len := (String.length pat
                        + (if String.eqb after newline then 1 else 0))%nat in
            removeAll pat (Nat.pred len) s'
          else String c (removeAll pat 0 s')
      end
  end.

Definition fenceJson : string := "```json".
Definition fence : string := "```".

(** [result.replace(/```json\n?/g, '').replace(/```\n?/g, '').trim()]. *)
Definition stripCodeFences (result : string) : string :=
  trim (removeAll fence 0 (removeAll fenceJson 0 result)).

(** ** [parseInt] on strings and the score patterns *)

(** The value of [c] as a digit of the given radix (10 or 16). *)
Definition digitValue (radix : Z) (c : ascii) : option Z :=
  let n := Z.of_nat (nat_of_ascii c) in
  if (48 <=? n) && (n <=? 57) then Some (n - 48)
  else if (radix =? 16) && (97 <=? n) && (n <=? 102) then Some (n - 87)
  else if (radix =? 16) && (65 <=? n) && (n <=? 70) then Some (n - 55)
  else None.

(** The value of the longest prefix of [s] made of digits of the radix,
    continuing from [acc]; [None] when [s] starts with no digit and [seen]
    is false. *)
Fixpoint digitsValue (radix : Z) (seen : bool) (acc : Z) (s : string)
  : option Z :=
  match s with
  | "" => if seen then Some acc else None
  | String c s' =>
      match digitValue radix c with
      | Some d => digitsValue radix true (acc * radix + d) s'
      | None => if seen then Some acc else None
      end
  end.

(** Integers from here on round to an infinity in binary64. *)
Definition overflowBound : Z := 2 ^ 1024 - 2 ^ 970.

(** [parseInt(s)] for a string [s], no radix given: leading white space is
    skipped, then a sign, then a [0x] or [0X] prefix selects radix 16, then
    the longest run of digits is read; no digit gives [NaN]. *)
Definition parseIntString (s : string) : number :=
  let s1 := trimStart s in
  let '(negative, s2) :=
    match s1 with
    | String "-" r => (true, r)
    | String "+" r => (false, r)
    | _ => (false, s1)
    end in
  let '(radix, s3) :=
    match s2 with
    | String "0" (String "x" r) => (16, r)
    | String "0" (String "X" r) => (16, r)
    | _ => (10, s2)
    end in
  match digitsValue radix false 0 s3 with
  | None => NaN
  | Some v =>
      if overflowBound <=? v then Infinity negative
      else Int (if negative then - v else v)
  end.

(** The longest prefix of [s] made of decimal digits: the group [(\d+)]. *)
Fixpoint takeDigits (s : string) : string :=
  match s with
  | "" => ""
  | String c s' => if isDigit c then String c (takeDigits s') else ""
  end.

(** ASCII lower case, for the patterns' flag [i]. *)
Definition toLower (c : ascii) : ascii :=
  let n := nat_of_ascii c in
  if ((65 <=? n) && (n <=? 90))%nat then ascii_of_nat (n + 32) else c.

(** [s] starts with [pat], letters compared without case; [pat] is given in
    lower case.  The rest of [s] is returned. *)
Fixpoint stripPrefixIgnoreCase (pat s : string) : option string :=
  match pat, s with
  | "", _ => Some s
  | String _ _, "" => None
  | String p pat', String c s' =>
      if Ascii.eqb p (toLower c) then stripPrefixIgnoreCase pat' s' else None
  end.

(** The group [(\d+)] at the start of [s]. *)
Definition digitsGroup (s : string) : option string :=
  match takeDigits s with
  | "" => None
  | d => Some d
  end.

Definition DQUOTE : ascii := ascii_of_nat 34.

(** The literal part of the first pattern: a quote, [score], a quote, a
    colon. *)
Definition quotedScoreColon : string :=
  String DQUOTE ("score" ++ String DQUOTE ":").

(** The first pattern anchored at the start of [s]: the literal, then
    [\s*], then [(\d+)]. *)
Definition quotedScoreAt (s : string) : option string :=
  match stripPrefixIgnoreCase quotedScoreColon s with
  | Some rest => digitsGroup (trimStart rest)
  | None => None
  end.

(** The longest prefix of [s] in the class [[:\s]] is dropped; [None] when
    it is empty. *)
Fixpoint skipColonsAndSpaces (seen : bool) (s : string) : option string :=
  match s with
  | "" => if seen then Some s else None
  | String c s' =>
      if Ascii.eqb c ":" || isWhiteSpace c then skipColonsAndSpaces true s'
      else if seen then Some s else None
  end.

(** The second pattern anchored at the start of [s]: [score], then
    [[:\s]+], then [(\d+)]. *)
Definition plainScoreAt (s : string) : option string :=
  match stripPrefixIgnoreCase "score" s with
  | Some rest =>
      match skipColonsAndSpaces false rest with
      | Some rest' => digitsGroup rest'
      | None => None
      end
  | None => None
  end.

(** [s.match(re)] for a pattern [re] with no flag [g]: the leftmost position
    where the anchored pattern [at] matches; the group is returned. *)
Fixpoint matchFirst (at_ : string -> option string) (s : string)
  : option string :=
  match at_ s with
  | Some g => Some g
  | None =>
      match s with
      | "" => None
      | String _ s' => matchFirst at_ s'
      end
  end.

(** [result.match(first pattern) || result.match(second pattern)]: the
    group 1 of the match, when there is one. *)
Definition scoreMatch (result : string) : option string :=
  match matchFirst quotedScoreAt result with
  | Some g => Some g
  | None => matchFirst plainScoreAt result
  end.

(** [s] starts with [pat]; the rest of [s] is returned. *)
Fixpoint stripPrefix (pat s : string) : option string :=
  match pat, s with
  | "", _ => Some s
  | String _ _, "" => None
  | String p pat', String c s' =>
      if Ascii.eqb p c then stripPrefix pat' s' else None
  end.

(** [s] up to its first slash, and what follows that slash when there is
    one. *)
Fixpoint splitAtSlash (s : string) : string * option string :=
  match s with
  | "" => ("", None)
  | String "/" s' => ("", Some s')
  | String c s' => let '(a, b) := splitAtSlash s' in (String c a, b)
  end.

(** [github\.com[/:]([^/]+)\/([^/]+)(?:\.git)?$] anchored at the start of
    [s]: the two groups.  Neither group holds a slash, and the second one
    runs to the end of [s]. *)
Definition repoNameAt (s : string) : option (string * string) :=
  match stripPrefix "github.com" s with
  | Some (String c rest) =>
      if Ascii.eqb c "/" || Ascii.eqb c ":" then
        match splitAtSlash rest with
        | (String a owner, Some tail) =>
            match splitAtSlash tail with
            | (String b name, None) =>
                Some (String a owner, String b name)
            | _ => None
            end
        | _ => None
        end
      else None
  | _ => None
  end.

Fixpoint matchRepoName (s : string) : option (string * string) :=
  match repoNameAt s with
  | Some g => Some g
  | None =>
      match s with
      | "" => None
      | String _ s' => matchRepoName s'
      end
  end.

(** [extractRepoName(url)]. *)
Definition extractRepoName (url : string) : string :=
  match matchRepoName url with
  | Some (owner, name) => owner ++ "-" ++ name
  | None => "repo"
  end.

(** ** JSON values and errors *)

(** A number of a parsed JSON text.  The service never computes with one:
    it tests its truthiness and converts it to a string. *)
Inductive jsonNumber : Type :=
| JInfinity (negative : bool)
| JFinite (q : Q).

(** The values [JSON.parse] returns.  [JObj] lists the own properties of the
    object, each key once. *)
Inductive json : Type :=
| JNull
| JBool (b : bool)
| JNum (n : jsonNumber)
| JStr (s : string)
| JArr (items : list json)
| JObj (props : list (string * json)).

(** A value that may be [undefined]. *)
Definition jsval : Type := option json.
Definition undefined : jsval := None.

(** The errors the engine raises in the evaluator: the [TypeError]s of
    reading a property of [null] or [undefined], of calling what is no
    function and of converting an object to a primitive, and the
    [SyntaxError] of [JSON.parse]. *)
Inductive EngineError : Type :=
| PropertyOfNullish (property : string)
| NotAFunction (callee : string)
| NotPrimitive
| InvalidJSON.

(** What the service throws and catches.  [AxiosError] carries
    [error.message] and [error.response?.data]: the body of the answer of
    the server, whatever value it is, and [undefined] when there was no
    answer (network error, timeout) or no body. *)
Inductive exn : Type :=
| BadRequestException (message : string)
| InternalServerErrorException (message : string)
| Error (message : string)
| AxiosError (message : string) (responseData : jsval).

(** [error.message]. *)
Definition message_of (error : exn) : string :=
  match error with
  | BadRequestException m => m
  | InternalServerErrorException m => m
  | Error m => m
  | AxiosError m _ => m
  end.

(** [error.response?.data]. *)
Definition responseData_of (error : exn) : jsval :=
  match error with
  | AxiosError _ data => data
  | _ => undefined
  end.

(** ** The world outside the process *)

(** How a child process ended: [execAsync] resolves with the two streams
    when the command exits with status 0 in time, and rejects otherwise. *)
Inductive ExecResult : Type :=
| Exited (stdout stderr : string)
| Failed (errorMessage stdout stderr : string).

(** What [readdir] with file types finds in a directory, with what reading
    each entry gives: [None] stands for a rejected [readFile] or
    [readdir]. *)
Inductive Dirent : Type :=
| RegularFile (name : string) (content : option string)
| Directory (name : string) (entries : option (list Dirent))
| OtherEntry (name : string).

(** How [axios.post] ended: resolved with [response.data], or rejected
    (network error, timeout, status outside 2xx) with the message of the
    error and the body of the answer, if any. *)
Inductive PostResult : Type :=
| Resolved (data : jsval)
| Rejected (errorMessage : string) (responseData : jsval).

Record World : Type := {
  (** [new URL(url).hostname]; [None] when the constructor throws. *)
  url_hostname : string -> option string;
  (** [path.join(process.cwd(), 'temp-repos')]. *)
  temp_dir : string;
  (** [Date.now()]. *)
  date_now : Z;
  (** [fs.pathExists(path)]. *)
  path_exists : string -> bool;
  (** [fs.remove(path)]: [None] when it resolves, the message of the
      error when it rejects. *)
  remove_error : string -> option string;
  (** [git.clone(repoUrl, repoPath, ['--depth', '1'])], likewise. *)
  clone_error : string -> string -> option string;
  (** [exec(command, { cwd })]. *)
  exec_result : string -> string -> ExecResult;
  (** [fs.readdir(dir, { withFileTypes: true })] and all it leads to. *)
  readdir_result : string -> option (list Dirent);
  (** [configService.get(key)]. *)
  config : string -> option string;
  (** [axios.post(url, body, options)], by url, credential and prompt. *)
  post_result : string -> string -> string -> PostResult;
  (** [JSON.parse(text)]; [None] when it throws. *)
  json_parse : string -> option json;
  (** The engine's conversion of a number to a string. *)
  number_to_string : jsonNumber -> string;
  (** The engine's message for an error it raises. *)
  engine_message : EngineError -> string
}.

(** The calls that leave the process. *)
Inductive event : Type :=
| PathExists (path : string)
| Remove (path : string)
| GitClone (repoUrl repoPath : string)
| Exec (command cwd : string)
| Readdir (dir : string)
| ReadFile (path : string)
| ConfigGet (key : string)
| HttpPost (url : string).

(** ** Computations *)

(** The interface of the three kinds of computation of the model: [ret] and
    [bind] sequence, [throw] raises, [try_catch] is [try { } catch { }]. *)
Class MonadExn (m : Type -> Type) : Type := {
  ret : forall A, A -> m A;
  bind : forall A B, m A -> (A -> m B) -> m B;
  throw : forall A, exn -> m A;
  try_catch : forall A, m A -> (exn -> m A) -> m A
}.

Arguments ret {m _ A} _.
Arguments bind {m _ A B} _ _.
Arguments throw {m _ A} _.
Arguments try_catch {m _ A} _ _.

Notation "x <- c1 ;; c2" := (bind c1 (fun x => c2))
  (at level 61, c1 at next level, right associativity).
Notation "c1 ;; c2" := (bind c1 (fun _ => c2))
  (at level 61, right associativity).

(** A computation with no effect that may throw. *)
Definition Pure (A : Type) : Type := (exn + A)%type.

#[export] Instance MonadExn_Pure : MonadExn Pure := {
  ret _ a := inr a;
  bind _ _ c k := match c with inl e => inl e | inr a => k a end;
  throw _ e := inl e;
  try_catch _ c h := match c with inl e => h e | inr a => inr a end
}.

(** A computation that may throw and that records the calls it makes. *)
Definition IO (A : Type) : Type := ((exn + A) * list event)%type.

#[export] Instance MonadExn_IO : MonadExn IO := {
  ret _ a := (inr a, []);
  bind _ _ c k :=
    match c with
    | (inl e, t) => (inl e, t)
    | (inr a, t) => let '(r, t') := k a in (r, (t ++ t')%list)
    end;
  throw _ e := (inl e, []);
  try_catch _ c h :=
    match c with
    | (inl e, t) => let '(r, t') := h e in (r, (t ++ t')%list)
    | (inr a, t) => (inr a, t)
    end
}.

(** The call [e] is made; it yields [a]. *)
Definition call {A : Type} (e : event) (a : exn + A) : IO A := (a, [e]).

(** A pure computation as one with no call. *)
Definition pure {A : Type} (c : Pure A) : IO A := (c, []).

(** What a computation yields, and the calls it made. *)
Definition outcome {A : Type} (c : IO A) : exn + A := fst c.
Definition trace {A : Type} (c : IO A) : list event := snd c.

(** ** The response ([evaluate-response.dto.ts]) *)

Record CheckResult : Type := {
  name : string;
  passed : bool;
  message : option string;
  score : number
}.

(** [GroqEvaluationSummary], also the shape of what [evaluateWithGroq]
    returns. *)
Module Groq.
Record Evaluation : Type := {
  score : number;
  summary : string;
  strengths : list string;
  weaknesses : list string;
  recommendations : string
}.
End Groq.

Record Details : Type := {
  cloneSuccessful : bool;
  filesValid : bool;
  pubGetSuccessful : bool;
  buildSuccessful : bool;
  testsPassed : bool;
  groqEvaluation : option Groq.Evaluation
}.

Record EvaluateResponseDto : Type := {
  totalScore : number;
  maxScore : number;
  checks : list CheckResult;
  feedback : option string;
  summary : option string;
  details : Details
}.

(** [a || b] on strings that may be [undefined]. *)
Definition or_undefined (a b : option string) : option string :=
  match a with
  | Some s => if truthy_string s then a else b
  | None => b
  end.

Definition buildResponse (totalScore maxScore : number)
  (checks : list CheckResult) (details : Details)
  (feedback summary : option string) : EvaluateResponseDto :=
  {| totalScore := totalScore;
     maxScore := maxScore;
     checks := checks;
     feedback := feedback;
     summary := or_undefined summary feedback;
     details := details |}.

(** [checks.push(check)]. *)
Definition push {A : Type} (l : list A) (a : A) : list A := (l ++ [a])%list.

(** What a stage runner returns: [{ success, message }]. *)
Module Stage.
Record Result : Type := { success : bool; message : option string }.
End Stage.

(** What [checkRequiredFiles] returns: [{ valid, message }]. *)
Module Files.
Record Result : Type := { valid : bool; message : option string }.
End Files.

Record CollectedFile : Type := { path : string; content : string }.

(** [path.join(a, b)] for a directory [a] and a name [b]. *)
Definition path_join (a b : string) : string := a ++ "/" ++ b.

(** [path.relative(baseDir, fullPath)] for an entry [entry] of a directory
    whose path relative to [baseDir] is [rel]. *)
Definition path_relative (rel entry : string) : string :=
  match rel with
  | "" => entry
  | _ => rel ++ "/" ++ entry
  end.

(** ** The service ([evaluate.service.ts]) *)

Section Service.

Variable w : World.

(** *** Calls that leave the process *)

Definition pathExists (p : string) : IO bool :=
  call (PathExists p) (inr (path_exists w p)).

Definition remove (p : string) : IO unit :=
  call (Remove p)
    match remove_error w p with
    | None => inr tt
    | Some m => inl (Error m)
    end.

Definition gitClone (repoUrl repoPath : string) : IO unit :=
  call (GitClone repoUrl repoPath)
    match clone_error w repoUrl repoPath with
    | None => inr tt
    | Some m => inl (Error m)
    end.

(** [execAsync(command, { cwd, timeout })]: the two streams, or the
    rejection. *)
Definition execAsync (command cwd : string) : IO (string * string) :=
  call (Exec command cwd)
    match exec_result w command cwd with
    | Exited stdout stderr => inr (stdout, stderr)
    | Failed m _ _ => inl (Error m)
    end.

Definition configGet (key : string) : IO (option string) :=
  call (ConfigGet key) (inr (config w key)).

Definition axiosPost (url key prompt : string) : IO jsval :=
  call (HttpPost url)
    match post_result w url key prompt with
    | Resolved data => inr data
    | Rejected m r => inl (AxiosError m r)
    end.

(** *** Repository fetcher *)

Definition isValidGitHubUrl (url : string) : bool :=
  match url_hostname w url with
  | Some hostname =>
      String.eqb hostname "github.com" || String.eqb hostname "www.github.com"
  | None => false
  end.

Definition cloneRepository (repoUrl : string) : IO (option string) :=
  try_catch
    (let repoName := extractRepoName repoUrl in
     let repoPath :=
       path_join (temp_dir w)
         (repoName ++ "-" ++ number_toString (Int (date_now w))) in
     present <- pathExists repoPath ;;
     (if present : bool then remove repoPath else ret tt) ;;
     gitClone repoUrl repoPath ;;
     ret (Some repoPath))
    (fun _ => ret None).

(** *** Structural validator *)

Definition checkRequiredFiles (repoPath : string) : IO Files.Result :=
  let pubspecPath := path_join repoPath "pubspec.yaml" in
  let mainDartPath := path_join (path_join repoPath "lib") "main.dart" in
  pubspecExists <- pathExists pubspecPath ;;
  mainDartExists <- pathExists mainDartPath ;;
  if negb pubspecExists && negb mainDartExists then
    ret {| Files.valid := false;
           Files.message :=
             Some "pubspec.yaml and lib/main.dart are missing" |}
  else if negb pubspecExists then
    ret {| Files.valid := false;
           Files.message := Some "pubspec.yaml is missing" |}
  else if negb mainDartExists then
    ret {| Files.valid := false;
           Files.message := Some "lib/main.dart is missing" |}
  else ret {| Files.valid := true; Files.message := None |}.

(** *** Stage runners *)

Definition runFlutterPubGet (repoPath : string) : IO Stage.Result :=
  try_catch
    (out <- execAsync "flutter pub get" repoPath ;;
     let '(stdout, stderr) := out in
     if truthy_string stderr && negb (includes stderr "Warning") then
       ret {| Stage.success := false; Stage.message := Some stderr |}
     else
       ret {| Stage.success := true;
              Stage.message := Some "Dependencies installed successfully" |})
    (fun error =>
       ret {| Stage.success := false;
              Stage.message :=
                Some (or_string (Some (message_of error))
                        "flutter pub get failed") |}).

Definition checkBuild (repoPath : string) : IO Stage.Result :=
  try_catch
    (out <- execAsync "flutter analyze" repoPath ;;
     let '(stdout, stderr) := out in
     let hasErrors :=
       includes stderr "error" || includes stdout "error •" in
     if hasErrors && negb (includes stderr "info")
        && negb (includes stdout "info •") then
       ret {| Stage.success := false;
              Stage.message :=
                Some "Code contains errors and does not compile" |}
     else
       ret {| Stage.success := true;
              Stage.message := Some "Code compiles successfully" |})
    (fun _ =>
       try_catch
         (execAsync "flutter build" repoPath ;;
          ret {| Stage.success := true;
                 Stage.message := Some "Code compiles successfully" |})
         (fun buildError =>
            ret {| Stage.success := false;
                   Stage.message :=
                     Some (or_string (Some (message_of buildError))
                             "Build failed") |})).

Definition runFlutterTest (repoPath : string) : IO Stage.Result :=
  try_catch
    (out <- execAsync "flutter test" repoPath ;;
     let '(stdout, stderr) := out in
     let allTestsPassed :=
       includes stdout "All tests passed!"
       || (includes stdout "+" && negb (includes stdout "Some tests failed"))
     in
     if allTestsPassed then
       ret {| Stage.success := true;
              Stage.message := Some "All tests passed" |}
     else
       ret {| Stage.success := false;
              Stage.message := Some "Tests failed or no tests found" |})
    (fun error =>
       if includes (message_of error) "No tests found"
          || includes (message_of error) "No test file" then
         ret {| Stage.success := false;
                Stage.message := Some "No tests found" |}
       else
         ret {| Stage.success := false;
                Stage.message :=
                  Some (or_string (Some (message_of error))
                          "Tests failed") |}).

(** *** File collector *)

(** [collectFilesRecursively(dir, baseDir, files)], where [node] is the
    directory [dir] as the walk finds it and [rel] is the path of [dir]
    relative to [baseDir].  The array [files] is filled in place, so what
    was pushed before a [readdir] rejects stays in it: the result is the
    array after the call, whether the call returned ([true]) or threw
    ([false]), and the calls made. *)
Fixpoint collectFilesRecursively (dir rel : string) (node : Dirent)
  (files : list CollectedFile) {struct node}
  : (list CollectedFile * bool) * list event :=
  match node with
  | Directory _ None => ((files, false), [Readdir dir])
  | Directory _ (Some entries) =>
      let fix each (entries : list Dirent) (files : list CollectedFile)
        : (list CollectedFile * bool) * list event :=
        match entries with
        | [] => ((files, true), [])
        | entry :: rest =>
            match entry with
            | Directory entryName _ =>
                let fullPath := path_join dir entryName in
                let relativePath := path_relative rel entryName in
                let '((files', returned), t) :=
                  collectFilesRecursively fullPath relativePath entry files
                in
                if returned : bool then
                  let '(r, t') := each rest files' in (r, (t ++ t')%list)
                else ((files', false), t)
            | RegularFile entryName content =>
                let fullPath := path_join dir entryName in
                let relativePath := path_relative rel entryName in
                if endsWith entryName ".dart" then
                  let files' :=
                    match content with
                    | Some text =>
                        push files
                          {| path := relativePath; content := text |}
                    | None => files
                    end in
                  let '(r, t') := each rest files' in
                  (r, ReadFile fullPath :: t')
                else each rest files
            | OtherEntry _ => each rest files
            end
        end in
      let '(r, t) := each entries files in (r, Readdir dir :: t)
  | _ => ((files, true), [])
  end.

Definition collectLibFiles (repoPath : string) : IO (list CollectedFile) :=
  let libPath := path_join repoPath "lib" in
  present <- pathExists libPath ;;
  if negb present then ret []
  else
    let '((files, _), t) :=
      collectFilesRecursively libPath ""
        (Directory "lib" (readdir_result w libPath)) [] in
    (inr files, t).

(** *** JavaScript values in the evaluator *)

Definition engineError {A : Type} (kind : EngineError) : Pure A :=
  throw (Error (engine_message w kind)).

(** Truthiness of a value. *)
Definition truthy (v : jsval) : bool :=
  match v with
  | None => false
  | Some JNull => false
  | Some (JBool b) => b
  | Some (JNum (JInfinity _)) => true
  | Some (JNum (JFinite q)) => negb (Qeq_bool q 0)
  | Some (JStr s) => truthy_string s
  | Some (JArr _) => true
  | Some (JObj _) => true
  end.

(** [a || b] on values. *)
Definition or_value (a b : jsval) : jsval := if truthy a then a else b.

Fixpoint lookup (key : string) (props : list (string * json)) : jsval :=
  match props with
  | [] => undefined
  | (k, v) :: rest => if String.eqb k key then Some v else lookup key rest
  end.

(** [v.key] for a key that no prototype defines (every key the evaluator
    reads is one): the own property of an object, [undefined] on another
    value, a [TypeError] on [null] and [undefined]. *)
Definition getProp (v : jsval) (key : string) : Pure jsval :=
  match v with
  | None => engineError (PropertyOfNullish key)
  | Some JNull => engineError (PropertyOfNullish key)
  | Some (JObj props) => ret (lookup key props)
  | Some _ => ret undefined
  end.

(** [v?.key], for such a key. *)
Definition getPropOptional (v : jsval) (key : string) : jsval :=
  match v with
  | Some (JObj props) => lookup key props
  | _ => undefined
  end.

(** [v?.[0]]. *)
Definition getFirstOptional (v : jsval) : jsval :=
  match v with
  | Some (JArr (x :: _)) => Some x
  | Some (JStr (String c _)) => Some (JStr (String c ""))
  | Some (JObj props) => lookup "0" props
  | _ => undefined
  end.

(** The conversion of a value to a string, as [String(v)], a template
    literal and [parseInt] do it.  An object that has a property
    [toString] of its own has no primitive value, since no JSON value is a
    function.  [join] turns [null] elements to the empty string. *)
Fixpoint ToString (v : json) : Pure string :=
  match v with
  | JNull => inr "null"
  | JBool true => inr "true"
  | JBool false => inr "false"
  | JNum n => inr (number_to_string w n)
  | JStr s => inr s
  | JArr items =>
      let fix each (items : list json) : Pure (list string) :=
        match items with
        | [] => inr []
        | x :: rest =>
            match (match x with JNull => inr "" | _ => ToString x end) with
            | inl e => inl e
            | inr s =>
                match each rest with
                | inl e => inl e
                | inr ss => inr (s :: ss)
                end
            end
        end in
      match each items with
      | inl e => inl e
      | inr parts => inr (join "," parts)
      end
  | JObj props =>
      match lookup "toString" props with
      | Some _ => engineError NotPrimitive
      | None => inr "[object Object]"
      end
  end.

Definition ToStringValue (v : jsval) : Pure string :=
  match v with
  | None => ret "undefined"
  | Some j => ToString j
  end.

(** [parseInt(v)]. *)
Definition parseInt (v : jsval) : Pure number :=
  s <- ToStringValue v ;;
  ret (parseIntString s).

(** [v.substring(0, n)]: only a string has the method. *)
Definition substringOf (v : jsval) (n : nat) : Pure string :=
  match v with
  | Some (JStr s) => ret (substring0 n s)
  | None => engineError (PropertyOfNullish "substring")
  | Some JNull => engineError (PropertyOfNullish "substring")
  | Some _ => engineError (NotAFunction "substring")
  end.

(** [items.map(f)] for an [f] that may throw. *)
Fixpoint mapPure {A B : Type} (f : A -> Pure B) (items : list A)
  : Pure (list B) :=
  match items with
  | [] => ret []
  | x :: rest =>
      y <- f x ;;
      ys <- mapPure f rest ;;
      ret (y :: ys)
  end.

(** [Array.isArray(v) ? v.map((s) => String(s).substring(0, 150)).slice(0, 5) : []]. *)
Definition shortItems (v : jsval) : Pure (list string) :=
  match v with
  | Some (JArr items) =>
      mapped <- mapPure
                  (fun s => text <- ToString s ;; ret (substring0 150 text))
                  items ;;
      ret (firstn 5 mapped)
  | _ => ret []
  end.

(** *** LLM evaluator *)

Definition groqApiUrl : string :=
  "https://api.groq.com/openai/v1/chat/completions".

Definition lines (l : list string) : string := join newline l.

Definition quoted (s : string) : string :=
  String DQUOTE (s ++ String DQUOTE "").

Definition assignmentDescription : string :=
  lines [ "Create a Todo app with:";
          "- Add todo";
          "- Delete todo";
          "- Mark todo as complete" ].

Definition buildPrompt (codeContent : string) (maxAvailableScore : number)
  : string :=
  lines
    [ "Evaluate the following Flutter code for the assignment:";
      "";
      assignmentDescription;
      "";
      "The evaluation should be out of "
        ++ number_toString maxAvailableScore
        ++ " points (this represents the code quality portion of the total 20-point assignment).";
      "";
      "Here is the code:";
      "";
      codeContent;
      "";
      "Evaluate based on:";
      "- Code quality and structure";
      "- Implementation of requirements (Add todo, Delete todo, Mark todo as complete)";
      "- Best practices and Flutter conventions";
      "- Error handling";
      "- Code organization";
      "";
      "Provide a CONCISE evaluation. Keep responses brief and to the point.";
      "";
      "Respond in the following JSON format (keep text fields short - max 200 characters each):";
      "{";
      "  " ++ quoted "score" ++ ": <number between 0 and "
        ++ number_toString maxAvailableScore ++ ">,";
      "  " ++ quoted "summary" ++ ": "
        ++ quoted "<brief overall summary in 2-3 sentences>" ++ ",";
      "  " ++ quoted "strengths" ++ ": [" ++ quoted "<brief point 1>"
        ++ ", " ++ quoted "<brief point 2>" ++ "],";
      "  " ++ quoted "weaknesses" ++ ": [" ++ quoted "<brief point 1>"
        ++ ", " ++ quoted "<brief point 2>" ++ "],";
      "  " ++ quoted "recommendations" ++ ": "
        ++ quoted "<brief recommendation in 1-2 sentences>";
      "}" ].

(** The files as one text, each under a header with its path. *)
Definition codeContentOf (files : list CollectedFile) : string :=
  join (newline ++ newline)
    (map (fun file => "// File: " ++ path file ++ newline ++ content file)
       files).

(** [response.data.choices?.[0]?.message?.content]. *)
Definition responseContent (data : jsval) : Pure jsval :=
  choices <- getProp data "choices" ;;
  ret (getPropOptional
         (getPropOptional (getFirstOptional choices) "message")
         "content").

(** The inner [try]: the code fences are stripped and the rest is parsed.
    Only a string has the method [replace]. *)
Definition parseResult (result : json) : Pure json :=
  match result with
  | JStr text =>
      match json_parse w (stripCodeFences text) with
      | Some parsed => ret parsed
      | None => engineError InvalidJSON
      end
  | _ => engineError (NotAFunction "replace")
  end.

(** The inner [catch]: the line it logs holds [result] in a template
    literal, then a score is looked for in the text.  Only a string has
    the method [match]. *)
Definition evaluationOfText (result : json) (maxAvailableScore : number)
  : Pure Groq.Evaluation :=
  ToString result ;;
  match result with
  | JStr text =>
      let extractedScore :=
        match scoreMatch text with
        | Some group1 => parseIntString group1
        | None => Int 0
        end in
      ret {| Groq.score :=
               Math.min (Math.max extractedScore (Int 0)) maxAvailableScore;
             Groq.summary :=
               or_string (Some (substring0 200 text)) "Evaluation completed";
             Groq.strengths := [];
             Groq.weaknesses := [];
             Groq.recommendations := "" |}
  | _ => engineError (NotAFunction "match")
  end.

(** What follows the inner [try] when the text parsed. *)
Definition evaluationOfParsed (parsed : json) (maxAvailableScore : number)
  : Pure Groq.Evaluation :=
  rawScore <- getProp (Some parsed) "score" ;;
  parsedScore <- parseInt rawScore ;;
  let score :=
    Math.min (Math.max (or_number parsedScore (Int 0)) (Int 0))
      maxAvailableScore in
  rawSummary <- getProp (Some parsed) "summary" ;;
  rawFeedback <- getProp (Some parsed) "feedback" ;;
  summary <- substringOf
               (or_value (or_value rawSummary rawFeedback)
                  (Some (JStr "No summary provided")))
               300 ;;
  rawStrengths <- getProp (Some parsed) "strengths" ;;
  strengths <- shortItems rawStrengths ;;
  rawWeaknesses <- getProp (Some parsed) "weaknesses" ;;
  weaknesses <- shortItems rawWeaknesses ;;
  rawRecommendations <- getProp (Some parsed) "recommendations" ;;
  recommendations <- substringOf
                       (or_value rawRecommendations (Some (JStr "")))
                       200 ;;
  ret {| Groq.score := score;
         Groq.summary := summary;
         Groq.strengths := strengths;
         Groq.weaknesses := weaknesses;
         Groq.recommendations := recommendations |}.

(** The body of the outer [try] after the call. *)
Definition evaluationOfResponse (data : jsval) (maxAvailableScore : number)
  : Pure Groq.Evaluation :=
  result <- responseContent data ;;
  match result with
  | None => throw (Error "No response from Groq API")
  | Some content =>
      if negb (truthy result) then
        throw (Error "No response from Groq API")
      else
        match parseResult content with
        | inr parsed => evaluationOfParsed parsed maxAvailableScore
        | inl _ => evaluationOfText content maxAvailableScore
        end
  end.

(** [error.response?.data?.error?.message]. *)
Definition responseMessage_of (error : exn) : jsval :=
  getPropOptional (getPropOptional (responseData_of error) "error") "message".

(** The outer [catch].  The template literal of the summary converts
    [error.response?.data?.error?.message || error.message] to a string,
    which throws for a value that has no primitive value. *)
Definition failedEvaluation (error : exn) : Pure Groq.Evaluation :=
  text <- ToStringValue
            (or_value (responseMessage_of error)
               (Some (JStr (message_of error)))) ;;
  ret {| Groq.score := Int 0;
         Groq.summary := "Evaluation failed: " ++ text;
         Groq.strengths := [];
         Groq.weaknesses := [];
         Groq.recommendations := "" |}.

(** What the evaluator throws when the credential is not configured. *)
Definition credentialMissing : exn :=
  InternalServerErrorException
    "Groq API key not configured. Please set GROQ_API_KEY environment variable.".

Definition truthy_undefined (s : option string) : bool :=
  match s with
  | Some s => truthy_string s
  | None => false
  end.

Definition evaluateWithGroq (files : list CollectedFile)
  (maxAvailableScore : number) : IO Groq.Evaluation :=
  groqApiKey <- configGet "GROQ_API_KEY" ;;
  if negb (truthy_undefined groqApiKey) then
    throw credentialMissing
  else
    let prompt := buildPrompt (codeContentOf files) maxAvailableScore in
    try_catch
      (data <- axiosPost groqApiUrl (or_string groqApiKey "") prompt ;;
       pure (evaluationOfResponse data maxAvailableScore))
      (fun error => pure (failedEvaluation error)).

(** *** Pipeline orchestrator *)

(** A computation of [evaluate]: besides the calls it makes, it reads and
    assigns the local variable [repoPath], which the [finally] block reads
    on every exit. *)
Definition Run (A : Type) : Type :=
  option string -> ((exn + A) * option string) * list event.

#[local] Instance MonadExn_Run : MonadExn Run := {
  ret _ a := fun repoPath => ((inr a, repoPath), []);
  bind _ _ c k := fun repoPath =>
    match c repoPath with
    | ((inl e, repoPath'), t) => ((inl e, repoPath'), t)
    | ((inr a, repoPath'), t) =>
        let '(r, t') := k a repoPath' in (r, (t ++ t')%list)
    end;
  throw _ e := fun repoPath => ((inl e, repoPath), []);
  try_catch _ c h := fun repoPath =>
    match c repoPath with
    | ((inl e, repoPath'), t) =>
        let '(r, t') := h e repoPath' in (r, (t ++ t')%list)
    | ((inr a, repoPath'), t) => ((inr a, repoPath'), t)
    end
}.

(** [await] of one of the methods above. *)
Definition await {A : Type} (c : IO A) : Run A :=
  fun repoPath => ((fst c, repoPath), snd c).

(** [repoPath = value]. *)
Definition assignRepoPath (value : option string) : Run unit :=
  fun _ => ((inr tt, value), []).

Definition readRepoPath : Run (option string) :=
  fun repoPath => ((inr repoPath, repoPath), []).

(** [try { c } finally { f }] for a block [f] that completes: the block
    runs on every exit of [c], whose completion stands. *)
Definition try_finally {A : Type} (c : Run A) (f : Run unit) : Run A :=
  fun repoPath =>
    match c repoPath with
    | ((r, repoPath'), t) =>
        match f repoPath' with
        | ((inl e, repoPath''), t') => ((inl e, repoPath''), (t ++ t')%list)
        | ((inr _, repoPath''), t') => ((r, repoPath''), (t ++ t')%list)
        end
    end.

(** [evaluate] starts with [repoPath = null]. *)
Definition run {A : Type} (c : Run A) : IO A :=
  match c None with
  | ((r, _), t) => (r, t)
  end.

Definition maxScore_ : number := Int 20.

(** The [try] block of [evaluate], from the clone on.  A path is never
    the empty string, so [!repoPath] holds for [null] only. *)
Definition stages (repoUrl : string) : Run EvaluateResponseDto :=
  let checks : list CheckResult := [] in
  let totalScore := Int 0 in
  let maxScore := maxScore_ in
  (* Step 1: Clone repository *)
  cloned <- await (cloneRepository repoUrl) ;;
  assignRepoPath cloned ;;
  match cloned with
  | None =>
      let checks :=
        push checks
          {| name := "Clone Repository"; passed := false;
             message := Some "Failed to clone repository";
             score := Int 0 |} in
      ret (buildResponse (Int 0) maxScore checks
             {| cloneSuccessful := false; filesValid := false;
                pubGetSuccessful := false; buildSuccessful := false;
                testsPassed := false; groqEvaluation := None |}
             (Some "Repository cloning failed. Score: 0/20") None)
  | Some repoPath =>
  let checks :=
    push checks
      {| name := "Clone Repository"; passed := true;
         message := Some "Repository cloned successfully";
         score := Int 0 |} in
  (* Step 2: Check required files *)
  filesValid <- await (checkRequiredFiles repoPath) ;;
  if negb (Files.valid filesValid) then
    let checks :=
      push checks
        {| name := "Required Files Check"; passed := false;
           message := Files.message filesValid; score := Int 0 |} in
    ret (buildResponse (Int 0) maxScore checks
           {| cloneSuccessful := true; filesValid := false;
              pubGetSuccessful := false; buildSuccessful := false;
              testsPassed := false; groqEvaluation := None |}
           (Some (or_string (Files.message filesValid)
                    "Required files missing. Score: 0/20"))
           None)
  else
  let checks :=
    push checks
      {| name := "Required Files Check"; passed := true;
         message := Some "pubspec.yaml and lib/main.dart exist";
         score := Int 0 |} in
  (* Step 3: Run flutter pub get *)
  pubGetResult <- await (runFlutterPubGet repoPath) ;;
  if negb (Stage.success pubGetResult) then
    let checks :=
      push checks
        {| name := "Flutter Pub Get"; passed := false;
           message := Stage.message pubGetResult; score := Int 0 |} in
    ret (buildResponse (Int 5) maxScore checks
           {| cloneSuccessful := true; filesValid := true;
              pubGetSuccessful := false; buildSuccessful := false;
              testsPassed := false; groqEvaluation := None |}
           (Some "Dependencies installation failed. Maximum score: 5/20")
           None)
  else
  let checks :=
    push checks
      {| name := "Flutter Pub Get"; passed := true;
         message := Some "Dependencies installed successfully";
         score := Int 0 |} in
  (* Step 4: Check if app compiles *)
  buildResult <- await (checkBuild repoPath) ;;
  if negb (Stage.success buildResult) then
    let checks :=
      push checks
        {| name := "Build Check"; passed := false;
           message := Stage.message buildResult; score := Int 0 |} in
    ret (buildResponse (Int 5) maxScore checks
           {| cloneSuccessful := true; filesValid := true;
              pubGetSuccessful := true; buildSuccessful := false;
              testsPassed := false; groqEvaluation := None |}
           (Some "App does not compile. Maximum score: 5/20")
           None)
  else
  let checks :=
    push checks
      {| name := "Build Check"; passed := true;
         message := Some "App compiles successfully";
         score := Int 0 |} in
  (* Step 5: Run flutter test *)
  testResult <- await (runFlutterTest repoPath) ;;
  let testScore := if Stage.success testResult then Int 5 else Int 0 in
  let totalScore :=
    if Stage.success testResult then plus totalScore testScore
    else totalScore in
  let checks :=
    if Stage.success testResult then
      push checks
        {| name := "Flutter Test"; passed := true;
           message :=
             Some (or_string (Stage.message testResult) "Tests passed");
           score := testScore |}
    else
      push checks
        {| name := "Flutter Test"; passed := false;
           message :=
             Some (or_string (Stage.message testResult)
                     "Tests failed or no tests found");
           score := Int 0 |} in
  (* Step 6: Get lib/ files *)
  libFiles <- await (collectLibFiles repoPath) ;;
  if (List.length libFiles =? 0)%nat then
    ret (buildResponse totalScore maxScore checks
           {| cloneSuccessful := true; filesValid := true;
              pubGetSuccessful := true; buildSuccessful := true;
              testsPassed := Stage.success testResult;
              groqEvaluation := None |}
           (Some ("Evaluation completed. Score: "
                    ++ number_toString totalScore ++ "/20"))
           None)
  else
  (* Step 7: Send to Groq for evaluation *)
  let remainingScore := minus maxScore totalScore in
  groqResult <- await (evaluateWithGroq libFiles remainingScore) ;;
  let groqScore := Math.min (Groq.score groqResult) remainingScore in
  let totalScore := plus totalScore groqScore in
  let checks :=
    push checks
      {| name := "Groq Code Evaluation"; passed := true;
         message := Some "Code evaluated by Groq";
         score := groqScore |} in
  ret (buildResponse totalScore maxScore checks
         {| cloneSuccessful := true; filesValid := true;
            pubGetSuccessful := true; buildSuccessful := true;
            testsPassed := Stage.success testResult;
            groqEvaluation :=
              Some {| Groq.score := groqScore;
                      Groq.summary := Groq.summary groqResult;
                      Groq.strengths := Groq.strengths groqResult;
                      Groq.weaknesses := Groq.weaknesses groqResult;
                      Groq.recommendations :=
                        Groq.recommendations groqResult |} |}
         (Some (Groq.summary groqResult))
         (Some (Groq.summary groqResult)))
  end.

(** The [catch] block of [evaluate]. *)
Definition rethrow (error : exn) : Run EvaluateResponseDto :=
  match error with
  | BadRequestException _ => throw error
  | InternalServerErrorException _ => throw error
  | _ =>
      throw (InternalServerErrorException
               ("Evaluation failed: "
                  ++ or_string (Some (message_of error)) "Unknown error"))
  end.

(** The [finally] block of [evaluate]. *)
Definition cleanup : Run unit :=
  repoPath <- readRepoPath ;;
  match repoPath with
  | Some repoPath =>
      try_catch (await (remove repoPath)) (fun _ => ret tt)
  | None => ret tt
  end.

Definition evaluate (repoUrl : string) : IO EvaluateResponseDto :=
  run
    (try_finally
       (try_catch
          ((* Validate repo URL *)
           (if negb (isValidGitHubUrl repoUrl) then
              throw (BadRequestException "Invalid GitHub repository URL")
            else ret tt) ;;
           stages repoUrl)
          rethrow)
       cleanup).

End Service.

(** ** Runs of the pipeline *)

(** The stage [c] returned a success. *)
Definition succeeded (c : IO Stage.Result) : bool :=
  match outcome c with
  | inr r => Stage.success r
  | inl _ => false
  end.

(** The structural validation [c] found both files. *)
Definition validated (c : IO Files.Result) : bool :=
  match outcome c with
  | inr r => Files.valid r
  | inl _ => false
  end.

(** In the world [w], the locator [repoUrl] is accepted, the clone gives the
    workspace [repoPath], and the structural validation finds both files
    there. *)
Definition Fetched (w : World) (repoUrl repoPath : string) : Prop :=
  isValidGitHubUrl w repoUrl = true
  /\ outcome (cloneRepository w repoUrl) = inr (Some repoPath)
  /\ validated (checkRequiredFiles w repoPath) = true.

(** Moreover the install stage and the build stage succeed: every gating
    stage passes. *)
Definition GatesPass (w : World) (repoUrl repoPath : string) : Prop :=
  Fetched w repoUrl repoPath
  /\ succeeded (runFlutterPubGet w repoPath) = true
  /\ succeeded (checkBuild w repoPath) = true.

(** The credential of the evaluator is absent from the configuration. *)
Definition credentialAbsent (w : World) : Prop :=
  truthy_undefined (config w "GROQ_API_KEY") = false.

(** The calls of the stages up to the build stage, in order. *)
Definition gatingCalls (w : World) (repoUrl repoPath : string) : list event :=
  (trace (cloneRepository w repoUrl)
   ++ trace (checkRequiredFiles w repoPath)
   ++ trace (runFlutterPubGet w repoPath)
   ++ trace (checkBuild w repoPath))%list.

(** The points of the test stage in a response. *)
Definition testPoints (r : EvaluateResponseDto) : Z :=
  if testsPassed (details r) then 5 else 0.

(** A computation returns: it does not throw. *)
Definition returns {A : Type} (c : IO A) : Prop :=
  exists a, outcome c = inr a.

(** The caps on the strings of an evaluation. *)
Definition within_caps (g : Groq.Evaluation) : Prop :=
  (String.length (Groq.summary g) <= 300)%nat
  /\ (List.length (Groq.strengths g) <= 5)%nat
  /\ Forall (fun s => (String.length s <= 150)%nat) (Groq.strengths g)
  /\ (List.length (Groq.weaknesses g) <= 5)%nat
  /\ Forall (fun s => (String.length s <= 150)%nat) (Groq.weaknesses g)
  /\ (String.length (Groq.recommendations g) <= 200)%nat.

(** A call of a stage after the build stage: the test run, the walk of the
    collector, the evaluator. *)
Definition laterStageCall (e : event) : bool :=
  match e with
  | Exec command _ => String.eqb command "flutter test"
  | Readdir _ => true
  | ReadFile _ => true
  | ConfigGet _ => true
  | HttpPost _ => true
  | _ => false
  end.

(** A call of the evaluator: the read of its credential, its request. *)
Definition evaluatorCall (e : event) : bool :=
  match e with
  | ConfigGet _ => true
  | HttpPost _ => true
  | _ => false
  end.

(** What a command wrote to stderr, however it ended. *)
Definition capturedStderr (r : ExecResult) : string :=
  match r with
  | Exited _ stderr => stderr
  | Failed _ _ stderr => stderr
  end.

(** Warning-level text, after the words of the specification: a warning
    line is a line that starts with [Warning]. *)

(** Every line of [s] that is not empty is a warning line; [atStart] tells
    whether [s] starts at the start of a line. *)
Fixpoint warningLines (atStart : bool) (s : string) : bool :=
  match s with
  | "" => true
  | String c s' =>
      if Ascii.eqb c LF then warningLines true s'
      else if atStart then prefix "Warning" s && warningLines false s'
      else warningLines false s'
  end.

(** [s] has a character that is no line feed. *)
Fixpoint hasText (s : string) : bool :=
  match s with
  | "" => false
  | String c s' => negb (Ascii.eqb c LF) || hasText s'
  end.

(** [stderr] consists solely of warning-level text: it has text, and each
    of its lines is a warning line or empty. *)
Definition warningsOnly (stderr : string) : bool :=
  hasText stderr && warningLines true stderr.

(** [s] mentions a warning somewhere, in whatever letter case. *)
Fixpoint mentionsWarning (s : string) : bool :=
  match stripPrefixIgnoreCase "warning" s with
  | Some _ => true
  | None =>
      match s with
      | "" => false
      | String _ s' => mentionsWarning s'
      end
  end.

(** The check that the quality evaluation appends. *)
Definition groqCheck (groqScore : number) : CheckResult :=
  {| name := "Groq Code Evaluation"; passed := true;
     message := Some "Code evaluated by Groq"; score := groqScore |}.

(** ** Sample worlds *)

Module Sample.

(** The host of a locator of the shape [https://host/...]. *)
Definition hostname (url : string) : option string :=
  match stripPrefix "https://" url with
  | Some rest => Some (fst (splitAtSlash rest))
  | None => None
  end.

(** The messages of the engine (V8) for the errors it raises. *)
Definition engineMessage (kind : EngineError) : string :=
  match kind with
  | PropertyOfNullish property =>
      "Cannot read properties of undefined (reading '" ++ property ++ "')"
  | NotAFunction callee => callee ++ " is not a function"
  | NotPrimitive => "Cannot convert object to primitive value"
  | InvalidJSON => "Unexpected end of JSON input"
  end.

Definition repoUrl : string := "https://github.com/student/todo".
Definition repoPath : string := "/srv/temp-repos/student-todo-1700000000000".
Definition libPath : string := path_join repoPath "lib".

(** The answer of the model, a JSON text, and its value. *)
Definition answerText : string :=
  "{" ++ quoted "score" ++ ": 12, " ++ quoted "summary" ++ ": "
    ++ quoted "Works, little structure." ++ "}".

Definition answer : json :=
  JObj [("score", JNum (JFinite 12));
        ("summary", JStr "Works, little structure.")].

(** [response.data] with [text] as the content of the first choice. *)
Definition completion (text : string) : jsval :=
  Some (JObj [("choices",
               JArr [JObj [("message", JObj [("content", JStr text)])]])]).

(** A string of [n] letters. *)
Fixpoint letters (n : nat) : string :=
  match n with
  | O => ""
  | S k => String "x" (letters k)
  end.

(** A world where the workspace is fresh, both required files exist and
    git succeeds; the rest is given: what each command does, whether the
    source subtree exists and what it holds, the credential and the answer
    of the API. *)
Definition world (exec : string -> ExecResult) (libExists : bool)
  (lib : option (list Dirent)) (key : option string) (post : PostResult)
  : World :=
  {| url_hostname := hostname;
     temp_dir := "/srv/temp-repos";
     date_now := 1700000000000;
     path_exists p :=
       if String.eqb p repoPath then false
       else if String.eqb p libPath then libExists
       else true;
     remove_error _ := None;
     clone_error _ _ := None;
     exec_result command _ := exec command;
     readdir_result _ := lib;
     config _ := key;
     post_result _ _ _ := post;
     json_parse text :=
       if String.eqb text answerText then Some answer else None;
     number_to_string n :=
       match n with
       | JFinite q => number_toString (Int (Qnum q / Zpos (Qden q)))
       | JInfinity negative => number_toString (Infinity negative)
       end;
     engine_message := engineMessage |}.

Definition quiet : ExecResult := Exited "" "".

(** Every command exits quietly, except that the tests report. *)
Definition testsPass (command : string) : ExecResult :=
  if String.eqb command "flutter test"
  then Exited "00:02 +3: All tests passed!" ""
  else quiet.

Definition testsFail (command : string) : ExecResult :=
  if String.eqb command "flutter test"
  then Failed "Command failed: flutter test" "00:02 +2 -1: Some tests failed." ""
  else quiet.

(** [flutter pub get] exits with a status other than 0 and an empty
    stderr. *)
Definition installFails (command : string) : ExecResult :=
  if String.eqb command "flutter pub get"
  then Failed "Command failed: flutter pub get" "Resolving dependencies..." ""
  else quiet.

(** [flutter pub get] exits with status 0 and one warning line on
    stderr. *)
Definition installWarns (command : string) : ExecResult :=
  if String.eqb command "flutter pub get"
  then Exited "Resolving dependencies..."
         ("Warning: You are using a deprecated SDK constraint." ++ newline)
  else quiet.

(** [flutter pub get] exits with status 0 and a complaint on stderr that
    mentions no warning. *)
Definition installComplains (command : string) : ExecResult :=
  if String.eqb command "flutter pub get"
  then Exited "Resolving dependencies..."
         "pubspec.yaml: dependency override is not allowed here."
  else quiet.

Definition sources : option (list Dirent) :=
  Some [RegularFile "main.dart" (Some "void main() {}")].

Definition graded : World :=
  world testsPass true sources (Some "gsk_key")
    (Resolved (completion answerText)).

Definition installFailure : World :=
  world installFails true sources (Some "gsk_key")
    (Resolved (completion answerText)).

Definition installWarning : World :=
  world installWarns true sources (Some "gsk_key")
    (Resolved (completion answerText)).

Definition installComplaint : World :=
  world installComplains true sources (Some "gsk_key")
    (Resolved (completion answerText)).

Definition networkDown : World :=
  world testsPass true sources (Some "gsk_key")
    (Rejected "connect ECONNREFUSED" None).

Definition noCredential : World :=
  world testsPass true sources None (Resolved (completion answerText)).

Definition failingTests : World :=
  world testsFail true sources (Some "gsk_key")
    (Resolved (completion answerText)).

(** The entry point is a symbolic link: it exists, and the walk finds no
    regular file. *)
Definition failingTestsNoSources : World :=
  world testsFail true (Some [OtherEntry "main.dart"]) (Some "gsk_key")
    (Resolved (completion answerText)).

(** The source subtree is gone when the collector looks for it. *)
Definition noSources : World :=
  world testsPass false None (Some "gsk_key")
    (Resolved (completion answerText)).

(** The API answers 429 with an error message of 300 code units. *)
Definition rateLimited : World :=
  world testsPass true sources (Some "gsk_key")
    (Rejected "Request failed with status code 429"
       (Some (JObj [("error", JObj [("message", JStr (letters 300))])]))).

(** The API answers 429 with a body whose error message is no string but
    an object with a property [toString]. *)
Definition oddErrorBody : World :=
  world testsPass true sources (Some "gsk_key")
    (Rejected "Request failed with status code 429"
       (Some (JObj [("error",
                     JObj [("message",
                            JObj [("toString", JNum (JFinite 1))])])]))).

End Sample.

(** ** More runs: names and sample worlds *)

(** The names of the checks, in the order of the stages. *)
Definition stageNames : list string :=
  [ "Clone Repository"; "Required Files Check"; "Flutter Pub Get";
    "Build Check"; "Flutter Test"; "Groq Code Evaluation" ].

(** The sum of the scores of the checks. *)
Definition sumScores (l : list CheckResult) : number :=
  fold_left plus (map score l) (Int 0).

(** The workspace of a run: the directory that [cloneRepository] derives
    from the locator and the clock. *)
Definition workspaceOf (w : World) (repoUrl : string) : string :=
  path_join (temp_dir w)
    (extractRepoName repoUrl ++ "-" ++ number_toString (Int (date_now w))).

(** The two files that [checkRequiredFiles] looks for. *)
Definition pubspecOf (repoPath : string) : string :=
  path_join repoPath "pubspec.yaml".
Definition mainDartOf (repoPath : string) : string :=
  path_join (path_join repoPath "lib") "main.dart".

(** The file [f] has the extension of the collector. *)
Definition isDartFile (f : CollectedFile) : Prop :=
  endsWith (path f) ".dart" = true.

Module Scenario.

(** A world like [Sample.graded] but for the file system and git: which
    paths exist, how the removal of a directory and the clone end. *)
Definition world (present : string -> bool)
  (removeError cloneError : option string) : World :=
  {| url_hostname := Sample.hostname;
     temp_dir := "/srv/temp-repos";
     date_now := 1700000000000;
     path_exists := present;
     remove_error _ := removeError;
     clone_error _ _ := cloneError;
     exec_result command _ := Sample.testsPass command;
     readdir_result _ := Sample.sources;
     config _ := Some "gsk_key";
     post_result _ _ _ := Resolved (Sample.completion Sample.answerText);
     json_parse text :=
       if String.eqb text Sample.answerText then Some Sample.answer else None;
     number_to_string n :=
       match n with
       | JFinite q => number_toString (Int (Qnum q / Zpos (Qden q)))
       | JInfinity negative => number_toString (Infinity negative)
       end;
     engine_message := Sample.engineMessage |}.

(** The repository does not exist: git fails. *)
Definition cloneFails : World :=
  world (fun _ => false) None (Some "fatal: repository not found").

(** The clone has a manifest and no entry point. *)
Definition noEntryPoint : World :=
  world (fun p => String.eqb p (pubspecOf Sample.repoPath)) None None.

(** A stale directory is in the way of the workspace. *)
Definition staleWorkspace : World :=
  world (fun _ => true) None None.

End Scenario.

(** A read of a file by the collector. *)
Definition isReadFile (e : event) : bool :=
  match e with
  | ReadFile _ => true
  | _ => false
  end.

(** What a walk keeps: the files it was given stay, in place, and every file
    it adds has the extension and was read by a call of its own. *)
Definition walkKeeps (files : list CollectedFile)
  (result : (list CollectedFile * bool) * list event) : Prop :=
  exists added,
    fst (fst result) = (files ++ added)%list
    /\ Forall isDartFile added
    /\ (List.length added <= List.length (filter isReadFile (snd result)))%nat.


(** A call that changes which directories exist: a removal, a clone. *)
Definition workspaceCall (e : event) : bool :=
  match e with
  | Remove _ => true
  | GitClone _ _ => true
  | _ => false
  end.

(** The flag of the details that tells how the stage of the check named
    [checkName] ended; for the quality evaluation, whether there is a
    record. *)
Definition flagOf (d : Details) (checkName : string) : bool :=
  if String.eqb checkName "Clone Repository" then cloneSuccessful d
  else if String.eqb checkName "Required Files Check" then filesValid d
  else if String.eqb checkName "Flutter Pub Get" then pubGetSuccessful d
  else if String.eqb checkName "Build Check" then buildSuccessful d
  else if String.eqb checkName "Flutter Test" then testsPassed d
  else match groqEvaluation d with
       | Some _ => true
       | None => false
       end.

(** The text of one file in the prompt: a header with its path, then its
    content. *)
Definition fileText (file : CollectedFile) : string :=
  "// File: " ++ path file ++ newline ++ content file.

(** * Properties *)

(** ** The model at work *)

Example parseInt_skips_space_and_stops_at_a_letter :
  parseIntString "  -12abc" = Int (-12).
Proof. reflexivity. Qed.

Example parseInt_reads_a_hexadecimal_prefix :
  parseIntString "0x1F" = Int 31.
Proof. reflexivity. Qed.

Example parseInt_of_no_digit : parseIntString "twelve" = NaN.
Proof. reflexivity. Qed.

Example parseInt_overflows :
  parseIntString ("1" ++ String.concat "" (List.repeat "0000000000" 31))
  = Infinity false.
Proof. vm_compute. reflexivity. Qed.

Example code_fences_are_stripped :
  stripCodeFences ("```json" ++ newline ++ Sample.answerText ++ newline ++ "```")
  = Sample.answerText.
Proof. vm_compute. reflexivity. Qed.

Example score_pattern_quoted :
  scoreMatch ("{ " ++ quoted "Score" ++ ":  14, ") = Some "14".
Proof. vm_compute. reflexivity. Qed.

Example score_pattern_plain :
  scoreMatch "Overall score: 9 out of 15." = Some "9".
Proof. vm_compute. reflexivity. Qed.

Example score_pattern_absent : scoreMatch "The score is 9." = None.
Proof. vm_compute. reflexivity. Qed.

Example repo_name_of_locator :
  extractRepoName "https://github.com/student/todo" = "student-todo"
  /\ extractRepoName "https://github.com/student" = "repo".
Proof. split; reflexivity. Qed.

(** The walk keeps what it pushed before a [readdir] rejected. *)
Example walk_keeps_partial_collection :
  collectFilesRecursively "/w/lib" ""
    (Directory "lib"
       (Some [RegularFile "main.dart" (Some "void main() {}");
              RegularFile "notes.txt" (Some "todo");
              Directory "src"
                (Some [RegularFile "a.dart" None; Directory "gen" None]);
              RegularFile "z.dart" (Some "late")]))
    []
  = (([{| path := "main.dart"; content := "void main() {}" |}], false),
     [Readdir "/w/lib"; ReadFile "/w/lib/main.dart"; Readdir "/w/lib/src";
      ReadFile "/w/lib/src/a.dart"; Readdir "/w/lib/src/gen"]).
Proof. reflexivity. Qed.

(** An answer that is no JSON text: the score is found by the pattern and
    clamped to the budget, the summary is the start of the answer. *)
Example answer_in_plain_text :
  evaluationOfResponse Sample.graded
    (Sample.completion "Nice work. Score: 19/15") (Int 15)
  = inr {| Groq.score := Int 15;
           Groq.summary := "Nice work. Score: 19/15";
           Groq.strengths := []; Groq.weaknesses := [];
           Groq.recommendations := "" |}.
Proof. vm_compute. reflexivity. Qed.

(** An answer with no choice is an error, which the outer [catch] turns
    into the evaluation of score 0. *)
Example answer_without_choice :
  evaluationOfResponse Sample.graded (Some (JObj [("choices", JArr [])]))
    (Int 15)
  = inl (Error "No response from Groq API").
Proof. reflexivity. Qed.

(** ** Numbers and strings *)

Lemma substring0_length (n : nat) (s : string) :
  (String.length (substring0 n s) <= n)%nat.
Proof.
  unfold substring0. revert s.
  induction n as [|n IH]; intros [|c s]; simpl; try lia.
  specialize (IH s). lia.
Qed.

Lemma Forall_firstn {A : Type} (P : A -> Prop) (n : nat) (l : list A) :
  Forall P l -> Forall P (firstn n l).
Proof.
  intros H. revert n. induction H as [|x l Hx Hl IH]; intros [|n]; simpl;
    constructor; auto.
Qed.

Lemma in_range_Int (lo hi z : Z) : lo <= z <= hi -> in_range lo hi (Int z).
Proof. intros H. exists z. split; [reflexivity | exact H]. Qed.

(** [Math.min(Math.max(x, 0), m)] is between 0 and [m] unless [x] is
    [NaN]. *)
Lemma clamp_in_range (x : number) (m : Z) :
  x <> NaN -> 0 <= m ->
  in_range 0 m (Math.min (Math.max x (Int 0)) (Int m)).
Proof.
  intros Hx Hm.
  destruct x as [|[|]|z]; simpl; try congruence; apply in_range_Int; lia.
Qed.

Lemma or_number_not_NaN (x : number) : or_number x (Int 0) <> NaN.
Proof. destruct x as [|[|]|z]; unfold or_number; simpl; try discriminate.
  destruct (z =? 0); discriminate.
Qed.

Lemma digitsValue_seen (radix acc : Z) (s : string) :
  digitsValue radix true acc s <> None.
Proof.
  revert acc. induction s as [|c s IH]; intros acc; simpl.
  - discriminate.
  - destruct (digitValue radix c); [apply IH | discriminate].
Qed.

Lemma takeDigits_digits (s : string) :
  match takeDigits s with
  | "" => True
  | String c rest => isDigit c = true /\ rest = takeDigits rest
  end.
Proof.
  induction s as [|c s IH]; simpl; [exact I|].
  destruct (isDigit c) eqn:Hc; [|exact I].
  split; [exact Hc|].
  destruct (takeDigits s) as [|c' r]; [reflexivity|].
  destruct IH as [Hc' Hr]. simpl. rewrite Hc'. congruence.
Qed.

(** [parseInt] of a non-empty run of decimal digits is a number. *)
Lemma parseIntString_digits (c : ascii) (rest : string) :
  isDigit c = true ->
  match rest with "" => True | String c' _ => isDigit c' = true end ->
  parseIntString (String c rest) <> NaN.
Proof.
  intros Hc Hrest.
  assert (Hgo : forall s, digitValue 10 c <> None ->
            digitsValue 10 false 0 (String c s) <> None).
  { intros s Hd. cbn [digitsValue]. destruct (digitValue 10 c); [|congruence].
    apply digitsValue_seen. }
  assert (Hd : digitValue 10 c <> None).
  { destruct c as [[] [] [] [] [] [] [] []]; try discriminate Hc;
      vm_compute; discriminate. }
  unfold parseIntString.
  assert (Hs1 : trimStart (String c rest) = String c rest).
  { destruct c as [[] [] [] [] [] [] [] []]; try discriminate Hc;
      reflexivity. }
  rewrite Hs1.
  assert (Hsign : match String c rest with
                  | String "-" r => (true, r)
                  | String "+" r => (false, r)
                  | _ => (false, String c rest)
                  end = (false, String c rest)).
  { destruct c as [[] [] [] [] [] [] [] []]; try discriminate Hc;
      reflexivity. }
  rewrite Hsign.
  assert (Hradix : match String c rest with
                   | String "0" (String "x" r) => (16, r)
                   | String "0" (String "X" r) => (16, r)
                   | _ => (10, String c rest)
                   end = (10, String c rest)).
  { destruct rest as [|c' r].
    - destruct c as [[] [] [] [] [] [] [] []]; reflexivity.
    - destruct c' as [[] [] [] [] [] [] [] []]; try discriminate Hrest;
        destruct c as [[] [] [] [] [] [] [] []]; reflexivity. }
  rewrite Hradix.
  destruct (digitsValue 10 false 0 (String c rest)) as [v|] eqn:E.
  - destruct (overflowBound <=? v); discriminate.
  - exfalso. exact (Hgo rest Hd E).
Qed.

Lemma digitsGroup_parseInt (s d : string) :
  digitsGroup s = Some d -> parseIntString d <> NaN.
Proof.
  unfold digitsGroup. pose proof (takeDigits_digits s) as H.
  destruct (takeDigits s) as [|c rest]; [discriminate|].
  intros [= <-]. destruct H as [Hc Hr].
  apply parseIntString_digits; [exact Hc|].
  rewrite Hr. pose proof (takeDigits_digits rest) as H'.
  destruct (takeDigits rest); [exact I | apply H'].
Qed.

Lemma matchFirst_somewhere (at_ : string -> option string) (s g : string) :
  matchFirst at_ s = Some g -> exists s', at_ s' = Some g.
Proof.
  induction s as [|c s IH]; simpl.
  - destruct (at_ "") eqn:E; [intros [= <-]; eauto | discriminate].
  - destruct (at_ (String c s)) eqn:E; [intros [= <-]; eauto | exact IH].
Qed.

(** The group of a score pattern parses to a number. *)
Lemma scoreMatch_parseInt (result group1 : string) :
  scoreMatch result = Some group1 -> parseIntString group1 <> NaN.
Proof.
  unfold scoreMatch.
  destruct (matchFirst quotedScoreAt result) as [g|] eqn:E.
  - intros [= <-]. apply matchFirst_somewhere in E. destruct E as [s' E].
    unfold quotedScoreAt in E.
    destruct (stripPrefixIgnoreCase quotedScoreColon s'); [|discriminate].
    exact (digitsGroup_parseInt _ _ E).
  - intros E'. apply matchFirst_somewhere in E'. destruct E' as [s' E'].
    unfold plainScoreAt in E'.
    destruct (stripPrefixIgnoreCase "score" s') as [rest|]; [|discriminate].
    destruct (skipColonsAndSpaces false rest); [|discriminate].
    exact (digitsGroup_parseInt _ _ E').
Qed.

(** ** The evaluator *)

Lemma inr_inj {A B : Type} (x y : B) : @inr A B x = inr y -> x = y.
Proof. congruence. Qed.

Tactic Notation "unfold_pure" "in" hyp(H) :=
  cbn [bind ret throw try_catch MonadExn_Pure] in H.

(** Inversion of a pure computation that returned: every step returned. *)
Ltac invert_pure H :=
  repeat match type of H with
         | context [match ?c with inl _ => _ | inr _ => _ end] =>
             let E := fresh "E" in
             destruct c eqn:E; try discriminate H
         end.

Section Evaluator.

Variable w : World.

Lemma mapPure_Forall {A B : Type} (f : A -> Pure B) (P : B -> Prop) :
  (forall x y, f x = inr y -> P y) ->
  forall items l, mapPure f items = inr l -> Forall P l.
Proof.
  intros Hf. induction items as [|x items IH]; intros l H; simpl in H.
  - apply inr_inj in H; subst. constructor.
  - unfold_pure in H. invert_pure H. apply inr_inj in H; subst.
    constructor; [eapply Hf; eassumption | apply IH; reflexivity].
Qed.

Lemma substringOf_length (v : jsval) (n : nat) (s : string) :
  substringOf w v n = inr s -> (String.length s <= n)%nat.
Proof.
  destruct v as [[| | |text| |]|]; try discriminate.
  intros [= <-]. apply substring0_length.
Qed.

Lemma shortItems_caps (v : jsval) (l : list string) :
  shortItems w v = inr l ->
  (List.length l <= 5)%nat /\ Forall (fun s => (String.length s <= 150)%nat) l.
Proof.
  destruct v as [[| | | |items|]|]; unfold shortItems;
    try (intros [= <-]; split; [simpl; lia | constructor]).
  intros H. unfold_pure in H. invert_pure H. apply inr_inj in H; subst. split.
  - rewrite length_firstn. lia.
  - apply Forall_firstn.
    eapply mapPure_Forall; [|eassumption].
    intros x y Hy. unfold_pure in Hy. invert_pure Hy. apply inr_inj in Hy; subst.
    apply substring0_length.
Qed.

Lemma evaluationOfParsed_spec (parsed : json) (m : Z) (g : Groq.Evaluation) :
  evaluationOfParsed w parsed (Int m) = inr g ->
  within_caps g /\ (0 <= m -> in_range 0 m (Groq.score g)).
Proof.
  unfold evaluationOfParsed. intros H. unfold_pure in H. invert_pure H.
  apply inr_inj in H; subst. unfold within_caps. cbn.
  repeat match goal with
         | E : substringOf _ _ _ = inr _ |- _ =>
             apply substringOf_length in E
         | E : shortItems _ _ = inr _ |- _ =>
             apply shortItems_caps in E; destruct E
         end.
  repeat split; try assumption.
  intros Hm. apply clamp_in_range; [apply or_number_not_NaN | exact Hm].
Qed.

Lemma evaluationOfText_spec (result : json) (m : Z) (g : Groq.Evaluation) :
  evaluationOfText w result (Int m) = inr g ->
  within_caps g /\ (0 <= m -> in_range 0 m (Groq.score g)).
Proof.
  unfold evaluationOfText. intros H. unfold_pure in H. invert_pure H.
  destruct result as [| | |text| |]; try discriminate H. apply inr_inj in H; subst.
  unfold within_caps. cbn. repeat split; try constructor; try lia.
  - pose proof (substring0_length 200 text) as L.
    unfold or_string. destruct (truthy_string (substring0 200 text));
      [lia | simpl; lia].
  - intros Hm. apply clamp_in_range; [|exact Hm].
    destruct (scoreMatch text) eqn:Hmatch; [|discriminate].
    exact (scoreMatch_parseInt _ _ Hmatch).
Qed.

(** Whatever the API answers, an evaluation made from the answer is within
    the caps and its score within the budget. *)
Lemma evaluationOfResponse_spec (data : jsval) (m : Z)
  (g : Groq.Evaluation) :
  evaluationOfResponse w data (Int m) = inr g ->
  within_caps g /\ (0 <= m -> in_range 0 m (Groq.score g)).
Proof.
  unfold evaluationOfResponse. intros H. unfold_pure in H.
  destruct (responseContent w data) as [e|[content|]]; try discriminate H.
  destruct (negb (truthy (Some content))); [discriminate H|].
  destruct (parseResult w content).
  - exact (evaluationOfText_spec _ _ _ H).
  - exact (evaluationOfParsed_spec _ _ _ H).
Qed.

End Evaluator.

(** ** The stages *)

(** Every case of a stage, by the answers of the world. *)
Ltac world_cases :=
  repeat match goal with
         | |- context [match ?x with _ => _ end] =>
             lazymatch x with
             | context [match _ with _ => _ end] => fail
             | _ => destruct x eqn:?
             end
         | |- context [if ?x then _ else _] =>
             lazymatch x with
             | context [if _ then _ else _] => fail
             | _ => destruct x eqn:?
             end
         end.

Section Stages.

Variable w : World.

Lemma cloneRepository_returns (repoUrl : string) :
  returns (cloneRepository w repoUrl).
Proof.
  unfold returns, outcome, cloneRepository, pathExists, remove, gitClone, call.
  cbn. world_cases; eexists; reflexivity.
Qed.

Lemma checkRequiredFiles_returns (repoPath : string) :
  returns (checkRequiredFiles w repoPath).
Proof.
  unfold returns, outcome, checkRequiredFiles, pathExists, call.
  cbn. world_cases; eexists; reflexivity.
Qed.

Lemma runFlutterPubGet_returns (repoPath : string) :
  returns (runFlutterPubGet w repoPath).
Proof.
  unfold returns, outcome, runFlutterPubGet, execAsync, call.
  cbn. world_cases; eexists; reflexivity.
Qed.

Lemma checkBuild_returns (repoPath : string) :
  returns (checkBuild w repoPath).
Proof.
  unfold returns, outcome, checkBuild, execAsync, call.
  cbn. world_cases; eexists; reflexivity.
Qed.

Lemma runFlutterTest_returns (repoPath : string) :
  returns (runFlutterTest w repoPath).
Proof.
  unfold returns, outcome, runFlutterTest, execAsync, call.
  cbn. world_cases; eexists; reflexivity.
Qed.

Lemma collectLibFiles_returns (repoPath : string) :
  returns (collectLibFiles w repoPath).
Proof.
  unfold returns, outcome, collectLibFiles, pathExists, call.
  cbn -[collectFilesRecursively]. world_cases; eexists; reflexivity.
Qed.

End Stages.

Section EvaluatorCalls.

Variable w : World.

(** Without the credential the evaluator throws before any request. *)
Lemma evaluateWithGroq_absent (files : list CollectedFile) (max : number) :
  credentialAbsent w ->
  evaluateWithGroq w files max
  = (inl credentialMissing, [ConfigGet "GROQ_API_KEY"]).
Proof.
  unfold credentialAbsent, evaluateWithGroq, configGet, call. intros H.
  cbn. rewrite H. reflexivity.
Qed.

(** The conversion to a string throws for one reason only: a value with
    no primitive value. *)
Lemma ToString_throws :
  forall (v : json) (e : exn),
    ToString w v = inl e -> e = Error (engine_message w NotPrimitive).
Proof.
  fix IH 1.
  intros [| b | n | s | items | props] e; try discriminate.
  - destruct b; discriminate.
  - cbn [ToString].
    match goal with
    | |- context [(fix each (items : list json) {struct items} := _) items] =>
        set (each := fix each (items : list json) {struct items}
                       : Pure (list string) := _)
    end.
    enough (Heach : forall e', each items = inl e' ->
                               e' = Error (engine_message w NotPrimitive)).
    { destruct (each items) as [e'|parts]; [|discriminate].
      intros H. apply Heach. congruence. }
    induction items as [|x items IHitems]; intros e' H; [discriminate H|].
    pose proof (IH x) as Hx.
    cbn [each] in H. fold each in H.
    destruct x as [| b | n | s | xs | ps];
      [ destruct (each items) as [e''|ss] eqn:E; [|discriminate H];
        apply IHitems; congruence
      | .. ].
    all: destruct (ToString w _) as [e0|s0] eqn:E0;
      [ pose proof (Hx _ eq_refl); congruence |].
    all: destruct (each items) as [e''|ss] eqn:E; [|discriminate H].
    all: apply IHitems; congruence.
  - cbn [ToString]. destruct (lookup "toString" props); [|discriminate].
    unfold engineError. cbn. congruence.
Qed.

(** The outer [catch] returns an evaluation of score 0 whose summary tells
    the failure, or throws because the message it found has no primitive
    value. *)
Lemma failedEvaluation_cases (e : exn) :
  (exists text,
     failedEvaluation w e
     = inr {| Groq.score := Int 0;
              Groq.summary := "Evaluation failed: " ++ text;
              Groq.strengths := [];
              Groq.weaknesses := [];
              Groq.recommendations := "" |})
  \/ failedEvaluation w e = inl (Error (engine_message w NotPrimitive)).
Proof.
  unfold failedEvaluation, ToStringValue, or_value.
  destruct (truthy (responseMessage_of e)).
  - destruct (responseMessage_of e) as [v|]; [|left; eexists; reflexivity].
    destruct (ToString w v) as [err|text] eqn:E.
    + right. cbn. rewrite (ToString_throws _ _ E). reflexivity.
    + left. exists text. reflexivity.
  - left. eexists. reflexivity.
Qed.

(** With the credential the evaluator makes one request; what it gives is
    the evaluation made from the answer, or what the outer [catch]
    gives. *)
Lemma evaluateWithGroq_present (files : list CollectedFile) (max : number) :
  truthy_undefined (config w "GROQ_API_KEY") = true ->
  evaluateWithGroq w files max
  = (match post_result w groqApiUrl
             (or_string (config w "GROQ_API_KEY") "")
             (buildPrompt (codeContentOf files) max) with
     | Rejected m data => failedEvaluation w (AxiosError m data)
     | Resolved data =>
         match evaluationOfResponse w data max with
         | inr g => inr g
         | inl e => failedEvaluation w e
         end
     end,
     [ConfigGet "GROQ_API_KEY"; HttpPost groqApiUrl]).
Proof.
  unfold evaluateWithGroq, configGet, axiosPost, call, pure. intros H.
  cbn -[buildPrompt evaluationOfResponse failedEvaluation]. rewrite H.
  cbn -[buildPrompt evaluationOfResponse failedEvaluation].
  destruct (post_result w groqApiUrl _ _) as [data|m r].
  - cbn -[buildPrompt evaluationOfResponse failedEvaluation].
    destruct (evaluationOfResponse w data max);
      cbn -[failedEvaluation]; rewrite ?app_nil_r;
      try destruct (failedEvaluation w _); reflexivity.
  - cbn -[failedEvaluation].
    destruct (failedEvaluation w _); reflexivity.
Qed.

Lemma failedEvaluation_score (e : exn) (m : Z) (g : Groq.Evaluation) :
  failedEvaluation w e = inr g -> 0 <= m -> in_range 0 m (Groq.score g).
Proof.
  intros H Hm.
  destruct (failedEvaluation_cases e) as [[text E]|E]; rewrite E in H;
    [|discriminate H].
  apply inr_inj in H. subst g. apply in_range_Int. cbn. lia.
Qed.

(** The evaluator throws for the missing credential, or out of its outer
    [catch]; the score of an evaluation it returns is within the budget. *)
Lemma evaluateWithGroq_cases (files : list CollectedFile) (m : Z) :
  0 <= m ->
  (credentialAbsent w
   /\ evaluateWithGroq w files (Int m)
      = (inl credentialMissing, [ConfigGet "GROQ_API_KEY"]))
  \/ (exists g,
        evaluateWithGroq w files (Int m)
        = (inr g, [ConfigGet "GROQ_API_KEY"; HttpPost groqApiUrl])
        /\ in_range 0 m (Groq.score g))
  \/ evaluateWithGroq w files (Int m)
     = (inl (Error (engine_message w NotPrimitive)),
        [ConfigGet "GROQ_API_KEY"; HttpPost groqApiUrl]).
Proof.
  intros Hm.
  destruct (truthy_undefined (config w "GROQ_API_KEY")) eqn:K.
  - right. rewrite (evaluateWithGroq_present _ _ K).
    destruct (post_result w groqApiUrl _ _) as [data|em rm].
    + destruct (evaluationOfResponse w data (Int m)) as [e|g] eqn:E.
      * destruct (failedEvaluation_cases e) as [[text F]|F]; rewrite F.
        -- left. eexists. split; [reflexivity|].
           apply in_range_Int. cbn. lia.
        -- right. reflexivity.
      * left. exists g. split; [reflexivity|].
        apply (evaluationOfResponse_spec _ _ _ _ E), Hm.
    + destruct (failedEvaluation_cases (AxiosError em rm)) as [[text F]|F];
        rewrite F.
      * left. eexists. split; [reflexivity|]. apply in_range_Int. cbn. lia.
      * right. reflexivity.
  - left. split; [exact K | apply evaluateWithGroq_absent, K].
Qed.

(** An evaluation of the outer [catch] is within the caps but for its
    summary, which is as long as the message of the error makes it. *)
Lemma failedEvaluation_caps (e : exn) (g : Groq.Evaluation) :
  failedEvaluation w e = inr g ->
  (List.length (Groq.strengths g) <= 5)%nat
  /\ Forall (fun s => (String.length s <= 150)%nat) (Groq.strengths g)
  /\ (List.length (Groq.weaknesses g) <= 5)%nat
  /\ Forall (fun s => (String.length s <= 150)%nat) (Groq.weaknesses g)
  /\ (String.length (Groq.recommendations g) <= 200)%nat.
Proof.
  intros H.
  destruct (failedEvaluation_cases e) as [[text E]|E]; rewrite E in H;
    [|discriminate H].
  apply inr_inj in H. subst g. cbn.
  repeat split; try apply Forall_nil; lia.
Qed.

(** What the evaluator returns is within the caps when it is made from the
    answer of the API; otherwise it is an evaluation of the outer
    [catch]. *)
Lemma evaluateWithGroq_caps (files : list CollectedFile) (m : Z)
  (g : Groq.Evaluation) :
  outcome (evaluateWithGroq w files (Int m)) = inr g ->
  within_caps g \/ exists e, failedEvaluation w e = inr g.
Proof.
  unfold outcome.
  destruct (truthy_undefined (config w "GROQ_API_KEY")) eqn:K.
  - rewrite (evaluateWithGroq_present _ _ K). cbn [fst].
    destruct (post_result w groqApiUrl _ _) as [data|em rm].
    + destruct (evaluationOfResponse w data (Int m)) as [e|g'] eqn:E.
      * intros H. right. exists e. exact H.
      * intros H. apply inr_inj in H. subst g'. left.
        apply (evaluationOfResponse_spec _ _ _ _ E).
    + intros H. right. eexists. exact H.
  - rewrite (evaluateWithGroq_absent _ _ K). discriminate.
Qed.

End EvaluatorCalls.

(** When the source subtree does not exist the collection is empty, and
    nothing is read. *)
Lemma collectLibFiles_missing_subtree (w : World) (repoPath : string) :
  path_exists w (path_join repoPath "lib") = false ->
  collectLibFiles w repoPath
  = (inr [], [PathExists (path_join repoPath "lib")]).
Proof.
  intros H.
  unfold collectLibFiles, pathExists, call. cbn -[collectFilesRecursively].
  rewrite H. reflexivity.
Qed.

(** What [runFlutterPubGet] returns, by how the command ended. *)
Lemma runFlutterPubGet_spec (w : World) (repoPath : string) :
  exists r,
    runFlutterPubGet w repoPath = (inr r, [Exec "flutter pub get" repoPath])
    /\ (Stage.success r = false <->
        match exec_result w "flutter pub get" repoPath with
        | Failed _ _ _ => True
        | Exited _ stderr => stderr <> "" /\ includes stderr "Warning" = false
        end).
Proof.
  unfold runFlutterPubGet, execAsync, call. cbn -[includes].
  destruct (exec_result w "flutter pub get" repoPath)
    as [stdout stderr|m stdout stderr]; cbn -[includes].
  - destruct stderr as [|c stderr]; cbn -[includes].
    + eexists. split; [reflexivity|]. cbn. intuition congruence.
    + destruct (includes (String c stderr) "Warning") eqn:I; cbn -[includes];
        eexists; (split; [reflexivity|]); cbn -[includes];
        intuition congruence.
  - eexists. split; [reflexivity|]. cbn. tauto.
Qed.

Lemma prefix_Warning_ignoring_case (s : string) :
  prefix "Warning" s = true -> stripPrefixIgnoreCase "warning" s <> None.
Proof.
  intros H.
  destruct s as [|c1 [|c2 [|c3 [|c4 [|c5 [|c6 [|c7 s]]]]]]];
    cbn [prefix] in H;
    repeat match type of H with
           | context [ascii_dec ?a ?b] => destruct (ascii_dec a b)
           end;
    try discriminate H.
  subst. cbn. discriminate.
Qed.

(** A text that holds [Warning] mentions a warning. *)
Lemma includes_Warning_mentions (s : string) :
  includes s "Warning" = true -> mentionsWarning s = true.
Proof.
  induction s as [|c s IH]; intros H; [discriminate H|].
  cbn [includes] in H. apply orb_true_iff in H.
  cbn [mentionsWarning].
  destruct (stripPrefixIgnoreCase "warning" (String c s)) eqn:E;
    [reflexivity|].
  destruct H as [H|H].
  - apply prefix_Warning_ignoring_case in H. congruence.
  - apply IH, H.
Qed.

(** A text that consists solely of warning lines holds [Warning]. *)
Lemma warningsOnly_includes (s : string) :
  warningsOnly s = true -> includes s "Warning" = true.
Proof.
  unfold warningsOnly. intros H. apply andb_true_iff in H.
  destruct H as [T L].
  induction s as [|c s IH]; [discriminate T|].
  cbn [hasText warningLines] in T, L. cbn [includes].
  destruct (Ascii.eqb c LF).
  - cbn [negb orb] in T. rewrite (IH T L). apply orb_true_r.
  - apply andb_true_iff in L. destruct L as [L _]. rewrite L. reflexivity.
Qed.

(** C8, as the code has it: the install stage fails when the command itself
    fails (a status other than 0, a timeout), whatever it wrote.  When the
    command exits with status 0, the stage succeeds if stderr is empty or
    consists solely of warning-level text, and it fails if stderr is not
    empty and mentions no warning at all.  (Nothing is said of a stderr
    that mentions a warning without consisting of warning lines.) *)
Theorem install_stage_outcome (w : World) (repoPath : string) :
  exists r,
    runFlutterPubGet w repoPath = (inr r, [Exec "flutter pub get" repoPath])
    /\ match exec_result w "flutter pub get" repoPath with
       | Failed _ _ _ => Stage.success r = false
       | Exited _ stderr =>
           (stderr = "" \/ warningsOnly stderr = true ->
            Stage.success r = true)
           /\ (stderr <> "" -> mentionsWarning stderr = false ->
               warningsOnly stderr = false /\ Stage.success r = false)
       end.
Proof.
  destruct (runFlutterPubGet_spec w repoPath) as (r & E & H).
  exists r. split; [exact E|].
  destruct (exec_result w "flutter pub get" repoPath)
    as [stdout stderr|m stdout stderr].
  - split.
    + intros Hok. destruct (Stage.success r) eqn:S; [reflexivity|].
      destruct H as [H _]. destruct (H eq_refl) as [Hne Hno].
      destruct Hok as [Hempty|Hw]; [congruence|].
      apply warningsOnly_includes in Hw. congruence.
    + intros Hne Hno.
      assert (I : includes stderr "Warning" = false).
      { destruct (includes stderr "Warning") eqn:I; [|reflexivity].
        apply includes_Warning_mentions in I. congruence. }
      split.
      * destruct (warningsOnly stderr) eqn:W; [|reflexivity].
        apply warningsOnly_includes in W. congruence.
      * apply H. split; assumption.
  - apply H. exact I.
Qed.

(** C8 does not hold as stated: in the world [Sample.installFailure] the
    command exits with a status other than 0 and wrote nothing to stderr,
    and the install stage fails. *)
Lemma install_fails_with_empty_stderr :
  capturedStderr
    (exec_result Sample.installFailure "flutter pub get" Sample.repoPath) = ""
  /\ succeeded (runFlutterPubGet Sample.installFailure Sample.repoPath)
     = false.
Proof. split; vm_compute; reflexivity. Qed.

(** C8 as amended, in the world where the command exits with status 0 and
    one warning line on stderr, and in the world where it exits with status
    0 and a complaint that mentions no warning. *)
Lemma install_stage_outcome_witness :
  warningsOnly
    (capturedStderr
       (exec_result Sample.installWarning "flutter pub get" Sample.repoPath))
  = true
  /\ succeeded (runFlutterPubGet Sample.installWarning Sample.repoPath) = true
  /\ mentionsWarning
       (capturedStderr
          (exec_result Sample.installComplaint "flutter pub get"
             Sample.repoPath))
     = false
  /\ succeeded (runFlutterPubGet Sample.installComplaint Sample.repoPath)
     = false.
Proof.
  split; [vm_compute; reflexivity|]. split.
  - destruct (install_stage_outcome Sample.installWarning Sample.repoPath)
      as (r & E & H).
    unfold succeeded, outcome. rewrite E. cbn [fst].
    change (exec_result Sample.installWarning "flutter pub get"
              Sample.repoPath)
      with (Exited "Resolving dependencies..."
              ("Warning: You are using a deprecated SDK constraint."
                 ++ newline)) in H.
    apply (proj1 H). right. vm_compute. reflexivity.
  - split; [vm_compute; reflexivity|].
    destruct (install_stage_outcome Sample.installComplaint Sample.repoPath)
      as (r & E & H).
    unfold succeeded, outcome. rewrite E. cbn [fst].
    change (exec_result Sample.installComplaint "flutter pub get"
              Sample.repoPath)
      with (Exited "Resolving dependencies..."
              "pubspec.yaml: dependency override is not allowed here.") in H.
    apply (proj2 H); [discriminate | vm_compute; reflexivity].
Defined.

(** No stage up to the build stage makes a call of a later stage. *)

Section GatingCalls.

Variable w : World.

Lemma cloneRepository_calls (repoUrl : string) :
  Forall (fun e => laterStageCall e = false)
    (trace (cloneRepository w repoUrl)).
Proof.
  unfold trace, cloneRepository, pathExists, remove, gitClone, call.
  cbn. world_cases; cbn; repeat constructor.
Qed.

Lemma checkRequiredFiles_calls (repoPath : string) :
  Forall (fun e => laterStageCall e = false)
    (trace (checkRequiredFiles w repoPath)).
Proof.
  unfold trace, checkRequiredFiles, pathExists, call.
  cbn. world_cases; cbn; repeat constructor.
Qed.

Lemma runFlutterPubGet_calls (repoPath : string) :
  Forall (fun e => laterStageCall e = false)
    (trace (runFlutterPubGet w repoPath)).
Proof.
  unfold trace, runFlutterPubGet, execAsync, call.
  cbn. world_cases; cbn; repeat constructor.
Qed.

Lemma checkBuild_calls (repoPath : string) :
  Forall (fun e => laterStageCall e = false)
    (trace (checkBuild w repoPath)).
Proof.
  unfold trace, checkBuild, execAsync, call.
  cbn. world_cases; cbn; repeat constructor.
Qed.

Lemma gatingCalls_not_later (repoUrl repoPath : string) :
  Forall (fun e => laterStageCall e = false)
    (gatingCalls w repoUrl repoPath).
Proof.
  unfold gatingCalls. repeat (apply Forall_app; split).
  - apply cloneRepository_calls.
  - apply checkRequiredFiles_calls.
  - apply runFlutterPubGet_calls.
  - apply checkBuild_calls.
Qed.

End GatingCalls.

(** No stage before the evaluator makes a call of the evaluator. *)

Lemma collectFilesRecursively_calls :
  forall (node : Dirent) (dir rel : string) (files : list CollectedFile),
    Forall (fun e => evaluatorCall e = false)
      (snd (collectFilesRecursively dir rel node files)).
Proof.
  fix IH 1.
  intros [name content|name [entries|]|name] dir rel files.
  - constructor.
  - cbn [collectFilesRecursively].
    match goal with
    | |- context [(fix each (entries : list Dirent)
                     (files : list CollectedFile) {struct entries} := _)
                    entries files] =>
        set (each := fix each (entries : list Dirent)
                       (files : list CollectedFile) {struct entries}
                       : list CollectedFile * bool * list event := _)
    end.
    enough (Heach : Forall (fun e => evaluatorCall e = false)
                      (snd (each entries files))).
    { destruct (each entries files) as [r t].
      cbn [snd] in *. constructor; [reflexivity | exact Heach]. }
    revert files.
    induction entries as [|entry es IHes]; intros fs.
    + constructor.
    + pose proof (IH entry) as Hentry.
      cbn [each]. fold each.
      destruct entry as [n c|n sub|n].
      * destruct (endsWith n ".dart").
        -- specialize
             (IHes match c with
                   | Some text =>
                       push fs {| path := path_relative rel n;
                                  content := text |}
                   | None => fs
                   end).
           destruct (each es _) as [r t']. cbn [snd] in *.
           constructor; [reflexivity | exact IHes].
        -- apply IHes.
      * specialize (Hentry (path_join dir n) (path_relative rel n) fs).
        destruct (collectFilesRecursively (path_join dir n)
                    (path_relative rel n) (Directory n sub) fs)
          as [[fs' returned] t].
        cbn [snd] in Hentry. destruct returned.
        -- specialize (IHes fs'). destruct (each es fs') as [r t'].
           cbn [snd] in *. apply Forall_app. split; assumption.
        -- exact Hentry.
      * apply IHes.
  - repeat constructor.
  - constructor.
Qed.

Lemma later_call_or_not (l : list event) :
  Forall (fun e => laterStageCall e = false) l ->
  Forall (fun e => evaluatorCall e = false) l.
Proof.
  apply Forall_impl. intros [] H; try reflexivity; discriminate H.
Qed.

Lemma no_evaluator_call (l : list event) (e : event) :
  Forall (fun e => evaluatorCall e = false) l ->
  evaluatorCall e = true -> ~ In e l.
Proof.
  intros H He Hin. rewrite Forall_forall in H.
  specialize (H e Hin). congruence.
Qed.

Section OtherCalls.

Variable w : World.

Lemma cloneRepository_no_evaluator (repoUrl : string) :
  Forall (fun e => evaluatorCall e = false)
    (trace (cloneRepository w repoUrl)).
Proof. apply later_call_or_not, cloneRepository_calls. Qed.

Lemma checkRequiredFiles_no_evaluator (repoPath : string) :
  Forall (fun e => evaluatorCall e = false)
    (trace (checkRequiredFiles w repoPath)).
Proof. apply later_call_or_not, checkRequiredFiles_calls. Qed.

Lemma runFlutterPubGet_no_evaluator (repoPath : string) :
  Forall (fun e => evaluatorCall e = false)
    (trace (runFlutterPubGet w repoPath)).
Proof. apply later_call_or_not, runFlutterPubGet_calls. Qed.

Lemma checkBuild_no_evaluator (repoPath : string) :
  Forall (fun e => evaluatorCall e = false)
    (trace (checkBuild w repoPath)).
Proof. apply later_call_or_not, checkBuild_calls. Qed.

Lemma runFlutterTest_no_evaluator (repoPath : string) :
  Forall (fun e => evaluatorCall e = false)
    (trace (runFlutterTest w repoPath)).
Proof.
  unfold trace, runFlutterTest, execAsync, call.
  cbn. world_cases; cbn; repeat constructor.
Qed.

Lemma collectLibFiles_no_evaluator (repoPath : string) :
  Forall (fun e => evaluatorCall e = false)
    (trace (collectLibFiles w repoPath)).
Proof.
  unfold trace, collectLibFiles, pathExists, call.
  cbn -[collectFilesRecursively].
  destruct (path_exists w (path_join repoPath "lib")); cbn [negb].
  - pose proof (collectFilesRecursively_calls
                  (Directory "lib" (readdir_result w (path_join repoPath "lib")))
                  (path_join repoPath "lib") "" []) as H.
    destruct (collectFilesRecursively _ _ _ _) as [[files returned] t].
    cbn [snd] in *. constructor; [reflexivity | exact H].
  - repeat constructor.
Qed.

End OtherCalls.

(** ** The pipeline *)

#[local] Opaque cloneRepository checkRequiredFiles runFlutterPubGet checkBuild
  runFlutterTest collectLibFiles evaluateWithGroq.
#[local] Arguments plus !a !b.
#[local] Arguments minus !a !b.
#[local] Arguments Math.min !a !b.
#[local] Arguments number_toString : simpl never.
#[local] Arguments or_string : simpl never.

(** The stage [c], which returns by [lem] and makes the calls that [calls]
    tells, is replaced by what it returns and the calls it makes. *)
Ltac destruct_stage lem calls c :=
  let a := fresh "a" in
  let Ha := fresh "Ha" in
  let Hc := fresh "Hcalls" in
  let o := fresh "o" in
  let t := fresh "t" in
  pose proof lem as [a Ha];
  pose proof calls as Hc;
  destruct c as [o t];
  unfold outcome in Ha; cbn [fst] in Ha; subst o.

(** One step through the run [H]: the next stage, or the next test of the
    orchestrator. *)
Ltac pipeline_step H :=
  match type of H with
  | context [cloneRepository ?w ?u] =>
      destruct_stage (cloneRepository_returns w u)
        (cloneRepository_no_evaluator w u) (cloneRepository w u)
  | context [checkRequiredFiles ?w ?p] =>
      destruct_stage (checkRequiredFiles_returns w p)
        (checkRequiredFiles_no_evaluator w p) (checkRequiredFiles w p)
  | context [runFlutterPubGet ?w ?p] =>
      destruct_stage (runFlutterPubGet_returns w p)
        (runFlutterPubGet_no_evaluator w p) (runFlutterPubGet w p)
  | context [checkBuild ?w ?p] =>
      destruct_stage (checkBuild_returns w p)
        (checkBuild_no_evaluator w p) (checkBuild w p)
  | context [runFlutterTest ?w ?p] =>
      destruct_stage (runFlutterTest_returns w p)
        (runFlutterTest_no_evaluator w p) (runFlutterTest w p)
  | context [collectLibFiles ?w ?p] =>
      destruct_stage (collectLibFiles_returns w p)
        (collectLibFiles_no_evaluator w p) (collectLibFiles w p)
  | context [evaluateWithGroq ?w ?files (Int ?m)] =>
      let Hm := fresh "Hm" in
      let g := fresh "g" in
      let Eg := fresh "Eg" in
      let Hg := fresh "Hg" in
      assert (Hm : 0 <= m) by lia;
      destruct (evaluateWithGroq_cases w files m Hm)
        as [[Hg Eg]|[[g [Eg Hg]]|Eg]];
      rewrite Eg in H; clear Hm
  | context [match ?x with Some _ => _ | None => _ end] =>
      is_var x; destruct x
  | context [List.length ?x] => is_var x; destruct x
  | context [Files.valid ?a] =>
      is_var a; let v := fresh "valid" in destruct a as [v ?]; destruct v
  | context [Stage.success ?a] =>
      is_var a; let v := fresh "success" in destruct a as [v ?]; destruct v
  | context [remove_error ?w ?p] => destruct (remove_error w p)
  | context [isValidGitHubUrl ?w ?u] =>
      destruct (isValidGitHubUrl w u) eqn:?
  end;
  unfold succeeded, validated, outcome, trace in *;
  cbn [fst snd Stage.success Stage.message Files.valid Files.message] in *;
  repeat match goal with
         | Hx : inr ?a = inr _ |- _ => is_var a; apply inr_inj in Hx; subst a
         end;
  unfold credentialMissing in H;
  cbn in H.

(** Every run [H : evaluate w repoUrl = (result, calls)], case by case. *)
Ltac pipeline H :=
  unfold evaluate, run, try_finally, stages in H; cbn in H;
  repeat pipeline_step H;
  try discriminate H;
  try (injection H as <- <-).

Ltac start_run w repoUrl :=
  let result := fresh "result" in
  let calls := fresh "calls" in
  let Ev := fresh "Ev" in
  destruct (evaluate w repoUrl) as [result calls] eqn:Ev;
  unfold outcome, trace in *; cbn [fst snd] in *.

(** The call [e] of the evaluator is in none of the lists of calls that the
    stages before it made. *)
Ltac not_in_stage_calls Hin :=
  rewrite ?in_app_iff in Hin; cbn [In] in Hin;
  repeat match type of Hin with
         | _ \/ _ => destruct Hin as [Hin|Hin]
         end;
  try discriminate Hin; try contradiction;
  match goal with
  | Hc : Forall _ ?l, Hi : In _ ?l |- _ =>
      refine (no_evaluator_call _ _ Hc _ Hi); reflexivity
  end.

Lemma min_within_budget (s : number) (m : Z) :
  in_range 0 m s -> Math.min s (Int m) = s.
Proof.
  intros [z [-> Hz]]. cbn. f_equal. lia.
Qed.

(** C1: when cloning and structural validation succeed but the install
    stage or the build stage fails, the run returns a response whose total
    score is the fixed partial value 5, hence at most 5; no check of the
    test stage and none of the quality evaluation is in the list of checks,
    there is no quality-evaluation record, and the later stages are skipped:
    the calls made are those of the stages up to the failed one and the
    removal of the workspace, none of them a call of a later stage. *)
Theorem install_or_build_failure_caps_score
  (w : World) (repoUrl repoPath : string) :
  Fetched w repoUrl repoPath ->
  succeeded (runFlutterPubGet w repoPath) = false
  \/ succeeded (checkBuild w repoPath) = false ->
  exists r,
    outcome (evaluate w repoUrl) = inr r
    /\ totalScore r = Int 5
    /\ in_range 0 5 (totalScore r)
    /\ (forall c, In c (checks r) ->
          name c <> "Flutter Test" /\ name c <> "Groq Code Evaluation")
    /\ groqEvaluation (details r) = None
    /\ trace (evaluate w repoUrl)
       = (trace (cloneRepository w repoUrl)
          ++ trace (checkRequiredFiles w repoPath)
          ++ trace (runFlutterPubGet w repoPath)
          ++ (if succeeded (runFlutterPubGet w repoPath)
              then trace (checkBuild w repoPath) else [])
          ++ [Remove repoPath])%list
    /\ Forall (fun e => laterStageCall e = false) (trace (evaluate w repoUrl)).
Proof.
  intros (Hvalid & Hclone & Hfiles) Hfail.
  pose proof (gatingCalls_not_later w repoUrl repoPath) as Hcalls.
  unfold gatingCalls in Hcalls.
  start_run w repoUrl.
  pipeline Ev; try congruence; try (destruct Hfail; congruence).
  all: eexists; split; [reflexivity|]; cbn.
  all: repeat split; try (apply in_range_Int; lia).
  all: try solve [intuition (subst; cbn; discriminate)].
  all: try (rewrite ?app_nil_r, <- ?app_assoc; reflexivity).
  all: rewrite ?app_nil_r, <- ?app_assoc.
  all: repeat (apply Forall_app in Hcalls; destruct Hcalls as [? Hcalls]).
  all: repeat (apply Forall_app; split); try assumption;
    repeat constructor.
Qed.

(** C2: in every response the orchestrator returns, the total score is an
    integer between 0 and 20 and the score of the quality evaluation, when
    there is one, is an integer between 0 and the remaining budget, 20 less
    the points of the test stage, whatever the API and the model answer. *)
Theorem scores_within_bounds
  (w : World) (repoUrl : string) (r : EvaluateResponseDto) :
  outcome (evaluate w repoUrl) = inr r ->
  in_range 0 20 (totalScore r)
  /\ forall g, groqEvaluation (details r) = Some g ->
       in_range 0 (20 - testPoints r) (Groq.score g).
Proof.
  intros H. start_run w repoUrl. subst result.
  pipeline Ev; cbn.
  all: split; [|intros g0 E; try discriminate E].
  all: try (apply in_range_Int; lia).
  all: try (injection E as <-; cbn).
  all: rewrite (min_within_budget _ _ Hg); try exact Hg.
  all: destruct Hg as [z [-> Hz]]; unfold plus; apply in_range_Int; lia.
Qed.

(** C3 does not hold of the code.  In the world [Sample.oddErrorBody]
    every gating stage passes, the tests pass, the collection holds one
    file, the credential is configured, and the API rejects the request
    with status 429 and a body whose error message is no string but an
    object with a property [toString].  The outer [catch] of the evaluator
    throws while it builds the summary, so the failure is not converted
    into a result of score 0: the evaluator throws, and the run throws the
    wrapped error.  There is no response: no total score of 5, no
    quality-evaluation record. *)
Theorem unconvertible_error_message_escapes_the_catch :
  let files := [{| path := "main.dart"; content := "void main() {}" |}] in
  let body :=
    Some (JObj [("error",
                 JObj [("message",
                        JObj [("toString", JNum (JFinite 1))])])]) in
  GatesPass Sample.oddErrorBody Sample.repoUrl Sample.repoPath
  /\ succeeded (runFlutterTest Sample.oddErrorBody Sample.repoPath) = true
  /\ outcome (collectLibFiles Sample.oddErrorBody Sample.repoPath)
     = inr files
  /\ config Sample.oddErrorBody "GROQ_API_KEY" = Some "gsk_key"
  /\ post_result Sample.oddErrorBody groqApiUrl "gsk_key"
       (buildPrompt (codeContentOf files) (Int 15))
     = Rejected "Request failed with status code 429" body
  /\ evaluateWithGroq Sample.oddErrorBody files (Int 15)
     = (inl (Error "Cannot convert object to primitive value"),
        [ConfigGet "GROQ_API_KEY"; HttpPost groqApiUrl])
  /\ outcome (evaluate Sample.oddErrorBody Sample.repoUrl)
     = inl (InternalServerErrorException
              "Evaluation failed: Cannot convert object to primitive value")
  /\ forall r, outcome (evaluate Sample.oddErrorBody Sample.repoUrl) <> inr r.
Proof.
  intros files body.
  assert (E : outcome (evaluate Sample.oddErrorBody Sample.repoUrl)
              = inl (InternalServerErrorException
                       "Evaluation failed: Cannot convert object to primitive value"))
    by (vm_compute; reflexivity).
  split; [repeat split; vm_compute; reflexivity|].
  repeat (split; [vm_compute; reflexivity|]).
  intros r H. rewrite E in H. discriminate H.
Qed.

(** C4: when the quality-evaluation stage runs (every gating stage passes
    and the collection is not empty) and the credential is absent, the
    evaluator throws the server-side configuration failure before any
    request, instead of returning a zero-score evaluation, and the
    orchestrator throws that same error: no response, no score.  The calls
    made are those of the stages, the read of the configuration and the
    removal of the workspace: no request is sent. *)
Theorem missing_credential_escalates
  (w : World) (repoUrl repoPath : string) (libFiles : list CollectedFile) :
  GatesPass w repoUrl repoPath ->
  outcome (collectLibFiles w repoPath) = inr libFiles ->
  libFiles <> [] ->
  credentialAbsent w ->
  (forall max,
     evaluateWithGroq w libFiles max
     = (inl credentialMissing, [ConfigGet "GROQ_API_KEY"]))
  /\ outcome (evaluate w repoUrl)
     = inl (InternalServerErrorException
              "Groq API key not configured. Please set GROQ_API_KEY environment variable.")
  /\ trace (evaluate w repoUrl)
     = (gatingCalls w repoUrl repoPath
        ++ trace (runFlutterTest w repoPath)
        ++ trace (collectLibFiles w repoPath)
        ++ [ConfigGet "GROQ_API_KEY"; Remove repoPath])%list
  /\ ~ In (HttpPost groqApiUrl) (trace (evaluate w repoUrl)).
Proof.
  intros ((Hvalid & Hclone & Hfiles) & Hinstall & Hbuild) Hlib Hne Habsent.
  split; [intros max; apply evaluateWithGroq_absent, Habsent|].
  unfold gatingCalls.
  start_run w repoUrl.
  pipeline Ev; try congruence.
  all: try (exfalso;
            rewrite (evaluateWithGroq_absent w _ _ Habsent) in Eg;
            discriminate Eg).
  all: split; [reflexivity|].
  all: split; [rewrite ?app_nil_r, <- ?app_assoc; reflexivity|].
  all: intros Hin; not_in_stage_calls Hin.
Qed.

(** C5: a locator that is no well-formed URL, or whose host is neither
    [github.com] nor [www.github.com], is rejected as a client-input error
    and the run makes no call at all: no workspace, no clone, no stage. *)
Theorem rejected_locator_has_no_effect (w : World) (repoUrl : string) :
  url_hostname w repoUrl = None
  \/ (exists host,
        url_hostname w repoUrl = Some host
        /\ host <> "github.com" /\ host <> "www.github.com") ->
  evaluate w repoUrl
  = (inl (BadRequestException "Invalid GitHub repository URL"), []).
Proof.
  intros H.
  assert (V : isValidGitHubUrl w repoUrl = false).
  { unfold isValidGitHubUrl.
    destruct H as [-> | (host & -> & H1 & H2)]; [reflexivity|].
    apply String.eqb_neq in H1, H2. rewrite H1, H2. reflexivity. }
  unfold evaluate, run, try_finally. cbn. rewrite V. reflexivity.
Qed.

(** C6, as the code has it: when every gating stage passes and the test
    stage fails, the pipeline goes on to the collector, and to the quality
    evaluation when the collection is not empty; the evaluator is then asked
    with the whole budget of 20, since the test stage gave no point.  The
    run returns a response when the collection is empty and whenever the
    evaluator returns.  In a response the fifth check is the failed test
    check with score 0, the tests are reported as not passed, the total
    score is that of the quality evaluation, 0 when there is none, and when
    the collection is not empty the quality-evaluation record is the
    evaluation that the evaluator returned for the budget 20. *)
Theorem test_failure_is_not_gating
  (w : World) (repoUrl repoPath : string) (libFiles : list CollectedFile) :
  GatesPass w repoUrl repoPath ->
  succeeded (runFlutterTest w repoPath) = false ->
  outcome (collectLibFiles w repoPath) = inr libFiles ->
  trace (evaluate w repoUrl)
  = (gatingCalls w repoUrl repoPath
     ++ trace (runFlutterTest w repoPath)
     ++ trace (collectLibFiles w repoPath)
     ++ match libFiles with
        | [] => []
        | _ :: _ => trace (evaluateWithGroq w libFiles (Int 20))
        end
     ++ [Remove repoPath])%list
  /\ (libFiles = [] \/ returns (evaluateWithGroq w libFiles (Int 20)) ->
      exists r, outcome (evaluate w repoUrl) = inr r)
  /\ forall r,
       outcome (evaluate w repoUrl) = inr r ->
       testsPassed (details r) = false
       /\ (exists c,
             nth_error (checks r) 4 = Some c
             /\ name c = "Flutter Test" /\ passed c = false
             /\ score c = Int 0)
       /\ totalScore r
          = match groqEvaluation (details r) with
            | Some g => Groq.score g
            | None => Int 0
            end
       /\ (libFiles <> [] ->
           exists g,
             outcome (evaluateWithGroq w libFiles (Int 20)) = inr g
             /\ groqEvaluation (details r) = Some g).
Proof.
  intros ((Hvalid & Hclone & Hfiles) & Hinstall & Hbuild) Htest Hlib.
  unfold gatingCalls, returns.
  start_run w repoUrl.
  pipeline Ev; try congruence.
  all: try rewrite Eg.
  all: cbn [fst snd].
  all: split; [rewrite ?app_nil_r, <- ?app_assoc; reflexivity|].
  all: split;
    [ intros [Hempty|[a Ha]];
      [ try discriminate Hempty | try discriminate Ha ];
      eexists; reflexivity
    | intros r Hr; try discriminate Hr ].
  all: apply inr_inj in Hr; subst r; cbn.
  all: try rewrite (min_within_budget _ _ Hg).
  all: split; [reflexivity|].
  all: split; [eexists; split; [reflexivity|]; repeat split|].
  all: split;
    [ first [ reflexivity
            | destruct (Groq.score g) as [|[|]|z]; reflexivity ] |].
  all: intros Hne; try congruence.
  all: exists g; split; [reflexivity|]; destruct g; reflexivity.
Qed.

(** C6 does not hold as stated: in the world [Sample.failingTestsNoSources]
    every gating stage passes and the tests fail, yet the quality
    evaluation does not run: the collection is empty, the evaluator makes no
    call and the response has no quality-evaluation record. *)
Lemma test_failure_without_sources_skips_evaluation :
  GatesPass Sample.failingTestsNoSources Sample.repoUrl Sample.repoPath
  /\ succeeded (runFlutterTest Sample.failingTestsNoSources Sample.repoPath)
     = false
  /\ ~ In (ConfigGet "GROQ_API_KEY")
         (trace (evaluate Sample.failingTestsNoSources Sample.repoUrl))
  /\ ~ In (HttpPost groqApiUrl)
         (trace (evaluate Sample.failingTestsNoSources Sample.repoUrl))
  /\ exists r,
       outcome (evaluate Sample.failingTestsNoSources Sample.repoUrl) = inr r
       /\ groqEvaluation (details r) = None
       /\ List.length (checks r) = 5%nat.
Proof.
  split; [repeat split; vm_compute; reflexivity|].
  split; [vm_compute; reflexivity|].
  split; [vm_compute; intuition discriminate|].
  split; [vm_compute; intuition discriminate|].
  eexists. split; [vm_compute; reflexivity|]. split; reflexivity.
Qed.

(** C7, as the code has it: an empty collection is no error, and the
    collection is empty when the source subtree does not exist; but the run
    then ends after the collector.  When every gating stage passes and the
    collection is empty, the quality evaluation is skipped: the evaluator
    makes no call, the response is assembled at once with the points of the
    test stage as total score, five checks, none of the quality evaluation,
    no quality-evaluation record, and a feedback that reports the score. *)
Theorem empty_collection_ends_the_run
  (w : World) (repoUrl repoPath : string) :
  GatesPass w repoUrl repoPath ->
  outcome (collectLibFiles w repoPath) = inr [] ->
  exists r,
    outcome (evaluate w repoUrl) = inr r
    /\ totalScore r
       = (if succeeded (runFlutterTest w repoPath) then Int 5 else Int 0)
    /\ List.length (checks r) = 5%nat
    /\ (forall c, In c (checks r) -> name c <> "Groq Code Evaluation")
    /\ groqEvaluation (details r) = None
    /\ feedback r
       = Some (if succeeded (runFlutterTest w repoPath)
               then "Evaluation completed. Score: 5/20"
               else "Evaluation completed. Score: 0/20")
    /\ trace (evaluate w repoUrl)
       = (gatingCalls w repoUrl repoPath
          ++ trace (runFlutterTest w repoPath)
          ++ trace (collectLibFiles w repoPath)
          ++ [Remove repoPath])%list.
Proof.
  intros ((Hvalid & Hclone & Hfiles) & Hinstall & Hbuild) Hlib.
  unfold gatingCalls.
  start_run w repoUrl.
  pipeline Ev; try congruence.
  all: eexists; split; [reflexivity|]; cbn.
  all: repeat split.
  all: try solve [intuition (subst; cbn; discriminate)].
  all: rewrite ?app_nil_r, <- ?app_assoc; reflexivity.
Qed.

(** C7 does not hold as stated: in the world [Sample.noSources] every gating
    stage passes, the source subtree does not exist and the collection is
    empty, and the quality evaluation does not run before the response is
    assembled: the evaluator makes no call and the response has no check and
    no record of a quality evaluation. *)
Lemma empty_collection_skips_evaluation :
  GatesPass Sample.noSources Sample.repoUrl Sample.repoPath
  /\ outcome (collectLibFiles Sample.noSources Sample.repoPath) = inr []
  /\ ~ In (ConfigGet "GROQ_API_KEY")
         (trace (evaluate Sample.noSources Sample.repoUrl))
  /\ ~ In (HttpPost groqApiUrl)
         (trace (evaluate Sample.noSources Sample.repoUrl))
  /\ exists r,
       outcome (evaluate Sample.noSources Sample.repoUrl) = inr r
       /\ groqEvaluation (details r) = None
       /\ forall c, In c (checks r) -> name c <> "Groq Code Evaluation".
Proof.
  split; [repeat split; vm_compute; reflexivity|].
  split; [vm_compute; reflexivity|].
  split; [vm_compute; intuition discriminate|].
  split; [vm_compute; intuition discriminate|].
  eexists. split; [vm_compute; reflexivity|].
  split; [reflexivity|].
  intros c Hc. cbn in Hc. intuition (subst; cbn; discriminate).
Qed.

(** C9 fails on the code through the outer [catch] of the evaluator, which
    puts the message of the error into the summary without truncating it:
    in the world [Sample.rateLimited] the API rejects the request with an
    error message of 300 code units, and the evaluator returns a summary of
    319 code units, which the response of the run carries. *)
Theorem long_error_message_exceeds_summary_cap :
  let files := [{| path := "main.dart"; content := "void main() {}" |}] in
  (exists g,
     outcome (evaluateWithGroq Sample.rateLimited files (Int 15)) = inr g
     /\ String.length (Groq.summary g) = 319%nat
     /\ ~ within_caps g)
  /\ exists r g,
       outcome (evaluate Sample.rateLimited Sample.repoUrl) = inr r
       /\ groqEvaluation (details r) = Some g
       /\ String.length (Groq.summary g) = 319%nat.
Proof.
  split.
  - eexists. split; [vm_compute; reflexivity|].
    split; [vm_compute; reflexivity|].
    intros (H & _). vm_compute in H. lia.
  - eexists. eexists. split; [vm_compute; reflexivity|].
    split; [reflexivity | vm_compute; reflexivity].
Qed.

(** C10: in every response the run returns, a check named
    [Groq Code Evaluation] has [passed = true] and the fixed message.  The
    quality-evaluation stage ran (the evaluator read its credential) exactly
    when the response has a quality-evaluation record, and the response then
    has that check, with the score of the record, whatever the evaluator
    returned: also the zero-score evaluation of a failed request.  Without
    the record the response has no such check. *)
Theorem groq_check_always_passed
  (w : World) (repoUrl : string) (r : EvaluateResponseDto) :
  outcome (evaluate w repoUrl) = inr r ->
  (forall c, In c (checks r) -> name c = "Groq Code Evaluation" ->
     passed c = true /\ message c = Some "Code evaluated by Groq")
  /\ (In (ConfigGet "GROQ_API_KEY") (trace (evaluate w repoUrl)) <->
      groqEvaluation (details r) <> None)
  /\ (forall g, groqEvaluation (details r) = Some g ->
        In (groqCheck (Groq.score g)) (checks r))
  /\ (groqEvaluation (details r) = None ->
      forall c, In c (checks r) -> name c <> "Groq Code Evaluation").
Proof.
  intros H. start_run w repoUrl. subst result.
  pipeline Ev; cbn [checks details groqEvaluation buildResponse].
  all: split; [cbn; solve [intuition (subst; cbn in *; congruence)]|].
  all: split;
    [ split;
      [ intros Hin; try discriminate; exfalso; not_in_stage_calls Hin
      | intros Hrec; try congruence;
        rewrite !in_app_iff; cbn [In]; tauto ]
    | ].
  all: split; [|cbn; solve [intuition (subst; cbn in *; congruence)]].
  all: intros g0 E; try discriminate E.
  all: injection E as <-; cbn; unfold groqCheck; intuition.
Qed.

(** ** The theorems at work on the sample worlds *)

(** C1 in the world where [flutter pub get] fails. *)
Lemma install_or_build_failure_caps_score_witness :
  Fetched Sample.installFailure Sample.repoUrl Sample.repoPath
  /\ succeeded (runFlutterPubGet Sample.installFailure Sample.repoPath) = false
  /\ exists r,
       outcome (evaluate Sample.installFailure Sample.repoUrl) = inr r
       /\ totalScore r = Int 5
       /\ in_range 0 5 (totalScore r)
       /\ (forall c, In c (checks r) ->
             name c <> "Flutter Test" /\ name c <> "Groq Code Evaluation")
       /\ groqEvaluation (details r) = None
       /\ trace (evaluate Sample.installFailure Sample.repoUrl)
          = (trace (cloneRepository Sample.installFailure Sample.repoUrl)
             ++ trace (checkRequiredFiles Sample.installFailure Sample.repoPath)
             ++ trace (runFlutterPubGet Sample.installFailure Sample.repoPath)
             ++ (if succeeded
                      (runFlutterPubGet Sample.installFailure Sample.repoPath)
                 then trace (checkBuild Sample.installFailure Sample.repoPath)
                 else [])
             ++ [Remove Sample.repoPath])%list
       /\ Forall (fun e => laterStageCall e = false)
            (trace (evaluate Sample.installFailure Sample.repoUrl)).
Proof.
  assert (F : Fetched Sample.installFailure Sample.repoUrl Sample.repoPath)
    by (repeat split; vm_compute; reflexivity).
  assert (I : succeeded
                (runFlutterPubGet Sample.installFailure Sample.repoPath)
              = false) by (vm_compute; reflexivity).
  split; [exact F|]. split; [exact I|].
  exact (install_or_build_failure_caps_score
           Sample.installFailure Sample.repoUrl Sample.repoPath F
           (or_introl I)).
Defined.

(** C2 in the world where the model grades the code 12 out of 15. *)
Lemma scores_within_bounds_witness :
  exists r,
    outcome (evaluate Sample.graded Sample.repoUrl) = inr r
    /\ totalScore r = Int 17
    /\ in_range 0 20 (totalScore r)
    /\ forall g, groqEvaluation (details r) = Some g ->
         in_range 0 (20 - testPoints r) (Groq.score g).
Proof.
  eexists. split; [vm_compute; reflexivity|]. split; [reflexivity|].
  apply (scores_within_bounds Sample.graded Sample.repoUrl).
  vm_compute. reflexivity.
Defined.

(** C4 in the world with no credential. *)
Lemma missing_credential_escalates_witness :
  let files := [{| path := "main.dart"; content := "void main() {}" |}] in
  credentialAbsent Sample.noCredential
  /\ (forall max,
        evaluateWithGroq Sample.noCredential files max
        = (inl credentialMissing, [ConfigGet "GROQ_API_KEY"]))
  /\ outcome (evaluate Sample.noCredential Sample.repoUrl)
     = inl (InternalServerErrorException
              "Groq API key not configured. Please set GROQ_API_KEY environment variable.")
  /\ trace (evaluate Sample.noCredential Sample.repoUrl)
     = (gatingCalls Sample.noCredential Sample.repoUrl Sample.repoPath
        ++ trace (runFlutterTest Sample.noCredential Sample.repoPath)
        ++ trace (collectLibFiles Sample.noCredential Sample.repoPath)
        ++ [ConfigGet "GROQ_API_KEY"; Remove Sample.repoPath])%list
  /\ ~ In (HttpPost groqApiUrl)
         (trace (evaluate Sample.noCredential Sample.repoUrl)).
Proof.
  intros files.
  split; [reflexivity|].
  refine (missing_credential_escalates
            Sample.noCredential Sample.repoUrl Sample.repoPath files _ _ _ _).
  - repeat split; vm_compute; reflexivity.
  - vm_compute. reflexivity.
  - discriminate.
  - reflexivity.
Defined.

(** C5 at the locator [https://example.org/x/y]. *)
Lemma rejected_locator_has_no_effect_witness :
  url_hostname Sample.graded "https://example.org/x/y" = Some "example.org"
  /\ evaluate Sample.graded "https://example.org/x/y"
     = (inl (BadRequestException "Invalid GitHub repository URL"), []).
Proof.
  split; [reflexivity|].
  apply rejected_locator_has_no_effect.
  right. exists "example.org".
  split; [reflexivity|]. split; discriminate.
Defined.

(** C6 as amended, in the world where the tests fail and the collection
    holds one file: the evaluator runs with the budget 20 and the total
    score is the 12 points it gives. *)
Lemma test_failure_is_not_gating_witness :
  let files := [{| path := "main.dart"; content := "void main() {}" |}] in
  GatesPass Sample.failingTests Sample.repoUrl Sample.repoPath
  /\ succeeded (runFlutterTest Sample.failingTests Sample.repoPath) = false
  /\ outcome (collectLibFiles Sample.failingTests Sample.repoPath) = inr files
  /\ trace (evaluate Sample.failingTests Sample.repoUrl)
     = (gatingCalls Sample.failingTests Sample.repoUrl Sample.repoPath
        ++ trace (runFlutterTest Sample.failingTests Sample.repoPath)
        ++ trace (collectLibFiles Sample.failingTests Sample.repoPath)
        ++ trace (evaluateWithGroq Sample.failingTests files (Int 20))
        ++ [Remove Sample.repoPath])%list
  /\ (files = []
      \/ returns (evaluateWithGroq Sample.failingTests files (Int 20)) ->
      exists r, outcome (evaluate Sample.failingTests Sample.repoUrl) = inr r)
  /\ forall r,
       outcome (evaluate Sample.failingTests Sample.repoUrl) = inr r ->
       testsPassed (details r) = false
       /\ (exists c,
             nth_error (checks r) 4 = Some c
             /\ name c = "Flutter Test" /\ passed c = false
             /\ score c = Int 0)
       /\ totalScore r
          = match groqEvaluation (details r) with
            | Some g => Groq.score g
            | None => Int 0
            end
       /\ (files <> [] ->
           exists g,
             outcome (evaluateWithGroq Sample.failingTests files (Int 20))
             = inr g
             /\ groqEvaluation (details r) = Some g).
Proof.
  intros files.
  assert (G : GatesPass Sample.failingTests Sample.repoUrl Sample.repoPath)
    by (repeat split; vm_compute; reflexivity).
  assert (T : succeeded (runFlutterTest Sample.failingTests Sample.repoPath)
              = false) by (vm_compute; reflexivity).
  assert (L : outcome (collectLibFiles Sample.failingTests Sample.repoPath)
              = inr files) by (vm_compute; reflexivity).
  split; [exact G|]. split; [exact T|]. split; [exact L|].
  exact (test_failure_is_not_gating
           Sample.failingTests Sample.repoUrl Sample.repoPath files G T L).
Defined.

(** C7 as amended, in the world where the source subtree is gone. *)
Lemma empty_collection_ends_the_run_witness :
  GatesPass Sample.noSources Sample.repoUrl Sample.repoPath
  /\ outcome (collectLibFiles Sample.noSources Sample.repoPath) = inr []
  /\ exists r,
       outcome (evaluate Sample.noSources Sample.repoUrl) = inr r
       /\ totalScore r
          = (if succeeded (runFlutterTest Sample.noSources Sample.repoPath)
             then Int 5 else Int 0)
       /\ List.length (checks r) = 5%nat
       /\ (forall c, In c (checks r) -> name c <> "Groq Code Evaluation")
       /\ groqEvaluation (details r) = None
       /\ feedback r
          = Some (if succeeded
                       (runFlutterTest Sample.noSources Sample.repoPath)
                  then "Evaluation completed. Score: 5/20"
                  else "Evaluation completed. Score: 0/20")
       /\ trace (evaluate Sample.noSources Sample.repoUrl)
          = (gatingCalls Sample.noSources Sample.repoUrl Sample.repoPath
             ++ trace (runFlutterTest Sample.noSources Sample.repoPath)
             ++ trace (collectLibFiles Sample.noSources Sample.repoPath)
             ++ [Remove Sample.repoPath])%list.
Proof.
  assert (G : GatesPass Sample.noSources Sample.repoUrl Sample.repoPath)
    by (repeat split; vm_compute; reflexivity).
  assert (L : outcome (collectLibFiles Sample.noSources Sample.repoPath)
              = inr []) by (vm_compute; reflexivity).
  split; [exact G|]. split; [exact L|].
  exact (empty_collection_ends_the_run
           Sample.noSources Sample.repoUrl Sample.repoPath G L).
Defined.

(** C10 in the world where the API is unreachable: the check of the
    quality evaluation is there, passed, with score 0. *)
Lemma groq_check_always_passed_witness :
  exists r,
    outcome (evaluate Sample.networkDown Sample.repoUrl) = inr r
    /\ In (groqCheck (Int 0)) (checks r)
    /\ (forall c, In c (checks r) -> name c = "Groq Code Evaluation" ->
          passed c = true /\ message c = Some "Code evaluated by Groq")
    /\ (In (ConfigGet "GROQ_API_KEY")
           (trace (evaluate Sample.networkDown Sample.repoUrl)) <->
        groqEvaluation (details r) <> None)
    /\ (forall g, groqEvaluation (details r) = Some g ->
          In (groqCheck (Groq.score g)) (checks r))
    /\ (groqEvaluation (details r) = None ->
        forall c, In c (checks r) -> name c <> "Groq Code Evaluation").
Proof.
  eexists. split; [vm_compute; reflexivity|].
  split; [cbn; tauto|].
  apply (groq_check_always_passed Sample.networkDown Sample.repoUrl).
  vm_compute. reflexivity.
Defined.

(** * More of the service *)

#[local] Transparent cloneRepository checkRequiredFiles runFlutterPubGet
  checkBuild runFlutterTest collectLibFiles evaluateWithGroq.


(** ** Structural validator, build stage and test stage *)

(** What [checkRequiredFiles] returns, by which of the two files exist. *)
Lemma checkRequiredFiles_spec (w : World) (repoPath : string) :
  checkRequiredFiles w repoPath
  = (inr {| Files.valid :=
              path_exists w (pubspecOf repoPath)
              && path_exists w (mainDartOf repoPath);
            Files.message :=
              match path_exists w (pubspecOf repoPath),
                    path_exists w (mainDartOf repoPath) with
              | false, false =>
                  Some "pubspec.yaml and lib/main.dart are missing"
              | false, true => Some "pubspec.yaml is missing"
              | true, false => Some "lib/main.dart is missing"
              | true, true => None
              end |},
     [PathExists (pubspecOf repoPath); PathExists (mainDartOf repoPath)]).
Proof.
  unfold checkRequiredFiles, pathExists, call, pubspecOf, mainDartOf. cbn.
  destruct (path_exists w (path_join repoPath "pubspec.yaml"));
    destruct (path_exists w (path_join (path_join repoPath "lib") "main.dart"));
    reflexivity.
Qed.

(** X1: the build stage.  When [flutter analyze] exits with status 0 the
    stage makes that one call, and fails exactly when the output has an
    error marker and no info marker at all; the full build is then not
    tried.  When [flutter analyze] is rejected, [flutter build] runs next
    and alone decides: the stage succeeds exactly when the build exits with
    status 0, whatever the analysis wrote. *)
Theorem build_stage_outcome (w : World) (repoPath : string) :
  exists r,
    outcome (checkBuild w repoPath) = inr r
    /\ match exec_result w "flutter analyze" repoPath with
       | Exited stdout stderr =>
           trace (checkBuild w repoPath) = [Exec "flutter analyze" repoPath]
           /\ (Stage.success r = false <->
               (includes stderr "error" = true
                \/ includes stdout "error •" = true)
               /\ includes stderr "info" = false
               /\ includes stdout "info •" = false)
       | Failed _ _ _ =>
           trace (checkBuild w repoPath)
           = [Exec "flutter analyze" repoPath; Exec "flutter build" repoPath]
           /\ (Stage.success r = true <->
               exists stdout stderr,
                 exec_result w "flutter build" repoPath = Exited stdout stderr)
       end.
Proof.
  unfold outcome, trace, checkBuild, execAsync, call. cbn -[includes].
  destruct (exec_result w "flutter analyze" repoPath)
    as [stdout stderr|m stdout stderr]; cbn -[includes].
  - destruct (includes stderr "error") eqn:E1;
      destruct (includes stdout "error •") eqn:E2;
      destruct (includes stderr "info") eqn:I1;
      destruct (includes stdout "info •") eqn:I2;
      cbn -[includes]; eexists; (split; [reflexivity|]);
      (split; [reflexivity|]); cbn; intuition congruence.
  - destruct (exec_result w "flutter build" repoPath)
      as [stdout' stderr'|m' stdout' stderr']; cbn;
      eexists; (split; [reflexivity|]); (split; [reflexivity|]); cbn.
    + split; [eauto | reflexivity].
    + split; [discriminate | intros (a & b & H); discriminate H].
Qed.

(** X2: the test stage makes the one call [flutter test] and never throws.
    It succeeds exactly when the command exits with status 0 and its stdout
    has [All tests passed!], or has a [+] and not [Some tests failed]; a
    rejected command never passes, and its message is [No tests found] when
    the error says so. *)
Theorem test_stage_outcome (w : World) (repoPath : string) :
  exists r,
    runFlutterTest w repoPath = (inr r, [Exec "flutter test" repoPath])
    /\ (Stage.success r = true <->
        exists stdout stderr,
          exec_result w "flutter test" repoPath = Exited stdout stderr
          /\ (includes stdout "All tests passed!" = true
              \/ (includes stdout "+" = true
                  /\ includes stdout "Some tests failed" = false)))
    /\ (forall m stdout stderr,
          exec_result w "flutter test" repoPath = Failed m stdout stderr ->
          includes m "No tests found" = true
          \/ includes m "No test file" = true ->
          Stage.message r = Some "No tests found").
Proof.
  unfold runFlutterTest, execAsync, call. cbn -[includes].
  destruct (exec_result w "flutter test" repoPath)
    as [stdout stderr|m stdout stderr]; cbn -[includes].
  - assert (B : includes stdout "All tests passed!"
                || includes stdout "+"
                   && negb (includes stdout "Some tests failed") = true
                <-> includes stdout "All tests passed!" = true
                    \/ (includes stdout "+" = true
                        /\ includes stdout "Some tests failed" = false)).
    { rewrite orb_true_iff, andb_true_iff, negb_true_iff. tauto. }
    destruct (includes stdout "All tests passed!"
              || includes stdout "+"
                 && negb (includes stdout "Some tests failed")).
    + eexists. split; [reflexivity|]. split.
      * cbn. split; [|reflexivity]. intros _. exists stdout, stderr.
        split; [reflexivity | apply B; reflexivity].
      * intros ? ? ? H. discriminate H.
    + eexists. split; [reflexivity|]. split.
      * cbn. split; [discriminate|].
        intros (a & b & H & Hm). injection H as <- <-.
        apply B in Hm. discriminate Hm.
      * intros ? ? ? H. discriminate H.
  - destruct (includes m "No tests found" || includes m "No test file")
      eqn:N; cbn -[includes]; eexists; (split; [reflexivity|]);
      cbn -[includes].
    + split; [split; [discriminate | intros (a & b & H & _); discriminate H]|].
      reflexivity.
    + split; [split; [discriminate | intros (a & b & H & _); discriminate H]|].
      intros m0 o e H Hn. injection H as <- _ _.
      apply orb_false_iff in N. destruct N, Hn; congruence.
Qed.

(** ** Repository fetcher *)

Lemma splitAtSlash_cons (c : ascii) (s : string) :
  splitAtSlash (String c s)
  = if Ascii.eqb c "/" then ("", Some s)
    else let '(a, b) := splitAtSlash s in (String c a, b).
Proof.
  destruct c as [[] [] [] [] [] [] [] []]; reflexivity.
Qed.

Lemma includes_slash_cons (c : ascii) (s : string) :
  includes (String c s) "/" = Ascii.eqb c "/" || includes s "/".
Proof.
  cbn [includes]. f_equal.
  destruct c as [[] [] [] [] [] [] [] []]; destruct s; reflexivity.
Qed.

Lemma includes_slash_app (a b : string) :
  includes (a ++ b) "/" = includes a "/" || includes b "/".
Proof.
  induction a as [|c a IH].
  - destruct b; reflexivity.
  - cbn [append]. rewrite !includes_slash_cons, IH. apply orb_assoc.
Qed.

(** Neither side of a split holds the slash it was split at: the head has
    none, and without a tail the whole string has none. *)
Lemma splitAtSlash_head (s : string) :
  includes (fst (splitAtSlash s)) "/" = false.
Proof.
  induction s as [|c s IH]; [reflexivity|].
  rewrite splitAtSlash_cons. destruct (Ascii.eqb c "/") eqn:E; [reflexivity|].
  destruct (splitAtSlash s) as [a b]. cbn [fst] in *.
  rewrite includes_slash_cons, E, IH. reflexivity.
Qed.

Lemma splitAtSlash_no_slash (s : string) :
  includes s "/" = false -> splitAtSlash s = (s, None).
Proof.
  induction s as [|c s IH]; [reflexivity|].
  rewrite includes_slash_cons, splitAtSlash_cons.
  intros H. apply orb_false_iff in H. destruct H as [E H].
  rewrite E, (IH H). reflexivity.
Qed.

Lemma splitAtSlash_at_slash (a b : string) :
  includes a "/" = false -> splitAtSlash (a ++ String "/" b) = (a, Some b).
Proof.
  induction a as [|c a IH]; [reflexivity|].
  rewrite includes_slash_cons. intros H.
  apply orb_false_iff in H. destruct H as [E H].
  cbn [append]. rewrite splitAtSlash_cons, E, (IH H). reflexivity.
Qed.

Lemma repoNameAt_no_slash (s owner name : string) :
  repoNameAt s = Some (owner, name) ->
  includes owner "/" = false /\ includes name "/" = false
  /\ owner <> "" /\ name <> "".
Proof.
  unfold repoNameAt.
  destruct (stripPrefix "github.com" s) as [[|c rest]|]; try discriminate.
  destruct (Ascii.eqb c "/" || Ascii.eqb c ":"); [|discriminate].
  pose proof (splitAtSlash_head rest) as H1.
  destruct (splitAtSlash rest) as [[|a o] [tail|]]; try discriminate.
  pose proof (splitAtSlash_head tail) as H2.
  destruct (splitAtSlash tail) as [[|b n] [tail'|]]; try discriminate.
  intros [= <- <-]. cbn [fst] in *. repeat split; try assumption; discriminate.
Qed.

Lemma matchRepoName_somewhere (s owner name : string) :
  matchRepoName s = Some (owner, name) ->
  exists s', repoNameAt s' = Some (owner, name).
Proof.
  induction s as [|c s IH]; cbn [matchRepoName].
  - destruct (repoNameAt "") eqn:E; [intros [= ->]; eauto | discriminate].
  - destruct (repoNameAt (String c s)) eqn:E; [intros [= ->]; eauto | exact IH].
Qed.

Lemma extractRepoName_no_slash (url : string) :
  includes (extractRepoName url) "/" = false.
Proof.
  unfold extractRepoName.
  destruct (matchRepoName url) as [[owner name]|] eqn:E; [|reflexivity].
  apply matchRepoName_somewhere in E. destruct E as [s' E].
  apply repoNameAt_no_slash in E. destruct E as (Ho & Hn & _).
  rewrite !includes_slash_app, Ho, Hn. reflexivity.
Qed.

(** X3: the name that [extractRepoName] derives from a locator is never
    empty and holds no slash, whatever the locator: it is one path
    segment. *)
Theorem repo_name_is_one_segment (url : string) :
  includes (extractRepoName url) "/" = false /\ extractRepoName url <> "".
Proof.
  split; [apply extractRepoName_no_slash|].
  unfold extractRepoName.
  destruct (matchRepoName url) as [[owner name]|] eqn:E; [|discriminate].
  apply matchRepoName_somewhere in E. destruct E as [s' E].
  apply repoNameAt_no_slash in E. destruct E as (_ & _ & Ho' & _).
  destruct owner; [congruence | discriminate].
Qed.

(** X4: for a locator of the usual shape, [https://github.com/] followed
    by an owner and a name that are not empty and hold no slash, the name
    derived is the owner and the name joined by a hyphen (a [.git] ending
    stays in it). *)
Theorem repo_name_of_github_locator (owner name : string) :
  owner <> "" -> name <> "" ->
  includes owner "/" = false -> includes name "/" = false ->
  extractRepoName ("https://github.com/" ++ owner ++ "/" ++ name)
  = owner ++ "-" ++ name.
Proof.
  intros Ho Hn So Sn.
  unfold extractRepoName.
  assert (H : repoNameAt ("github.com/" ++ owner ++ "/" ++ name)
              = Some (owner, name)).
  { unfold repoNameAt. cbn [append stripPrefix Ascii.eqb Bool.eqb].
    cbn [orb].
    change (owner ++ "/" ++ name) with (owner ++ String "/" name).
    rewrite (splitAtSlash_at_slash owner name So).
    rewrite (splitAtSlash_no_slash name Sn).
    destruct owner; [congruence|]. destruct name; [congruence|]. reflexivity. }
  cbn [append matchRepoName]. cbn [append] in H.
  repeat match goal with
         | |- context [repoNameAt (String ?c ?s)] =>
             lazymatch c with
             | "g"%char => fail
             | _ => change (repoNameAt (String c s)) with
                      (@None (string * string))
             end
         end.
  cbn [matchRepoName]. rewrite H. reflexivity.
Qed.

Lemma string_of_uint_no_slash (d : Decimal.uint) :
  includes (NilEmpty.string_of_uint d) "/" = false.
Proof.
  induction d; cbn [NilEmpty.string_of_uint];
    rewrite ?includes_slash_cons, ?IHd; reflexivity.
Qed.

Lemma number_toString_no_slash (n : number) :
  includes (number_toString n) "/" = false.
Proof.
  destruct n as [|[|]|z]; try reflexivity.
  unfold number_toString, NilZero.string_of_int.
  destruct (Z.to_int z) as [d|d]; unfold NilZero.string_of_uint.
  - destruct d; try reflexivity; apply string_of_uint_no_slash.
  - rewrite includes_slash_cons.
    destruct d; try reflexivity; apply string_of_uint_no_slash.
Qed.

(** X5: [cloneRepository] never throws.  It returns a workspace exactly
    when git succeeds, after removing a directory that was in the way if
    there was one; the workspace is then a direct child of the temporary
    directory (one segment, no slash), and the clone into it is the last
    call made.  When the removal of a stale directory fails, git is not
    called. *)
Theorem clone_gives_child_of_temp_dir (w : World) (repoUrl : string) :
  let repoPath := workspaceOf w repoUrl in
  (exists segment,
     repoPath = temp_dir w ++ "/" ++ segment
     /\ includes segment "/" = false)
  /\ (outcome (cloneRepository w repoUrl) = inr (Some repoPath)
      \/ outcome (cloneRepository w repoUrl) = inr None)
  /\ (outcome (cloneRepository w repoUrl) = inr (Some repoPath) <->
      clone_error w repoUrl repoPath = None
      /\ (path_exists w repoPath = true -> remove_error w repoPath = None))
  /\ trace (cloneRepository w repoUrl)
     = (PathExists repoPath
        :: (if path_exists w repoPath then [Remove repoPath] else [])
        ++ (if path_exists w repoPath
            then match remove_error w repoPath with
                 | None => [GitClone repoUrl repoPath]
                 | Some _ => []
                 end
            else [GitClone repoUrl repoPath]))%list.
Proof.
  intros repoPath. split.
  { exists (extractRepoName repoUrl ++ "-"
            ++ number_toString (Int (date_now w))).
    split; [reflexivity|].
    rewrite !includes_slash_app, number_toString_no_slash.
    rewrite (extractRepoName_no_slash repoUrl). reflexivity. }
  unfold outcome, trace, cloneRepository, pathExists, remove, gitClone, call.
  fold (workspaceOf w repoUrl). fold repoPath. cbn.
  destruct (path_exists w repoPath); cbn;
    [destruct (remove_error w repoPath); cbn|];
    destruct (clone_error w repoUrl repoPath); cbn;
    repeat split; auto; try discriminate; try tauto;
    try solve [intros [H1 H2]; try discriminate H1;
               specialize (H2 eq_refl); discriminate H2].
Qed.

(** ** File collector *)

Lemma endsWith_app (a s suffix : string) :
  endsWith s suffix = true -> endsWith (a ++ s) suffix = true.
Proof.
  intros H. induction a as [|c a IH]; [exact H|].
  cbn [append endsWith]. rewrite IH. apply orb_true_r.
Qed.

Lemma path_relative_extension (rel entry : string) :
  endsWith entry ".dart" = true ->
  endsWith (path_relative rel entry) ".dart" = true.
Proof.
  intros H. unfold path_relative. destruct rel; [exact H|].
  apply (endsWith_app (String a rel) ("/" ++ entry)).
  apply (endsWith_app "/" entry), H.
Qed.

Lemma collectFilesRecursively_keeps :
  forall (node : Dirent) (dir rel : string) (files : list CollectedFile),
    walkKeeps files (collectFilesRecursively dir rel node files).
Proof.
  assert (Hnil : forall files t,
            walkKeeps files ((files, true), t)
            /\ walkKeeps files ((files, false), t)).
  { intros files t. split; exists []; cbn; rewrite app_nil_r;
      repeat split; try constructor; lia. }
  fix IH 1.
  intros [name content|name [entries|]|name] dir rel files.
  - apply Hnil.
  - cbn [collectFilesRecursively].
    match goal with
    | |- context [(fix each (entries : list Dirent)
                     (files : list CollectedFile) {struct entries} := _)
                    entries files] =>
        set (each := fix each (entries : list Dirent)
                       (files : list CollectedFile) {struct entries}
                       : list CollectedFile * bool * list event := _)
    end.
    enough (Heach : walkKeeps files (each entries files)).
    { destruct (each entries files) as [[fs ok] t].
      destruct Heach as (added & H1 & H2 & H3). exists added.
      cbn [fst snd filter isReadFile] in *. auto. }
    revert files.
    induction entries as [|entry es IHes]; intros fs.
    + apply Hnil.
    + pose proof (IH entry) as Hentry.
      cbn [each]. fold each.
      destruct entry as [n c|n sub|n].
      * destruct (endsWith n ".dart") eqn:Hext; [|apply IHes].
        destruct c as [text|].
        -- specialize (IHes (push fs {| path := path_relative rel n;
                                        content := text |})).
           destruct (each es _) as [[fs' ok] t'].
           destruct IHes as (added & H1 & H2 & H3).
           exists ({| path := path_relative rel n; content := text |}
                   :: added).
           cbn [fst snd filter isReadFile List.length] in *.
           unfold push in H1. rewrite <- app_assoc in H1.
           repeat split; [exact H1 | | lia].
           constructor; [|exact H2].
           apply path_relative_extension, Hext.
        -- specialize (IHes fs).
           destruct (each es fs) as [[fs' ok] t'].
           destruct IHes as (added & H1 & H2 & H3). exists added.
           cbn [fst snd filter isReadFile List.length] in *.
           repeat split; [exact H1 | exact H2 | lia].
      * specialize (Hentry (path_join dir n) (path_relative rel n) fs).
        destruct (collectFilesRecursively (path_join dir n)
                    (path_relative rel n) (Directory n sub) fs)
          as [[fs' returned] t].
        destruct Hentry as (added & H1 & H2 & H3).
        cbn [fst snd] in H1, H3. destruct returned.
        -- specialize (IHes fs'). destruct (each es fs') as [[fs'' ok] t'].
           destruct IHes as (added' & H1' & H2' & H3').
           cbn [fst snd] in *. exists (added ++ added')%list.
           cbn [fst snd]. rewrite filter_app, !length_app.
           repeat split.
           ++ rewrite H1', H1, app_assoc. reflexivity.
           ++ apply Forall_app. split; assumption.
           ++ lia.
        -- exists added. cbn [fst snd]. auto.
      * apply IHes.
  - apply Hnil.
  - apply Hnil.
Qed.

(** X6: whatever the collector returns, every file in it has a path that
    ends in [.dart], and there are at most as many files as the collector
    read: a file is collected only by reading it. *)
Theorem collected_files_are_dart_files
  (w : World) (repoPath : string) (files : list CollectedFile) :
  outcome (collectLibFiles w repoPath) = inr files ->
  Forall isDartFile files
  /\ (List.length files
      <= List.length (filter isReadFile (trace (collectLibFiles w repoPath))))%nat.
Proof.
  unfold outcome, trace, collectLibFiles, pathExists, call.
  cbn -[collectFilesRecursively].
  destruct (path_exists w (path_join repoPath "lib")); cbn [negb].
  - pose proof (collectFilesRecursively_keeps
                  (Directory "lib" (readdir_result w (path_join repoPath "lib")))
                  (path_join repoPath "lib") "" []) as (added & H1 & H2 & H3).
    destruct (collectFilesRecursively _ _ _ _) as [[fs returned] t].
    cbn [fst snd app filter isReadFile] in *.
    intros H. apply inr_inj in H. subst. auto.
  - cbn. intros H. apply inr_inj in H. subst. split; [constructor | cbn; lia].
Qed.

(** ** Code fences *)

Lemma removeAll_absent (pat s : string) :
  includes s pat = false -> removeAll pat 0 s = s.
Proof.
  induction s as [|c s IH]; [reflexivity|].
  cbn [includes removeAll]. intros H.
  apply orb_false_iff in H. destruct H as [Hp Hs].
  rewrite Hp, (IH Hs). reflexivity.
Qed.

(** A text with no run of three backticks gets none when a line feed and
    more follow it. *)
Lemma prefix_fence_before_newline (x t : string) :
  prefix fence x = false ->
  prefix fence (x ++ String LF t) = false
  /\ prefix fenceJson (x ++ String LF t) = false.
Proof.
  unfold fence, fenceJson.
  destruct x as [|c1 [|c2 [|c3 x]]]; cbn [append prefix];
    repeat match goal with
           | |- context [ascii_dec ?a ?b] => destruct (ascii_dec a b)
           end;
    try discriminate; auto;
    try match goal with
        | e : _ = LF |- _ => discriminate e
        end.
  all: destruct x; discriminate.
Qed.

Lemma prefix_fence_json (x : string) :
  prefix fence x = false -> prefix fenceJson x = false.
Proof.
  unfold fence, fenceJson.
  destruct x as [|c1 [|c2 [|c3 x]]]; cbn [prefix];
    repeat match goal with
           | |- context [ascii_dec ?a ?b] => destruct (ascii_dec a b)
           end;
    try discriminate; auto.
  destruct x; discriminate.
Qed.

Lemma includes_fence_before_newline (body t : string) :
  includes body fence = false ->
  includes (String LF t) fenceJson = false ->
  includes (body ++ String LF t) fenceJson = false.
Proof.
  intros H Ht. induction body as [|c body IH]; [exact Ht|].
  cbn [includes] in H. apply orb_false_iff in H. destruct H as [Hp Hs].
  destruct (prefix_fence_before_newline (String c body) t Hp) as [_ P2].
  cbn [append] in *. cbn [includes]. rewrite P2, (IH Hs). reflexivity.
Qed.

Lemma removeAll_fence_closing (body : string) :
  includes body fence = false ->
  removeAll fence 0 (body ++ String LF fence) = body ++ newline.
Proof.
  intros H. induction body as [|c body IH]; [reflexivity|].
  cbn [includes] in H. apply orb_false_iff in H. destruct H as [Hp Hs].
  destruct (prefix_fence_before_newline (String c body) fence Hp) as [P1 _].
  cbn [append] in *. cbn [removeAll]. rewrite P1, (IH Hs). reflexivity.
Qed.

Lemma allWhiteSpace_newline (s : string) :
  allWhiteSpace (s ++ newline) = allWhiteSpace s.
Proof.
  induction s as [|c s IH]; [reflexivity|].
  cbn [append allWhiteSpace]. rewrite IH. reflexivity.
Qed.

Lemma trimEnd_newline (s : string) : trimEnd (s ++ newline) = trimEnd s.
Proof.
  induction s as [|c s IH]; [reflexivity|].
  change (String c s ++ newline) with (String c (s ++ newline)).
  cbn [trimEnd allWhiteSpace]. rewrite allWhiteSpace_newline, IH. reflexivity.
Qed.

Lemma trim_newline (s : string) : trim (s ++ newline) = trim s.
Proof.
  unfold trim. induction s as [|c s IH]; [reflexivity|].
  cbn [append trimStart]. destruct (isWhiteSpace c); [exact IH|].
  apply (trimEnd_newline (String c s)).
Qed.

Lemma substring_0_0 (s : string) : substring 0 0 s = "".
Proof. destruct s; reflexivity. Qed.

Lemma removeAll_fenceJson_open (rest : string) :
  removeAll fenceJson 0 ("```json" ++ String LF rest)
  = removeAll fenceJson 0 rest.
Proof. cbn. rewrite substring_0_0. reflexivity. Qed.

Lemma removeAll_fence_open (rest : string) :
  removeAll fence 0 ("```" ++ String LF rest) = removeAll fence 0 rest.
Proof. cbn. rewrite substring_0_0. reflexivity. Qed.

Lemma removeAll_fenceJson_plain (rest : string) :
  removeAll fenceJson 0 ("```" ++ String LF rest)
  = "```" ++ String LF (removeAll fenceJson 0 rest).
Proof. reflexivity. Qed.

(** X7: a text that holds no run of three backticks is only trimmed; and
    such a text wrapped in a code fence, with or without the tag [json],
    each fence on a line of its own, is recovered: the fences and their
    line feeds go, and the rest is trimmed. *)
Theorem code_fence_is_unwrapped (body : string) :
  includes body "```" = false ->
  stripCodeFences body = trim body
  /\ stripCodeFences ("```json" ++ newline ++ body ++ newline ++ "```")
     = trim body
  /\ stripCodeFences ("```" ++ newline ++ body ++ newline ++ "```")
     = trim body.
Proof.
  intros H. fold fence in H.
  assert (Hj : includes body fenceJson = false).
  { clear -H. induction body as [|c body IH]; [reflexivity|].
    cbn [includes] in *. apply orb_false_iff in H. destruct H as [Hp Hs].
    rewrite (IH Hs), orb_false_r. exact (prefix_fence_json _ Hp). }
  pose proof (includes_fence_before_newline body fence H eq_refl) as Hcj.
  unfold stripCodeFences. repeat split.
  - rewrite (removeAll_absent fenceJson body Hj).
    rewrite (removeAll_absent fence body H). reflexivity.
  - change ("```json" ++ newline ++ body ++ newline ++ "```")
      with ("```json" ++ String LF (body ++ String LF fence)).
    rewrite removeAll_fenceJson_open.
    rewrite (removeAll_absent fenceJson _ Hcj).
    rewrite (removeAll_fence_closing body H). apply trim_newline.
  - change ("```" ++ newline ++ body ++ newline ++ "```")
      with ("```" ++ String LF (body ++ String LF fence)).
    rewrite removeAll_fenceJson_plain.
    rewrite (removeAll_absent fenceJson _ Hcj).
    rewrite removeAll_fence_open.
    rewrite (removeAll_fence_closing body H). apply trim_newline.
Qed.

(** ** The evaluator *)

Lemma truthy_string_nonempty (s : string) :
  truthy_string s = true -> s <> "".
Proof. destruct s; [discriminate | discriminate]. Qed.

Lemma or_string_nonempty (a : option string) (b : string) :
  b <> "" -> or_string a b <> "".
Proof.
  intros Hb. unfold or_string. destruct a as [s|]; [|exact Hb].
  destruct (truthy_string s) eqn:E; [|exact Hb].
  apply truthy_string_nonempty, E.
Qed.

Lemma inl_inj {A B : Type} (x y : A) : @inl A B x = inl y -> x = y.
Proof. congruence. Qed.

Section EvaluatorSummary.

Variable w : World.

Lemma substringOf_nonempty (v : jsval) (n : nat) (s : string) :
  truthy v = true -> substringOf w v (S n) = inr s -> s <> "".
Proof.
  destruct v as [[| | |text| |]|]; try discriminate.
  intros T [= <-]. destruct text; [discriminate T | discriminate].
Qed.

Lemma or_value_truthy (a b : jsval) :
  truthy b = true -> truthy (or_value a b) = true.
Proof.
  intros Hb. unfold or_value. destruct (truthy a) eqn:E; assumption.
Qed.

Lemma evaluationOfParsed_summary (parsed : json) (max : number)
  (g : Groq.Evaluation) :
  evaluationOfParsed w parsed max = inr g -> Groq.summary g <> "".
Proof.
  unfold evaluationOfParsed. intros H. unfold_pure in H. invert_pure H.
  apply inr_inj in H; subst. cbn [Groq.summary].
  match goal with
  | E : substringOf _ _ 300 = inr _ |- _ =>
      refine (substringOf_nonempty _ _ _ _ E)
  end.
  apply or_value_truthy. reflexivity.
Qed.

Lemma evaluationOfText_summary (result : json) (max : number)
  (g : Groq.Evaluation) :
  evaluationOfText w result max = inr g -> Groq.summary g <> "".
Proof.
  unfold evaluationOfText. intros H. unfold_pure in H. invert_pure H.
  destruct result as [| | |text| |]; try discriminate H.
  apply inr_inj in H; subst. cbn [Groq.summary].
  apply or_string_nonempty. discriminate.
Qed.

Lemma evaluationOfResponse_summary (data : jsval) (max : number)
  (g : Groq.Evaluation) :
  evaluationOfResponse w data max = inr g -> Groq.summary g <> "".
Proof.
  unfold evaluationOfResponse. intros H. unfold_pure in H.
  destruct (responseContent w data) as [e|[content|]]; try discriminate H.
  destruct (negb (truthy (Some content))); [discriminate H|].
  destruct (parseResult w content).
  - exact (evaluationOfText_summary _ _ _ H).
  - exact (evaluationOfParsed_summary _ _ _ H).
Qed.

Lemma failedEvaluation_summary (e : exn) (g : Groq.Evaluation) :
  failedEvaluation w e = inr g -> Groq.summary g <> "".
Proof.
  intros H.
  destruct (failedEvaluation_cases w e) as [[text E]|E]; rewrite E in H;
    [|discriminate H].
  apply inr_inj in H. subst g. discriminate.
Qed.

(** The summary of an evaluation that the evaluator returns is never
    empty. *)
Lemma evaluateWithGroq_summary (files : list CollectedFile) (max : number)
  (g : Groq.Evaluation) :
  outcome (evaluateWithGroq w files max) = inr g -> Groq.summary g <> "".
Proof.
  unfold outcome.
  destruct (truthy_undefined (config w "GROQ_API_KEY")) eqn:K.
  - rewrite (evaluateWithGroq_present _ _ _ K). cbn [fst].
    destruct (post_result w groqApiUrl _ _) as [data|em rm].
    + destruct (evaluationOfResponse w data max) as [e|g'] eqn:E.
      * apply failedEvaluation_summary.
      * intros H. apply inr_inj in H. subst g'.
        exact (evaluationOfResponse_summary _ _ _ E).
    + apply failedEvaluation_summary.
  - rewrite (evaluateWithGroq_absent _ _ _ K). discriminate.
Qed.

(** What the body of the outer [try] throws is an [Error] of the engine or
    of the service: it carries no answer of a server. *)

Lemma engineError_throws {A : Type} (kind : EngineError) (e : exn) :
  @engineError w A kind = inl e -> responseData_of e = undefined.
Proof. unfold engineError. cbn. intros [= <-]. reflexivity. Qed.

Lemma getProp_throws (v : jsval) (key : string) (e : exn) :
  getProp w v key = inl e -> responseData_of e = undefined.
Proof.
  destruct v as [[| | | | |]|]; cbn [getProp]; try discriminate;
    apply engineError_throws.
Qed.

Lemma ToStringValue_throws (v : jsval) (e : exn) :
  ToStringValue w v = inl e -> responseData_of e = undefined.
Proof.
  destruct v as [j|]; [|discriminate].
  intros H. rewrite (ToString_throws w _ _ H). reflexivity.
Qed.

Lemma parseInt_throws (v : jsval) (e : exn) :
  parseInt w v = inl e -> responseData_of e = undefined.
Proof.
  unfold parseInt. intros H. unfold_pure in H.
  destruct (ToStringValue w v) as [e'|text] eqn:E; [|discriminate H].
  apply inl_inj in H. subst e'. exact (ToStringValue_throws _ _ E).
Qed.

Lemma substringOf_throws (v : jsval) (n : nat) (e : exn) :
  substringOf w v n = inl e -> responseData_of e = undefined.
Proof.
  destruct v as [[| | | | |]|]; cbn [substringOf]; try discriminate;
    apply engineError_throws.
Qed.

Lemma shortItems_throws (v : jsval) (e : exn) :
  shortItems w v = inl e -> responseData_of e = undefined.
Proof.
  destruct v as [[| | | |items|]|]; unfold shortItems; try discriminate.
  intros H. unfold_pure in H.
  destruct (mapPure _ items) as [e'|mapped] eqn:E; [|discriminate H].
  apply inl_inj in H. subst e'. clear -E.
  revert e E. induction items as [|x items IH]; intros e E; [discriminate E|].
  cbn [mapPure] in E. unfold_pure in E.
  destruct (ToString w x) as [e'|text] eqn:Ex.
  - apply inl_inj in E. subst e'.
    rewrite (ToString_throws w _ _ Ex). reflexivity.
  - destruct (mapPure _ items) as [e'|ys] eqn:Ey; [|discriminate E].
    apply inl_inj in E. subst e'. exact (IH _ eq_refl).
Qed.

Lemma evaluationOfParsed_throws (parsed : json) (max : number) (e : exn) :
  evaluationOfParsed w parsed max = inl e -> responseData_of e = undefined.
Proof.
  unfold evaluationOfParsed. intros H. unfold_pure in H.
  repeat match type of H with
         | context [match ?c with inl _ => _ | inr _ => _ end] =>
             let E := fresh "E" in
             destruct c eqn:E;
             [ apply inl_inj in H; subst;
               eauto using getProp_throws, parseInt_throws,
                 substringOf_throws, shortItems_throws |]
         end.
  discriminate H.
Qed.

Lemma evaluationOfText_throws (result : json) (max : number) (e : exn) :
  evaluationOfText w result max = inl e -> responseData_of e = undefined.
Proof.
  unfold evaluationOfText. intros H. unfold_pure in H.
  destruct (ToString w result) as [e'|text] eqn:E.
  - apply inl_inj in H. subst e'.
    rewrite (ToString_throws w _ _ E). reflexivity.
  - destruct result; try discriminate H;
      exact (engineError_throws _ _ H).
Qed.

Lemma evaluationOfResponse_throws (data : jsval) (max : number) (e : exn) :
  evaluationOfResponse w data max = inl e -> responseData_of e = undefined.
Proof.
  unfold evaluationOfResponse, responseContent. intros H. unfold_pure in H.
  destruct (getProp w data "choices") as [e'|choices] eqn:E.
  - apply inl_inj in H. subst e'. exact (getProp_throws _ _ _ E).
  - destruct (getPropOptional _ "content") as [content|].
    + destruct (negb (truthy (Some content))).
      * apply inl_inj in H. subst e. reflexivity.
      * destruct (parseResult w content).
        -- exact (evaluationOfText_throws _ _ _ H).
        -- exact (evaluationOfParsed_throws _ _ _ H).
    + apply inl_inj in H. subst e. reflexivity.
Qed.

(** The outer [catch] returns when the error carries no answer of a
    server. *)
Lemma failedEvaluation_returns (e : exn) :
  responseData_of e = undefined ->
  failedEvaluation w e
  = inr {| Groq.score := Int 0;
           Groq.summary := "Evaluation failed: " ++ message_of e;
           Groq.strengths := [];
           Groq.weaknesses := [];
           Groq.recommendations := "" |}.
Proof.
  intros H. unfold failedEvaluation, responseMessage_of. rewrite H.
  reflexivity.
Qed.

(** The evaluator throws after its request only out of its [catch] block:
    the request was rejected, and the message found has no conversion to a
    string. *)
Lemma evaluateWithGroq_throws_after_request
  (files : list CollectedFile) (max : number) (e : exn) :
  evaluateWithGroq w files max
  = (inl e, [ConfigGet "GROQ_API_KEY"; HttpPost groqApiUrl]) ->
  exists message data,
    post_result w groqApiUrl (or_string (config w "GROQ_API_KEY") "")
      (buildPrompt (codeContentOf files) max)
    = Rejected message data
    /\ ToStringValue w
         (or_value (getPropOptional (getPropOptional data "error") "message")
            (Some (JStr message)))
       = inl e.
Proof.
  destruct (truthy_undefined (config w "GROQ_API_KEY")) eqn:K.
  - rewrite (evaluateWithGroq_present _ _ _ K).
    destruct (post_result w groqApiUrl _ _) as [data|message data].
    + destruct (evaluationOfResponse w data max) as [e'|g] eqn:E.
      * rewrite (failedEvaluation_returns e'
                   (evaluationOfResponse_throws _ _ _ E)).
        discriminate.
      * discriminate.
    + intros H. exists message, data. split; [reflexivity|].
      apply (f_equal fst) in H. cbn [fst] in H.
      unfold failedEvaluation, responseMessage_of in H.
      cbn [responseData_of] in H. unfold_pure in H.
      destruct (ToStringValue w _) as [e'|text]; [|discriminate H].
      apply inl_inj in H. subst e'. reflexivity.
  - rewrite (evaluateWithGroq_absent _ _ _ K). discriminate.
Qed.

End EvaluatorSummary.

(** X8: with the credential configured and a budget that is not negative,
    the evaluator reads the credential and sends one request, with the
    prompt made from the files and the budget.  When the API resolves the
    request the evaluator returns, whatever the body is.  When the API
    rejects it, the evaluator returns the evaluation of score 0 whose
    summary is [Evaluation failed: ] followed by the error message of the
    body, or by the message of the error when the body has none that is
    truthy; it throws, out of its [catch] block, exactly when that message
    has no conversion to a string.  Every evaluation that it returns has a
    score within the budget, a summary that is not empty, lists of at most
    five items of at most 150 characters and a recommendation of at most
    200 characters. *)
Theorem evaluator_outcome_with_credential
  (w : World) (files : list CollectedFile) (m : Z) :
  truthy_undefined (config w "GROQ_API_KEY") = true ->
  0 <= m ->
  let answer :=
    post_result w groqApiUrl (or_string (config w "GROQ_API_KEY") "")
      (buildPrompt (codeContentOf files) (Int m)) in
  trace (evaluateWithGroq w files (Int m))
  = [ConfigGet "GROQ_API_KEY"; HttpPost groqApiUrl]
  /\ (forall data,
        answer = Resolved data -> returns (evaluateWithGroq w files (Int m)))
  /\ (forall message data,
        answer = Rejected message data ->
        match ToStringValue w
                (or_value
                   (getPropOptional (getPropOptional data "error") "message")
                   (Some (JStr message))) with
        | inr text =>
            outcome (evaluateWithGroq w files (Int m))
            = inr {| Groq.score := Int 0;
                     Groq.summary := "Evaluation failed: " ++ text;
                     Groq.strengths := [];
                     Groq.weaknesses := [];
                     Groq.recommendations := "" |}
        | inl e => outcome (evaluateWithGroq w files (Int m)) = inl e
        end)
  /\ (forall g,
        outcome (evaluateWithGroq w files (Int m)) = inr g ->
        in_range 0 m (Groq.score g)
        /\ Groq.summary g <> ""
        /\ (List.length (Groq.strengths g) <= 5)%nat
        /\ Forall (fun s => (String.length s <= 150)%nat) (Groq.strengths g)
        /\ (List.length (Groq.weaknesses g) <= 5)%nat
        /\ Forall (fun s => (String.length s <= 150)%nat)
             (Groq.weaknesses g)
        /\ (String.length (Groq.recommendations g) <= 200)%nat).
Proof.
  intros K Hm answer.
  pose proof (evaluateWithGroq_present w files (Int m) K) as P.
  fold answer in P.
  split; [unfold trace; rewrite P; reflexivity|].
  split.
  { intros data A. unfold returns, outcome. rewrite P, A. cbn [fst].
    destruct (evaluationOfResponse w data (Int m)) as [e|g] eqn:E.
    - rewrite (failedEvaluation_returns w e
                 (evaluationOfResponse_throws w _ _ _ E)).
      eexists. reflexivity.
    - exists g. reflexivity. }
  split.
  { intros message data A. unfold outcome. rewrite P, A. cbn [fst].
    unfold failedEvaluation, responseMessage_of. cbn [responseData_of].
    destruct (ToStringValue w _) as [e|text]; reflexivity. }
  intros g O.
  split.
  { destruct (evaluateWithGroq_cases w files m Hm)
      as [[_ E]|[[g' [E S]]|E]];
      unfold outcome in O; rewrite E in O; cbn [fst] in O;
      try discriminate O.
    apply inr_inj in O. subst g'. exact S. }
  split; [exact (evaluateWithGroq_summary w files (Int m) g O)|].
  destruct (evaluateWithGroq_caps w files m g O)
    as [(_ & C1 & C2 & C3 & C4 & C5)|[e F]].
  - repeat split; assumption.
  - exact (failedEvaluation_caps w e g F).
Qed.

(** X9: an answer that parses to a JSON object without the fields [score],
    [summary], [strengths], [weaknesses] and [recommendations].  When the
    field [feedback] is absent or falsy ([null], [false], 0, the empty
    string) the answer is not an error: the score is 0
    ([parseInt(undefined)] is [NaN], which [|| 0] replaces), the lists and
    the recommendation are empty and the summary is [No summary provided].
    When [feedback] is a string that is not empty it is the summary, cut at
    300.  When [feedback] is truthy and no string (a number, [true], an
    array, an object) the call of [substring] throws a [TypeError]. *)
Theorem answer_without_fields_gets_defaults
  (w : World) (props : list (string * json)) (m : Z) :
  lookup "score" props = None ->
  lookup "summary" props = None ->
  lookup "strengths" props = None ->
  lookup "weaknesses" props = None ->
  lookup "recommendations" props = None ->
  0 <= m ->
  let evaluation (summary : string) : Groq.Evaluation :=
    {| Groq.score := Int 0;
       Groq.summary := summary;
       Groq.strengths := [];
       Groq.weaknesses := [];
       Groq.recommendations := "" |} in
  evaluationOfParsed w (JObj props) (Int m)
  = if truthy (lookup "feedback" props) then
      match lookup "feedback" props with
      | Some (JStr text) => inr (evaluation (substring0 300 text))
      | _ => inl (Error (engine_message w (NotAFunction "substring")))
      end
    else inr (evaluation "No summary provided").
Proof.
  intros H1 H2 H4 H5 H6 Hm evaluation.
  unfold evaluationOfParsed, getProp.
  cbn [bind ret MonadExn_Pure].
  rewrite H1, H2, H4, H5, H6.
  change (parseInt w None) with (@inr exn number NaN).
  cbn [or_number truthy_number Math.max Math.min shortItems bind ret
       MonadExn_Pure].
  unfold evaluation.
  destruct (lookup "feedback" props)
    as [[| [|] | n | [|c text] | items | ps]|];
    unfold or_value; cbn [truthy truthy_string];
    try (destruct n; cbn [truthy]);
    repeat match goal with
           | |- context [negb (Qeq_bool ?q 0)] =>
               destruct (negb (Qeq_bool q 0))
           end;
    cbn; rewrite ?(Z.min_l 0 m Hm); reflexivity.
Qed.

(** ** The prompt *)

Lemma includes_unfold (s sub : string) :
  includes s sub
  = prefix sub s
    || match s with
       | "" => false
       | String _ s' => includes s' sub
       end.
Proof. destruct s; reflexivity. Qed.

Lemma prefix_append (sub x b : string) :
  prefix sub x = true -> prefix sub (x ++ b) = true.
Proof.
  revert x. induction sub as [|c sub IH]; intros x H;
    [destruct (x ++ b); reflexivity|].
  destruct x as [|d x]; [discriminate H|].
  cbn [append prefix] in *. destruct (ascii_dec c d); [|discriminate H].
  apply IH, H.
Qed.

Lemma prefix_refl (s : string) : prefix s s = true.
Proof.
  induction s as [|c s IH]; [reflexivity|].
  cbn [prefix]. destruct (ascii_dec c c); [exact IH | congruence].
Qed.

Lemma includes_append_l (x b sub : string) :
  includes x sub = true -> includes (x ++ b) sub = true.
Proof.
  induction x as [|c x IH]; intros H.
  - rewrite includes_unfold in H. rewrite orb_false_r in H.
    rewrite includes_unfold. rewrite (prefix_append _ _ b H). reflexivity.
  - cbn [includes] in H. apply orb_true_iff in H.
    change (String c x ++ b) with (String c (x ++ b)). cbn [includes].
    apply orb_true_iff. destruct H as [H|H].
    + left. exact (prefix_append _ _ b H).
    + right. apply IH, H.
Qed.

Lemma includes_append_r (a x sub : string) :
  includes x sub = true -> includes (a ++ x) sub = true.
Proof.
  intros H. induction a as [|c a IH]; [exact H|].
  cbn [append includes]. rewrite IH. apply orb_true_r.
Qed.

Lemma includes_refl (s : string) : includes s s = true.
Proof. rewrite includes_unfold, prefix_refl. reflexivity. Qed.

(** A text that holds [mid] holds what [mid] holds. *)
Lemma includes_trans (s mid sub : string) :
  includes s mid = true -> includes mid sub = true -> includes s sub = true.
Proof.
  intros H1 H2. induction s as [|c s IH].
  - rewrite includes_unfold, orb_false_r in H1.
    destruct mid; [exact H2 | discriminate H1].
  - cbn [includes] in H1. apply orb_true_iff in H1. destruct H1 as [H1|H1].
    + clear IH. revert H1. generalize (String c s). clear c s.
      intros s H1.
      assert (D : exists b, s = mid ++ b).
      { clear H2. revert s H1.
        induction mid as [|d mid IHm]; intros s H1; [exists s; reflexivity|].
        destruct s as [|e s]; [discriminate H1|].
        cbn [prefix] in H1. destruct (ascii_dec d e); [|discriminate H1].
        subst e. destruct (IHm s H1) as [b ->]. exists b. reflexivity. }
      destruct D as [b ->]. apply includes_append_l, H2.
    + cbn [includes]. rewrite (IH H1). apply orb_true_r.
Qed.

(** A text joined with others is in the result. *)
Lemma includes_join (sep x : string) (l : list string) :
  In x l -> includes (join sep l) x = true.
Proof.
  unfold join. induction l as [|y l IH]; intros H; [destruct H|].
  destruct l as [|z l].
  - destruct H as [->|[]]. apply includes_refl.
  - change (concat sep (y :: z :: l))
      with (y ++ sep ++ concat sep (z :: l)).
    destruct H as [->|H].
    + apply includes_append_l, includes_refl.
    + apply includes_append_r, includes_append_r, IH, H.
Qed.

Lemma buildPrompt_holds_every_file
  (files : list CollectedFile) (max : number) (file : CollectedFile) :
  In file files ->
  includes (buildPrompt (codeContentOf files) max) (fileText file) = true.
Proof.
  intros H.
  apply (includes_trans _ (codeContentOf files)).
  - unfold buildPrompt, lines. apply includes_join.
    do 8 right. left. reflexivity.
  - unfold codeContentOf. apply includes_join.
    exact (in_map fileText files file H).
Qed.

(** X10: the request that the evaluator sends carries a prompt that holds
    every collected file in full: for each file, the header with its path
    followed by its whole content, whatever the number and the size of the
    files and whatever the budget.  What the evaluator gives is what it
    makes of the answer of the API to that prompt. *)
Theorem prompt_holds_every_file
  (w : World) (files : list CollectedFile) (max : number) :
  truthy_undefined (config w "GROQ_API_KEY") = true ->
  exists prompt,
    (forall file,
       In file files -> includes prompt (fileText file) = true)
    /\ evaluateWithGroq w files max
       = (match post_result w groqApiUrl
                  (or_string (config w "GROQ_API_KEY") "") prompt with
          | Rejected m data => failedEvaluation w (AxiosError m data)
          | Resolved data =>
              match evaluationOfResponse w data max with
              | inr g => inr g
              | inl e => failedEvaluation w e
              end
          end,
          [ConfigGet "GROQ_API_KEY"; HttpPost groqApiUrl]).
Proof.
  intros K. exists (buildPrompt (codeContentOf files) max). split.
  - intros file H. exact (buildPrompt_holds_every_file files max file H).
  - exact (evaluateWithGroq_present w files max K).
Qed.

(** ** More runs of the pipeline *)

(** The walk of the collector only lists directories and reads files. *)
Lemma collectFilesRecursively_reads (P : event -> Prop) :
  (forall d, P (Readdir d)) -> (forall f, P (ReadFile f)) ->
  forall (node : Dirent) (dir rel : string) (files : list CollectedFile),
    Forall P (snd (collectFilesRecursively dir rel node files)).
Proof.
  intros Hd Hf.
  fix IH 1.
  intros [name content|name [entries|]|name] dir rel files.
  - constructor.
  - cbn [collectFilesRecursively].
    match goal with
    | |- context [(fix each (entries : list Dirent)
                     (files : list CollectedFile) {struct entries} := _)
                    entries files] =>
        set (each := fix each (entries : list Dirent)
                       (files : list CollectedFile) {struct entries}
                       : list CollectedFile * bool * list event := _)
    end.
    enough (Heach : Forall P (snd (each entries files))).
    { destruct (each entries files) as [r t].
      cbn [snd] in *. constructor; [apply Hd | exact Heach]. }
    revert files.
    induction entries as [|entry es IHes]; intros fs.
    + constructor.
    + pose proof (IH entry) as Hentry.
      cbn [each]. fold each.
      destruct entry as [n c|n sub|n].
      * destruct (endsWith n ".dart").
        -- specialize
             (IHes match c with
                   | Some text =>
                       push fs {| path := path_relative rel n;
                                  content := text |}
                   | None => fs
                   end).
           destruct (each es _) as [r t']. cbn [snd] in *.
           constructor; [apply Hf | exact IHes].
        -- apply IHes.
      * specialize (Hentry (path_join dir n) (path_relative rel n) fs).
        destruct (collectFilesRecursively (path_join dir n)
                    (path_relative rel n) (Directory n sub) fs)
          as [[fs' returned] t].
        cbn [snd] in Hentry. destruct returned.
        -- specialize (IHes fs'). destruct (each es fs') as [r t'].
           cbn [snd] in *. apply Forall_app. split; assumption.
        -- exact Hentry.
      * apply IHes.
  - repeat constructor. apply Hd.
  - constructor.
Qed.

Section WorkspaceCalls.

Variable w : World.

Lemma checkRequiredFiles_keeps_workspace (repoPath : string) :
  Forall (fun e => workspaceCall e = false)
    (trace (checkRequiredFiles w repoPath)).
Proof.
  unfold trace, checkRequiredFiles, pathExists, call.
  cbn. world_cases; cbn; repeat constructor.
Qed.

Lemma runFlutterPubGet_keeps_workspace (repoPath : string) :
  Forall (fun e => workspaceCall e = false)
    (trace (runFlutterPubGet w repoPath)).
Proof.
  unfold trace, runFlutterPubGet, execAsync, call.
  cbn. world_cases; cbn; repeat constructor.
Qed.

Lemma checkBuild_keeps_workspace (repoPath : string) :
  Forall (fun e => workspaceCall e = false) (trace (checkBuild w repoPath)).
Proof.
  unfold trace, checkBuild, execAsync, call.
  cbn. world_cases; cbn; repeat constructor.
Qed.

Lemma runFlutterTest_keeps_workspace (repoPath : string) :
  Forall (fun e => workspaceCall e = false)
    (trace (runFlutterTest w repoPath)).
Proof.
  unfold trace, runFlutterTest, execAsync, call.
  cbn. world_cases; cbn; repeat constructor.
Qed.

Lemma collectLibFiles_keeps_workspace (repoPath : string) :
  Forall (fun e => workspaceCall e = false)
    (trace (collectLibFiles w repoPath)).
Proof.
  unfold trace, collectLibFiles, pathExists, call.
  cbn -[collectFilesRecursively].
  destruct (path_exists w (path_join repoPath "lib")); cbn [negb].
  - pose proof (collectFilesRecursively_reads
                  (fun e => workspaceCall e = false)
                  (fun _ => eq_refl) (fun _ => eq_refl)
                  (Directory "lib" (readdir_result w (path_join repoPath "lib")))
                  (path_join repoPath "lib") "" []) as H.
    destruct (collectFilesRecursively _ _ _ _) as [[files returned] t].
    cbn [snd] in *. constructor; [reflexivity | exact H].
  - repeat constructor.
Qed.

End WorkspaceCalls.

(** A list of calls that ends with the call [x]. *)
Lemma ends_here (P : event -> Prop) (x : event) :
  exists calls, [x] = (calls ++ [x])%list /\ Forall P calls.
Proof. exists []. split; [reflexivity | constructor]. Qed.

Lemma ends_cons (P : event -> Prop) (x e : event) (l : list event) :
  P e ->
  (exists calls, l = (calls ++ [x])%list /\ Forall P calls) ->
  exists calls, e :: l = (calls ++ [x])%list /\ Forall P calls.
Proof.
  intros He (calls & -> & H). exists (e :: calls).
  split; [reflexivity | constructor; assumption].
Qed.

Lemma ends_app (P : event -> Prop) (x : event) (l1 l2 : list event) :
  Forall P l1 ->
  (exists calls, l2 = (calls ++ [x])%list /\ Forall P calls) ->
  exists calls, (l1 ++ l2)%list = (calls ++ [x])%list /\ Forall P calls.
Proof.
  intros H1 (calls & -> & H). exists (l1 ++ calls)%list.
  split; [apply app_assoc | apply Forall_app; split; assumption].
Qed.

#[local] Opaque cloneRepository checkRequiredFiles runFlutterPubGet checkBuild
  runFlutterTest collectLibFiles evaluateWithGroq.

(** X11: once the clone gave a workspace, the run ends with the removal of
    that workspace, whatever happens in between: a stage fails, the
    collection is empty, the evaluator throws, or the run completes.  The
    calls between the clone and that removal remove nothing and clone
    nothing. *)
Theorem workspace_is_removed_last (w : World) (repoUrl repoPath : string) :
  isValidGitHubUrl w repoUrl = true ->
  outcome (cloneRepository w repoUrl) = inr (Some repoPath) ->
  exists calls,
    trace (evaluate w repoUrl)
    = (trace (cloneRepository w repoUrl) ++ calls ++ [Remove repoPath])%list
    /\ Forall (fun e => workspaceCall e = false) calls.
Proof.
  intros Hvalid Hclone.
  pose proof (checkRequiredFiles_keeps_workspace w repoPath) as K1.
  pose proof (runFlutterPubGet_keeps_workspace w repoPath) as K2.
  pose proof (checkBuild_keeps_workspace w repoPath) as K3.
  pose proof (runFlutterTest_keeps_workspace w repoPath) as K4.
  pose proof (collectLibFiles_keeps_workspace w repoPath) as K5.
  start_run w repoUrl.
  pipeline Ev; try congruence.
  all: rewrite <- ?app_assoc.
  all: match goal with
       | |- exists calls, (?t ++ ?rest)%list = _ /\ _ =>
           enough (exists calls,
                     rest = (calls ++ [Remove repoPath])%list
                     /\ Forall (fun e => workspaceCall e = false) calls)
             as (calls & -> & Hcalls');
           [exists calls; split; [reflexivity | exact Hcalls']|]
       end.
  all: repeat first [ apply ends_here
                    | apply ends_cons; [reflexivity|]
                    | apply ends_app; [assumption|] ].
Qed.

(** X12: the run throws in three cases only.  A locator that is rejected
    gives the client-input error, before any call.  A missing credential
    gives the configuration error of the evaluator, after every stage ran
    and just before the removal of the workspace.  And when the API rejects
    the request with a body whose error message has no conversion to a
    string, the [catch] block of the evaluator throws and the run throws
    the wrapped error [Evaluation failed: ...], after the request and just
    before the removal of the workspace.  No failure of git, of a command
    or of the file system makes the run throw, and no answer of the API
    that resolves the request does. *)
Theorem evaluate_throws_only (w : World) (repoUrl : string) (e : exn) :
  outcome (evaluate w repoUrl) = inl e ->
  (e = BadRequestException "Invalid GitHub repository URL"
   /\ isValidGitHubUrl w repoUrl = false
   /\ trace (evaluate w repoUrl) = [])
  \/ (e = credentialMissing
      /\ credentialAbsent w
      /\ isValidGitHubUrl w repoUrl = true
      /\ exists repoPath calls,
           outcome (cloneRepository w repoUrl) = inr (Some repoPath)
           /\ trace (evaluate w repoUrl)
              = (calls ++ [ConfigGet "GROQ_API_KEY"; Remove repoPath])%list)
  \/ (e = InternalServerErrorException
            ("Evaluation failed: "
               ++ or_string (Some (engine_message w NotPrimitive))
                    "Unknown error")
      /\ isValidGitHubUrl w repoUrl = true
      /\ (exists files budget message data,
            post_result w groqApiUrl
              (or_string (config w "GROQ_API_KEY") "")
              (buildPrompt (codeContentOf files) budget)
            = Rejected message data
            /\ ToStringValue w
                 (or_value
                    (getPropOptional (getPropOptional data "error")
                       "message")
                    (Some (JStr message)))
               = inl (Error (engine_message w NotPrimitive)))
      /\ exists repoPath calls,
           outcome (cloneRepository w repoUrl) = inr (Some repoPath)
           /\ trace (evaluate w repoUrl)
              = (calls
                 ++ [ConfigGet "GROQ_API_KEY"; HttpPost groqApiUrl;
                     Remove repoPath])%list).
Proof.
  intros H. start_run w repoUrl. subst result.
  pipeline Ev.
  all: try (left; repeat split; reflexivity).
  all: right.
  all: match goal with
       | Eg : evaluateWithGroq _ _ _ = (inl credentialMissing, _) |- _ =>
           left; split; [reflexivity|]; split; [assumption|];
           split; [reflexivity|]
       | Eg : evaluateWithGroq _ _ _ = (inl (Error _), _) |- _ =>
           right; split; [reflexivity|]; split; [reflexivity|];
           split;
           [ destruct (evaluateWithGroq_throws_after_request _ _ _ _ Eg)
               as (message & data & A & B);
             eexists; eexists; exists message, data;
             split; [exact A | exact B] |]
       end.
  all: rewrite ?app_nil_r, <- ?app_assoc.
  all: match goal with
       | |- exists p calls, inr (Some ?s) = _ /\ _ =>
           exists s; eexists; split; [reflexivity|]
       end.
  all: cbn [app]; rewrite !app_assoc; reflexivity.
Qed.

(** X13: when the locator is accepted and the clone fails, the run returns
    the response of total 0 whose one check is the failed clone check, with
    every flag false and no quality-evaluation record.  The calls of the
    run are those of [cloneRepository] and nothing else: no stage runs, and
    the [finally] block removes nothing, since no workspace was recorded. *)
Theorem clone_failure_ends_run (w : World) (repoUrl : string) :
  isValidGitHubUrl w repoUrl = true ->
  outcome (cloneRepository w repoUrl) = inr None ->
  evaluate w repoUrl
  = (inr {| totalScore := Int 0;
            maxScore := Int 20;
            checks := [ {| name := "Clone Repository"; passed := false;
                           message := Some "Failed to clone repository";
                           score := Int 0 |} ];
            feedback := Some "Repository cloning failed. Score: 0/20";
            summary := Some "Repository cloning failed. Score: 0/20";
            details :=
              {| cloneSuccessful := false; filesValid := false;
                 pubGetSuccessful := false; buildSuccessful := false;
                 testsPassed := false; groqEvaluation := None |} |},
     trace (cloneRepository w repoUrl)).
Proof.
  intros Hvalid Hclone.
  start_run w repoUrl.
  pipeline Ev; try congruence.
  all: rewrite ?app_nil_r; reflexivity.
Qed.

(** X14: when the clone succeeds and one of the two required files is
    absent, the run returns the response of total 0 with two checks, the
    second one failed; its feedback names exactly the missing file or
    files.  Both files are looked for, then the workspace is removed; no
    command is executed. *)
Theorem missing_file_ends_run (w : World) (repoUrl repoPath : string) :
  isValidGitHubUrl w repoUrl = true ->
  outcome (cloneRepository w repoUrl) = inr (Some repoPath) ->
  path_exists w (pubspecOf repoPath) = false
  \/ path_exists w (mainDartOf repoPath) = false ->
  exists r,
    outcome (evaluate w repoUrl) = inr r
    /\ totalScore r = Int 0
    /\ map name (checks r) = ["Clone Repository"; "Required Files Check"]
    /\ map passed (checks r) = [true; false]
    /\ feedback r
       = Some (match path_exists w (pubspecOf repoPath),
                     path_exists w (mainDartOf repoPath) with
               | false, false => "pubspec.yaml and lib/main.dart are missing"
               | false, true => "pubspec.yaml is missing"
               | _, _ => "lib/main.dart is missing"
               end)
    /\ filesValid (details r) = false
    /\ trace (evaluate w repoUrl)
       = (trace (cloneRepository w repoUrl)
          ++ [PathExists (pubspecOf repoPath);
              PathExists (mainDartOf repoPath);
              Remove repoPath])%list.
Proof.
  intros Hvalid Hclone Hmissing.
  pose proof (checkRequiredFiles_spec w repoPath) as Hfiles.
  start_run w repoUrl.
  pipeline Ev; try congruence.
  all: apply pair_equal_spec in Hfiles; destruct Hfiles as [Hr Ht].
  all: apply inr_inj in Hr.
  all: injection Hr as Hv Hm.
  all: try (symmetry in Hv; apply andb_true_iff in Hv;
            destruct Hv as [V1 V2]; destruct Hmissing; congruence).
  all: eexists; split; [reflexivity|]; cbn.
  all: subst; rewrite <- ?app_assoc; cbn [app].
  all: destruct (path_exists w (pubspecOf repoPath));
    destruct (path_exists w (mainDartOf repoPath));
    try discriminate; repeat split.
Qed.

(** X15: every response that the run returns is consistent.  Its maximum is
    20; the names of its checks are the first names of the stages, in the
    order of the stages; its summary is its feedback, a text that is not
    empty; the [passed] bit of each check is the flag of its stage in the
    details; and a failed check is the last one, unless it is the check of
    the test stage. *)
Theorem response_is_consistent
  (w : World) (repoUrl : string) (r : EvaluateResponseDto) :
  outcome (evaluate w repoUrl) = inr r ->
  maxScore r = Int 20
  /\ map name (checks r) = firstn (List.length (checks r)) stageNames
  /\ summary r = feedback r
  /\ (exists text, feedback r = Some text /\ text <> "")
  /\ Forall (fun c => passed c = flagOf (details r) (name c)) (checks r)
  /\ Forall (fun c => passed c = true \/ name c = "Flutter Test")
       (removelast (checks r)).
Proof.
  intros H. start_run w repoUrl. subst result.
  pipeline Ev; cbn.
  all: try (assert (Hs : Groq.summary g <> "")
             by (eapply evaluateWithGroq_summary; unfold outcome;
                 rewrite Eg; reflexivity)).
  all: repeat match goal with
              | |- _ /\ _ => split
              end.
  all: try reflexivity.
  all: try (unfold or_undefined; destruct (truthy_string _); reflexivity).
  all: try (eexists; split; [reflexivity|];
            first [ exact Hs
                  | apply or_string_nonempty; discriminate
                  | discriminate ]).
  all: repeat first
         [ apply Forall_nil
         | apply Forall_cons;
           [first [reflexivity | left; reflexivity | right; reflexivity]|] ].
Qed.

(** X16: the total of a response against its checks.  When the build stage
    succeeded, or the run ended at the clone or at the required files, the
    total is the sum of the scores of the checks.  When the install stage
    or the build stage failed the total is 5 although every check scores
    0.  With a quality-evaluation record, the total is the points of the
    test stage plus the score of that record. *)
Theorem total_against_checks
  (w : World) (repoUrl : string) (r : EvaluateResponseDto) :
  outcome (evaluate w repoUrl) = inr r ->
  (buildSuccessful (details r) = true \/ filesValid (details r) = false ->
   totalScore r = sumScores (checks r))
  /\ (filesValid (details r) = true ->
      buildSuccessful (details r) = false ->
      totalScore r = Int 5 /\ sumScores (checks r) = Int 0)
  /\ (forall g,
        groqEvaluation (details r) = Some g ->
        totalScore r = plus (Int (testPoints r)) (Groq.score g)).
Proof.
  intros H. start_run w repoUrl. subst result.
  pipeline Ev; cbn.
  all: try rewrite (min_within_budget _ _ Hg).
  all: try (destruct Hg as [z [Hz Hr]]; rewrite Hz).
  all: unfold sumScores, testPoints; cbn.
  all: repeat split; try discriminate; try reflexivity.
  all: try (intros [D|D]; try discriminate D; reflexivity).
  all: try (intros g0 D; try discriminate D; injection D as <-; cbn;
            reflexivity).
Qed.

(** X17: the quality-evaluation record of a response is the evaluation that
    the evaluator returned for the files collected in the workspace, asked
    with the budget that the test stage left, and it is carried unchanged:
    the [Math.min] of the orchestrator never lowers its score.  The
    collection was not empty, and the summary of the record is the summary
    of the response. *)
Theorem quality_record_is_the_evaluators
  (w : World) (repoUrl repoPath : string) (files : list CollectedFile)
  (r : EvaluateResponseDto) (record : Groq.Evaluation) :
  outcome (evaluate w repoUrl) = inr r ->
  groqEvaluation (details r) = Some record ->
  outcome (cloneRepository w repoUrl) = inr (Some repoPath) ->
  outcome (collectLibFiles w repoPath) = inr files ->
  summary r = Some (Groq.summary record)
  /\ files <> []
  /\ outcome (evaluateWithGroq w files (Int (20 - testPoints r)))
     = inr record.
Proof.
  intros H Hrecord Hclone Hlib. start_run w repoUrl. subst result.
  pipeline Ev; cbn in Hrecord; try discriminate Hrecord; try congruence.
  all: rewrite (min_within_budget _ _ Hg) in *.
  all: apply (f_equal (fun o => match o with Some x => x | None => g end))
         in Hrecord.
  all: assert (Hsame : g = record)
         by (rewrite <- Hrecord; destruct g; reflexivity).
  all: subst g; cbn.
  all: split;
    [ unfold or_undefined; destruct (truthy_string _); reflexivity |].
  all: split; [discriminate|].
  all: unfold testPoints; cbn; rewrite Eg; reflexivity.
Qed.

(** X18: when every gating stage passes and the test stage succeeds, the
    test stage gives 5 points and the evaluator is asked with a budget of
    15.  The run makes the calls of the seven steps in order, then removes
    the workspace.  A response then has six checks, every one passed, the
    fifth one with score 5; its quality-evaluation record is the evaluation
    that the evaluator returned for the budget 15, and its total is 5 plus
    the score of that record, hence between 5 and 20. *)
Theorem passed_tests_leave_budget_of_fifteen
  (w : World) (repoUrl repoPath : string) (libFiles : list CollectedFile) :
  GatesPass w repoUrl repoPath ->
  succeeded (runFlutterTest w repoPath) = true ->
  outcome (collectLibFiles w repoPath) = inr libFiles ->
  libFiles <> [] ->
  trace (evaluate w repoUrl)
  = (gatingCalls w repoUrl repoPath
     ++ trace (runFlutterTest w repoPath)
     ++ trace (collectLibFiles w repoPath)
     ++ trace (evaluateWithGroq w libFiles (Int 15))
     ++ [Remove repoPath])%list
  /\ (returns (evaluateWithGroq w libFiles (Int 15)) ->
      exists r, outcome (evaluate w repoUrl) = inr r)
  /\ forall r,
       outcome (evaluate w repoUrl) = inr r ->
       map name (checks r) = stageNames
       /\ Forall (fun c => passed c = true) (checks r)
       /\ (exists c, nth_error (checks r) 4 = Some c /\ score c = Int 5)
       /\ exists g,
            outcome (evaluateWithGroq w libFiles (Int 15)) = inr g
            /\ groqEvaluation (details r) = Some g
            /\ totalScore r = plus (Int 5) (Groq.score g)
            /\ in_range 5 20 (totalScore r).
Proof.
  intros ((Hvalid & Hclone & Hfiles) & Hinstall & Hbuild) Htest Hlib Hne.
  unfold gatingCalls, returns.
  start_run w repoUrl.
  pipeline Ev; try congruence.
  all: try rewrite Eg.
  all: cbn [fst snd].
  all: split; [rewrite ?app_nil_r, <- ?app_assoc; reflexivity|].
  all: split;
    [ intros [a Ha]; try discriminate Ha; eexists; reflexivity
    | intros r Hr; try discriminate Hr ].
  all: apply inr_inj in Hr; subst r; cbn.
  all: rewrite (min_within_budget _ _ Hg).
  all: split; [reflexivity|].
  all: split; [repeat constructor|].
  all: split; [eexists; split; reflexivity|].
  all: exists g; split; [reflexivity|].
  all: split; [destruct g; reflexivity|]; cbn.
  all: destruct Hg as [z [-> Hz]].
  all: split; [reflexivity | unfold plus; apply in_range_Int; lia].
Qed.

(** ** The properties above at sample runs *)

(** The name of the sample repository. *)
Lemma repo_name_of_github_locator_witness :
  extractRepoName "https://github.com/student/todo" = "student-todo".
Proof.
  apply (repo_name_of_github_locator "student" "todo");
    first [discriminate | reflexivity].
Defined.

(** The collection of the sample repository: one file, read once. *)
Lemma collected_files_are_dart_files_witness :
  let files := [{| path := "main.dart"; content := "void main() {}" |}] in
  outcome (collectLibFiles Sample.graded Sample.repoPath) = inr files
  /\ Forall isDartFile files
  /\ (List.length files
      <= List.length
           (filter isReadFile
              (trace (collectLibFiles Sample.graded Sample.repoPath))))%nat.
Proof.
  intros files.
  assert (L : outcome (collectLibFiles Sample.graded Sample.repoPath)
              = inr files) by (vm_compute; reflexivity).
  split; [exact L|].
  exact (collected_files_are_dart_files
           Sample.graded Sample.repoPath files L).
Defined.

(** The sample answer, bare and in a code fence. *)
Lemma code_fence_is_unwrapped_witness :
  includes Sample.answerText "```" = false
  /\ stripCodeFences Sample.answerText = trim Sample.answerText
  /\ stripCodeFences
       ("```json" ++ newline ++ Sample.answerText ++ newline ++ "```")
     = trim Sample.answerText
  /\ stripCodeFences
       ("```" ++ newline ++ Sample.answerText ++ newline ++ "```")
     = trim Sample.answerText.
Proof.
  assert (H : includes Sample.answerText "```" = false)
    by (vm_compute; reflexivity).
  split; [exact H|].
  exact (code_fence_is_unwrapped Sample.answerText H).
Defined.

(** The evaluator in the world where the API answers 429 with an error
    message in the body. *)
Lemma evaluator_outcome_with_credential_witness :
  let files := [{| path := "main.dart"; content := "void main() {}" |}] in
  let answer :=
    post_result Sample.rateLimited groqApiUrl
      (or_string (config Sample.rateLimited "GROQ_API_KEY") "")
      (buildPrompt (codeContentOf files) (Int 15)) in
  answer
  = Rejected "Request failed with status code 429"
      (Some (JObj [("error", JObj [("message", JStr (Sample.letters 300))])]))
  /\ trace (evaluateWithGroq Sample.rateLimited files (Int 15))
     = [ConfigGet "GROQ_API_KEY"; HttpPost groqApiUrl]
  /\ (forall data,
        answer = Resolved data ->
        returns (evaluateWithGroq Sample.rateLimited files (Int 15)))
  /\ (forall message data,
        answer = Rejected message data ->
        match ToStringValue Sample.rateLimited
                (or_value
                   (getPropOptional (getPropOptional data "error") "message")
                   (Some (JStr message))) with
        | inr text =>
            outcome (evaluateWithGroq Sample.rateLimited files (Int 15))
            = inr {| Groq.score := Int 0;
                     Groq.summary := "Evaluation failed: " ++ text;
                     Groq.strengths := [];
                     Groq.weaknesses := [];
                     Groq.recommendations := "" |}
        | inl e =>
            outcome (evaluateWithGroq Sample.rateLimited files (Int 15))
            = inl e
        end)
  /\ (forall g,
        outcome (evaluateWithGroq Sample.rateLimited files (Int 15)) = inr g ->
        in_range 0 15 (Groq.score g)
        /\ Groq.summary g <> ""
        /\ (List.length (Groq.strengths g) <= 5)%nat
        /\ Forall (fun s => (String.length s <= 150)%nat) (Groq.strengths g)
        /\ (List.length (Groq.weaknesses g) <= 5)%nat
        /\ Forall (fun s => (String.length s <= 150)%nat)
             (Groq.weaknesses g)
        /\ (String.length (Groq.recommendations g) <= 200)%nat).
Proof.
  intros files answer.
  split; [reflexivity|].
  apply (evaluator_outcome_with_credential Sample.rateLimited files 15);
    [reflexivity | lia].
Defined.

(** An answer that holds a feedback and nothing else. *)
Lemma answer_without_fields_gets_defaults_witness :
  evaluationOfParsed Sample.graded
    (JObj [("feedback", JStr "Looks fine.")]) (Int 15)
  = inr {| Groq.score := Int 0;
           Groq.summary := "Looks fine.";
           Groq.strengths := [];
           Groq.weaknesses := [];
           Groq.recommendations := "" |}.
Proof.
  apply (answer_without_fields_gets_defaults Sample.graded
           [("feedback", JStr "Looks fine.")] 15);
    first [reflexivity | lia].
Defined.

(** The request for the sample collection. *)
Lemma prompt_holds_every_file_witness :
  let files := [{| path := "main.dart"; content := "void main() {}" |}] in
  exists prompt,
    (forall file,
       In file files -> includes prompt (fileText file) = true)
    /\ evaluateWithGroq Sample.graded files (Int 15)
       = (match post_result Sample.graded groqApiUrl
                  (or_string (config Sample.graded "GROQ_API_KEY") "")
                  prompt with
          | Rejected m data =>
              failedEvaluation Sample.graded (AxiosError m data)
          | Resolved data =>
              match evaluationOfResponse Sample.graded data (Int 15) with
              | inr g => inr g
              | inl e => failedEvaluation Sample.graded e
              end
          end,
          [ConfigGet "GROQ_API_KEY"; HttpPost groqApiUrl]).
Proof.
  intros files.
  apply (prompt_holds_every_file Sample.graded files (Int 15)).
  reflexivity.
Defined.

(** The workspace is removed also when the evaluator throws. *)
Lemma workspace_is_removed_last_witness :
  outcome (evaluate Sample.noCredential Sample.repoUrl)
  = inl credentialMissing
  /\ exists calls,
       trace (evaluate Sample.noCredential Sample.repoUrl)
       = (trace (cloneRepository Sample.noCredential Sample.repoUrl)
          ++ calls ++ [Remove Sample.repoPath])%list
       /\ Forall (fun e => workspaceCall e = false) calls.
Proof.
  split; [vm_compute; reflexivity|].
  apply (workspace_is_removed_last
           Sample.noCredential Sample.repoUrl Sample.repoPath);
    vm_compute; reflexivity.
Defined.

(** The run on the answer 429 whose error message is an object throws the
    wrapped error. *)
Lemma evaluate_throws_only_witness :
  let e :=
    InternalServerErrorException
      "Evaluation failed: Cannot convert object to primitive value" in
  let w := Sample.oddErrorBody in
  outcome (evaluate w Sample.repoUrl) = inl e
  /\ ((e = BadRequestException "Invalid GitHub repository URL"
       /\ isValidGitHubUrl w Sample.repoUrl = false
       /\ trace (evaluate w Sample.repoUrl) = [])
      \/ (e = credentialMissing
          /\ credentialAbsent w
          /\ isValidGitHubUrl w Sample.repoUrl = true
          /\ exists repoPath calls,
               outcome (cloneRepository w Sample.repoUrl)
               = inr (Some repoPath)
               /\ trace (evaluate w Sample.repoUrl)
                  = (calls
                     ++ [ConfigGet "GROQ_API_KEY"; Remove repoPath])%list)
      \/ (e = InternalServerErrorException
                ("Evaluation failed: "
                   ++ or_string (Some (engine_message w NotPrimitive))
                        "Unknown error")
          /\ isValidGitHubUrl w Sample.repoUrl = true
          /\ (exists files budget message data,
                post_result w groqApiUrl
                  (or_string (config w "GROQ_API_KEY") "")
                  (buildPrompt (codeContentOf files) budget)
                = Rejected message data
                /\ ToStringValue w
                     (or_value
                        (getPropOptional (getPropOptional data "error")
                           "message")
                        (Some (JStr message)))
                   = inl (Error (engine_message w NotPrimitive)))
          /\ exists repoPath calls,
               outcome (cloneRepository w Sample.repoUrl)
               = inr (Some repoPath)
               /\ trace (evaluate w Sample.repoUrl)
                  = (calls
                     ++ [ConfigGet "GROQ_API_KEY"; HttpPost groqApiUrl;
                         Remove repoPath])%list)).
Proof.
  intros e w.
  assert (H : outcome (evaluate w Sample.repoUrl) = inl e)
    by (vm_compute; reflexivity).
  split; [exact H|].
  exact (evaluate_throws_only w Sample.repoUrl e H).
Defined.

(** The run on a repository that does not exist. *)
Lemma clone_failure_ends_run_witness :
  isValidGitHubUrl Scenario.cloneFails Sample.repoUrl = true
  /\ outcome (cloneRepository Scenario.cloneFails Sample.repoUrl) = inr None
  /\ trace (evaluate Scenario.cloneFails Sample.repoUrl)
     = [PathExists Sample.repoPath;
        GitClone Sample.repoUrl Sample.repoPath]
  /\ exists r,
       outcome (evaluate Scenario.cloneFails Sample.repoUrl) = inr r
       /\ totalScore r = Int 0
       /\ List.length (checks r) = 1%nat.
Proof.
  assert (V : isValidGitHubUrl Scenario.cloneFails Sample.repoUrl = true)
    by (vm_compute; reflexivity).
  assert (C : outcome (cloneRepository Scenario.cloneFails Sample.repoUrl)
              = inr None) by (vm_compute; reflexivity).
  split; [exact V|]. split; [exact C|].
  unfold outcome, trace.
  rewrite (clone_failure_ends_run Scenario.cloneFails Sample.repoUrl V C).
  split; [vm_compute; reflexivity|].
  eexists. split; [reflexivity|]. split; reflexivity.
Defined.

(** The run on a clone that has a manifest and no entry point. *)
Lemma missing_file_ends_run_witness :
  path_exists Scenario.noEntryPoint (mainDartOf Sample.repoPath) = false
  /\ exists r,
       outcome (evaluate Scenario.noEntryPoint Sample.repoUrl) = inr r
       /\ totalScore r = Int 0
       /\ map name (checks r) = ["Clone Repository"; "Required Files Check"]
       /\ map passed (checks r) = [true; false]
       /\ feedback r = Some "lib/main.dart is missing"
       /\ filesValid (details r) = false
       /\ trace (evaluate Scenario.noEntryPoint Sample.repoUrl)
          = (trace (cloneRepository Scenario.noEntryPoint Sample.repoUrl)
             ++ [PathExists (pubspecOf Sample.repoPath);
                 PathExists (mainDartOf Sample.repoPath);
                 Remove Sample.repoPath])%list.
Proof.
  split; [vm_compute; reflexivity|].
  apply (missing_file_ends_run
           Scenario.noEntryPoint Sample.repoUrl Sample.repoPath).
  - vm_compute. reflexivity.
  - vm_compute. reflexivity.
  - right. vm_compute. reflexivity.
Defined.

(** The response of the graded run is consistent. *)
Lemma response_is_consistent_witness :
  exists r,
    outcome (evaluate Sample.graded Sample.repoUrl) = inr r
    /\ maxScore r = Int 20
    /\ map name (checks r) = firstn (List.length (checks r)) stageNames
    /\ summary r = feedback r
    /\ (exists text, feedback r = Some text /\ text <> "")
    /\ Forall (fun c => passed c = flagOf (details r) (name c)) (checks r)
    /\ Forall (fun c => passed c = true \/ name c = "Flutter Test")
         (removelast (checks r)).
Proof.
  eexists. split; [vm_compute; reflexivity|].
  apply (response_is_consistent Sample.graded Sample.repoUrl).
  vm_compute. reflexivity.
Defined.

(** The total is 5 and the checks sum to 0 when the install stage
    fails. *)
Lemma total_against_checks_witness :
  exists r,
    outcome (evaluate Sample.installFailure Sample.repoUrl) = inr r
    /\ totalScore r = Int 5
    /\ sumScores (checks r) = Int 0
    /\ (buildSuccessful (details r) = true
        \/ filesValid (details r) = false ->
        totalScore r = sumScores (checks r))
    /\ (filesValid (details r) = true ->
        buildSuccessful (details r) = false ->
        totalScore r = Int 5 /\ sumScores (checks r) = Int 0)
    /\ (forall g,
          groqEvaluation (details r) = Some g ->
          totalScore r = plus (Int (testPoints r)) (Groq.score g)).
Proof.
  eexists. split; [vm_compute; reflexivity|].
  split; [reflexivity|]. split; [reflexivity|].
  apply (total_against_checks Sample.installFailure Sample.repoUrl).
  vm_compute. reflexivity.
Defined.

(** The record of the graded run is what the evaluator returned: 12 out
    of a budget of 15. *)
Lemma quality_record_is_the_evaluators_witness :
  let files := [{| path := "main.dart"; content := "void main() {}" |}] in
  exists r record,
    outcome (evaluate Sample.graded Sample.repoUrl) = inr r
    /\ groqEvaluation (details r) = Some record
    /\ Groq.score record = Int 12
    /\ summary r = Some (Groq.summary record)
    /\ files <> []
    /\ outcome (evaluateWithGroq Sample.graded files
                  (Int (20 - testPoints r)))
       = inr record.
Proof.
  intros files.
  eexists. eexists. split; [vm_compute; reflexivity|].
  split; [reflexivity|]. split; [reflexivity|].
  apply (quality_record_is_the_evaluators
           Sample.graded Sample.repoUrl Sample.repoPath files);
    vm_compute; reflexivity.
Defined.

(** The graded run: the tests pass, the model gives 12, the total is 17. *)
Lemma passed_tests_leave_budget_of_fifteen_witness :
  let files := [{| path := "main.dart"; content := "void main() {}" |}] in
  GatesPass Sample.graded Sample.repoUrl Sample.repoPath
  /\ succeeded (runFlutterTest Sample.graded Sample.repoPath) = true
  /\ outcome (collectLibFiles Sample.graded Sample.repoPath) = inr files
  /\ trace (evaluate Sample.graded Sample.repoUrl)
     = (gatingCalls Sample.graded Sample.repoUrl Sample.repoPath
        ++ trace (runFlutterTest Sample.graded Sample.repoPath)
        ++ trace (collectLibFiles Sample.graded Sample.repoPath)
        ++ trace (evaluateWithGroq Sample.graded files (Int 15))
        ++ [Remove Sample.repoPath])%list
  /\ (returns (evaluateWithGroq Sample.graded files (Int 15)) ->
      exists r, outcome (evaluate Sample.graded Sample.repoUrl) = inr r)
  /\ forall r,
       outcome (evaluate Sample.graded Sample.repoUrl) = inr r ->
       map name (checks r) = stageNames
       /\ Forall (fun c => passed c = true) (checks r)
       /\ (exists c, nth_error (checks r) 4 = Some c /\ score c = Int 5)
       /\ exists g,
            outcome (evaluateWithGroq Sample.graded files (Int 15)) = inr g
            /\ groqEvaluation (details r) = Some g
            /\ totalScore r = plus (Int 5) (Groq.score g)
            /\ in_range 5 20 (totalScore r).
Proof.
  intros files.
  assert (G : GatesPass Sample.graded Sample.repoUrl Sample.repoPath)
    by (repeat split; vm_compute; reflexivity).
  assert (T : succeeded (runFlutterTest Sample.graded Sample.repoPath)
              = true) by (vm_compute; reflexivity).
  assert (L : outcome (collectLibFiles Sample.graded Sample.repoPath)
              = inr files) by (vm_compute; reflexivity).
  split; [exact G|]. split; [exact T|]. split; [exact L|].
  refine (passed_tests_leave_budget_of_fifteen
            Sample.graded Sample.repoUrl Sample.repoPath files G T L _).
  discriminate.
Defined.
